(** * Sarah AI agent: intent resolution and conversation context

    A shallow embedding of [plugins/ai_agent/ai_core.py] and
    [plugins/ai_agent/conversation_manager.py], with the properties of
    the natural-language specification stated over it.

    Conventions of the embedding.
    - A Python [str] is a [string]: a sequence of code points below 256.
    - A Python [float] score is a rational [Q]; the keyword score is kept
      in lowest terms so that equal scores are equal terms.
    - A [dict] read in insertion order (the plugin catalog, the plugin
      embeddings, a JSON object) is an association list; a [dict] only
      looked up by key (the session history, the heap of context objects)
      is a [gmap].
    - The state is typed as the dataclasses annotate it.  A history
      file may hold values of other types, which Python stores as they
      are loaded: the reconstruction of a record tells raising, building
      an object of the typed state and building one outside it apart,
      and a load that stores an object outside the typed state is
      followed up to that object only.
    - The sentence encoder, the named-entity recogniser, scikit-learn's
      [cosine_similarity], [datetime.isoformat] / [fromisoformat], the
      clock and [random.choice] are outside the repository: they appear
      as section variables or as explicit inputs of the call that reads
      them. *)

From Stdlib Require Import ZArith QArith Qreduction String Ascii List Lia Bool.
From Stdlib Require DecimalString DecimalZ.
From Stdlib Require Import Sorted Permutation.
From stdpp Require Import base option gmap strings list fin_maps.

Import ListNotations.
Set Warnings "-register-all".
Local Open Scope string_scope.
Local Open Scope Z_scope.

(** ** Python string primitives *)

Module PyStr.

(** [str.isspace] on one code point, which is also the class [\s] of
    [re] for text patterns and the set removed by [str.strip]. *)
Definition isspace (c : ascii) : bool :=
  let n := nat_of_ascii c in
  ((9 <=? n)%nat && (n <=? 13)%nat)
  || ((28 <=? n)%nat && (n <=? 32)%nat)
  || (n =? 133)%nat || (n =? 160)%nat.

(** [str.lower] on one code point. *)
Definition lower_char (c : ascii) : ascii :=
  let n := nat_of_ascii c in
  if ((65 <=? n)%nat && (n <=? 90)%nat)
     || ((192 <=? n)%nat && (n <=? 222)%nat && negb (n =? 215)%nat)
  then ascii_of_nat (n + 32) else c.

Fixpoint lower (s : string) : string :=
  match s with
  | EmptyString => EmptyString
  | String c s' => String (lower_char c) (lower s')
  end.

Fixpoint lstrip (s : string) : string :=
  match s with
  | EmptyString => EmptyString
  | String c s' => if isspace c then lstrip s' else s
  end.

Fixpoint rstrip (s : string) : string :=
  match s with
  | EmptyString => EmptyString
  | String c s' =>
      match rstrip s' with
      | EmptyString => if isspace c then EmptyString else String c EmptyString
      | r => String c r
      end
  end.

(** [s.strip()] *)
Definition strip (s : string) : string := rstrip (lstrip s).

(** [re.sub(r'\s+', ' ', s)]: every maximal run of whitespace becomes
    one space.  [in_run] tells that the previous character was
    whitespace. *)
Fixpoint collapse_from (in_run : bool) (s : string) : string :=
  match s with
  | EmptyString => EmptyString
  | String c s' =>
      if isspace c
      then (if in_run then collapse_from true s'
            else String " " (collapse_from true s'))
      else String c (collapse_from false s')
  end.

Definition collapse_whitespace (s : string) : string := collapse_from false s.

(** [needle in hay] *)
Fixpoint contains (needle hay : string) : bool :=
  if String.prefix needle hay then true
  else match hay with
       | EmptyString => false
       | String _ hay' => contains needle hay'
       end.

(** [s.split()]: the maximal runs of non-whitespace.  [cur] is the word
    being read, reversed. *)
Fixpoint split_from (cur : list ascii) (s : string) : list string :=
  let flush := match cur with
               | [] => []
               | _ => [string_of_list_ascii (rev cur)]
               end in
  match s with
  | EmptyString => flush
  | String c s' =>
      if isspace c then (flush ++ split_from [] s')%list
      else split_from (c :: cur) s'
  end.

Definition split (s : string) : list string := split_from [] s.

(** [sep.join(parts)] *)
Definition join (sep : string) (parts : list string) : string :=
  String.concat sep parts.

(** [x in xs] for a list of strings *)
Definition mem (x : string) (xs : list string) : bool :=
  existsb (String.eqb x) xs.

(** [any(p in text for p in phrases)] *)
Definition any_in (phrases : list string) (text : string) : bool :=
  existsb (fun p => contains p text) phrases.

(** [xs[:n]] for an [int] bound of either sign *)
Definition slice_to {A} (xs : list A) (n : Z) : list A :=
  if 0 <=? n then firstn (Z.to_nat n) xs
  else firstn (length xs - Z.to_nat (- n)) xs.

(** [xs[-n:]] for an [int] [n] of either sign: the last [n] elements
    for a positive [n], the whole list for [n = 0] (the bound is then
    [-0 = 0]), the list without its first [-n] elements otherwise. *)
Definition slice_last {A} (xs : list A) (n : Z) : list A :=
  if 0 <? n then skipn (length xs - Z.to_nat n) xs
  else skipn (Z.to_nat (- n)) xs.

(** [str(n)] for an [int] *)
Definition str_of_int (n : Z) : string :=
  DecimalString.NilZero.string_of_int (Z.to_int n).

End PyStr.

(** ** Scores *)

Module Score.

(** [a > b] on scores *)
Definition gt (a b : Q) : bool := negb (Qle_bool a b).

(** [m / n] for two lengths, [n] positive *)
Definition ratio (m n : nat) : Q := Qred (Z.of_nat m # Pos.of_nat n).

End Score.

(** ** ai_core.py *)

Module AICore.

(** The [entities] dictionary.  The only keys the extractor ever sets
    are the four entity kinds, each holding the text of one span, and
    [search_terms], holding a list of words; an absent key is [None]. *)
Record Entities := {
  person : option string;
  org : option string;
  gpe : option string;
  loc : option string;
  search_terms : option (list string)
}.

(** The empty dictionary [{}] *)
Definition no_entities : Entities :=
  {| person := None; org := None; gpe := None; loc := None;
     search_terms := None |}.

(** [class Intent] *)
Record Intent := {
  plugin_name : string;
  confidence : Q;
  entities : Entities;
  raw_text : string
}.

(** [class PluginInfo] *)
Record PluginInfo := {
  name : string;
  description : string;
  examples : list string;
  keywords : list string;
  parameters : list string
}.

(** What spaCy returns for a text, as far as the extractor reads it:
    the entity spans ([label_], [text]) and the tokens. *)
Record Token := {
  tok_text : string;
  is_stop : bool;
  is_punct : bool
}.

Record Doc := {
  ents : list (string * string);
  tokens : list Token
}.

(** The options of [_load_config] that the core reads. *)
Record Config := {
  confidence_threshold : Q;
  max_suggestions : Z
}.

Definition default_config : Config :=
  {| confidence_threshold := 6 # 10; max_suggestions := 3 |}.

(** [class SarahAICore]: [nlp] and [sentence_model] are [None] when the
    model could not be loaded. *)
Record SarahAICore := {
  config : Config;
  nlp : option (string -> Doc);
  sentence_model : option (string -> list Q);
  plugin_embeddings : list (string * list Q);
  plugins_info : list (string * PluginInfo)
}.

(** The dictionary built by [_load_plugin_definitions], in insertion
    order. *)
Definition builtin_plugins : list (string * PluginInfo) :=
  [ ("weather",
     {| name := "weather";
        description := "Get weather information and forecasts for any location";
        examples := ["what's the weather like?";
                     "show me the weather in New York";
                     "is it going to rain today?";
                     "weather forecast for London"];
        keywords := ["weather"; "temperature"; "rain"; "snow"; "forecast"; "climate"];
        parameters := ["location"] |});
    ("time",
     {| name := "time";
        description := "Show current time and date information";
        examples := ["what time is it?";
                     "show me the current time";
                     "what's today's date?";
                     "current time and date"];
        keywords := ["time"; "date"; "clock"; "current"; "now"];
        parameters := [] |});
    ("wiki",
     {| name := "wiki";
        description := "Search Wikipedia for information about topics";
        examples := ["tell me about Albert Einstein";
                     "search Wikipedia for Python programming";
                     "what is machine learning?";
                     "wiki information about Paris"];
        keywords := ["wiki"; "wikipedia"; "information"; "about"; "tell me"; "search"];
        parameters := ["topic"; "query"] |});
    ("google",
     {| name := "google";
        description := "Search Google for information and websites";
        examples := ["google search for best restaurants";
                     "search the web for Python tutorials";
                     "find information about cars";
                     "web search for news"];
        keywords := ["google"; "search"; "web"; "find"; "look up"];
        parameters := ["query"; "search_term"] |});
    ("youtube",
     {| name := "youtube";
        description := "Search YouTube for videos";
        examples := ["find videos about cooking";
                     "search YouTube for music";
                     "show me tutorials on programming";
                     "youtube search for funny cats"];
        keywords := ["youtube"; "video"; "videos"; "watch"; "music"; "tutorial"];
        parameters := ["query"; "search_term"] |});
    ("github",
     {| name := "github";
        description := "Search GitHub for repositories and code";
        examples := ["find Python projects on GitHub";
                     "search GitHub for machine learning repos";
                     "show me JavaScript libraries";
                     "github search for web frameworks"];
        keywords := ["github"; "repository"; "code"; "project"; "library"; "framework"];
        parameters := ["query"; "search_term"] |});
    ("whois",
     {| name := "whois";
        description := "Get information about people, domains, or entities";
        examples := ["who is Elon Musk?";
                     "tell me about Steve Jobs";
                     "information about Albert Einstein";
                     "whois domain.com"];
        keywords := ["who"; "whois"; "about"; "information"; "person"; "biography"];
        parameters := ["person"; "domain"; "entity"] |});
    ("watch",
     {| name := "watch";
        description := "Get movie and TV show information from IMDB";
        examples := ["tell me about Titanic movie";
                     "movie information for Inception";
                     "show details for Breaking Bad";
                     "IMDB info for The Matrix"];
        keywords := ["movie"; "film"; "tv show"; "series"; "imdb"; "watch"; "cinema"];
        parameters := ["title"; "movie_name"; "show_name"] |});
    ("speedtest",
     {| name := "speedtest";
        description := "Test internet connection speed";
        examples := ["test my internet speed";
                     "check connection speed";
                     "how fast is my internet?";
                     "run speed test"];
        keywords := ["speed"; "internet"; "connection"; "bandwidth"; "test"];
        parameters := [] |});
    ("adhan",
     {| name := "adhan";
        description := "Get Islamic prayer times for locations";
        examples := ["prayer times for Mecca";
                     "adhan times in Cairo Egypt";
                     "when is Fajr prayer in London?";
                     "Islamic prayer schedule"];
        keywords := ["prayer"; "adhan"; "islamic"; "fajr"; "dhuhr"; "asr"; "maghrib"; "isha"];
        parameters := ["city"; "country"] |});
    ("hi",
     {| name := "hi";
        description := "Greeting and general conversation";
        examples := ["hello"; "hi there"; "good morning"; "how are you?"];
        keywords := ["hello"; "hi"; "hey"; "greetings"; "good morning"; "good evening"];
        parameters := [] |});
    ("marketwatch",
     {| name := "marketwatch";
        description := "Get stock market and financial information";
        examples := ["stock price for Apple";
                     "market info for GOOGL";
                     "check Tesla stock";
                     "financial data for Microsoft"];
        keywords := ["stock"; "market"; "price"; "shares"; "financial"; "investment"];
        parameters := ["symbol"; "stock_name"; "country"; "security_type"] |}) ].

(** [_create_plugin_embeddings]: nothing without a sentence model, else
    one embedding per plugin, of its description, examples and keywords
    joined by spaces. *)
Definition _create_plugin_embeddings
    (sentence_model : option (string -> list Q))
    (plugins_info : list (string * PluginInfo)) : list (string * list Q) :=
  match sentence_model with
  | None => []
  | Some encode =>
      map (fun '(plugin_name, plugin_info) =>
             let text_content :=
               (description plugin_info :: examples plugin_info
                  ++ keywords plugin_info)%list in
             let combined_text := PyStr.join " " text_content in
             (plugin_name, encode combined_text))
          plugins_info
  end.

(** [SarahAICore.__init__], given the configuration read and the two
    models as [_initialize_models] managed to load them. *)
Definition create_ai_core (cfg : Config) (nlp : option (string -> Doc))
    (sentence_model : option (string -> list Q)) : SarahAICore :=
  {| config := cfg;
     nlp := nlp;
     sentence_model := sentence_model;
     plugin_embeddings := _create_plugin_embeddings sentence_model builtin_plugins;
     plugins_info := builtin_plugins |}.

(** [_clean_input] *)
Definition _clean_input (text : string) : string :=
  PyStr.lower (PyStr.collapse_whitespace (PyStr.strip text)).

Definition stop_words : list string :=
  ["the"; "is"; "at"; "which"; "on"; "a"; "an"; "and"; "or"; "but"; "in";
   "with"; "to"; "for"; "of"; "as"; "by"].

(** [entities[entity_type] = ent.text] for one span *)
Definition set_entity (es : Entities) (ent : string * string) : Entities :=
  let entity_type := PyStr.lower (fst ent) in
  if String.eqb entity_type "person" then
    {| person := Some (snd ent); org := org es; gpe := gpe es; loc := loc es;
       search_terms := search_terms es |}
  else if String.eqb entity_type "org" then
    {| person := person es; org := Some (snd ent); gpe := gpe es; loc := loc es;
       search_terms := search_terms es |}
  else if String.eqb entity_type "gpe" then
    {| person := person es; org := org es; gpe := Some (snd ent); loc := loc es;
       search_terms := search_terms es |}
  else if String.eqb entity_type "loc" then
    {| person := person es; org := org es; gpe := gpe es; loc := Some (snd ent);
       search_terms := search_terms es |}
  else es.

(** [if search_terms: entities['search_terms'] = search_terms] *)
Definition set_search_terms (es : Entities) (terms : list string) : Entities :=
  match terms with
  | [] => es
  | _ => {| person := person es; org := org es; gpe := gpe es; loc := loc es;
            search_terms := Some terms |}
  end.

(** [_extract_entities] *)
Definition _extract_entities (self : SarahAICore) (text : string) : Entities :=
  match nlp self with
  | Some analyse =>
      let doc := analyse text in
      let entities := fold_left set_entity (ents doc) no_entities in
      let search_terms :=
        map tok_text
            (List.filter (fun token =>
                       negb (is_stop token) && negb (is_punct token)
                       && (2 <? String.length (tok_text token))%nat)
                    (tokens doc)) in
      set_search_terms entities search_terms
  | None =>
      let words := PyStr.split text in
      let search_terms :=
        List.filter (fun word =>
                  negb (PyStr.mem word stop_words)
                  && (2 <? String.length word)%nat)
               words in
      set_search_terms no_entities search_terms
  end.

(** The dictionary [{'plugin': ..., 'confidence': ...}] *)
Record Match := {
  plugin : string;
  match_confidence : Q
}.

(** The accumulator both matchers start from. *)
Definition default_match : Match :=
  {| plugin := "hi"; match_confidence := 0 |}.

(** One turn of either matching loop: the candidate replaces the best
    match only when its score is strictly greater. *)
Definition consider (best_match : Match) (plugin_name : string) (score : Q) : Match :=
  if Score.gt score (match_confidence best_match)
  then {| plugin := plugin_name; match_confidence := score |}
  else best_match.

(** [sum(1 for keyword in plugin_info.keywords if keyword in text)] *)
Definition keyword_matches (plugin_info : PluginInfo) (text : string) : nat :=
  length (List.filter (fun keyword => PyStr.contains keyword text)
                      (keywords plugin_info)).

(** [keyword_matches / len(keywords) if keywords else 0] *)
Definition keyword_score (plugin_info : PluginInfo) (text : string) : Q :=
  match keywords plugin_info with
  | [] => 0
  | _ => Score.ratio (keyword_matches plugin_info text)
                     (length (keywords plugin_info))
  end.

(** [_keyword_based_matching] *)
Definition _keyword_based_matching (self : SarahAICore) (text : string) : Match :=
  fold_left (fun best_match '(plugin_name, plugin_info) =>
               consider best_match plugin_name (keyword_score plugin_info text))
            (plugins_info self) default_match.

(** A dictionary of [get_suggestions]; the keyword path returns the
    best match itself, which has no ['description'] key. *)
Record Suggestion := {
  s_plugin : string;
  s_confidence : Q;
  s_description : option string
}.

Definition suggestion_of_match (m : Match) : Suggestion :=
  {| s_plugin := plugin m; s_confidence := match_confidence m;
     s_description := None |}.

(** [self.plugins_info[plugin_name]]; [None] stands for [KeyError]. *)
Fixpoint plugin_lookup (plugin_name : string)
    (infos : list (string * PluginInfo)) : option PluginInfo :=
  match infos with
  | [] => None
  | (n, info) :: rest =>
      if String.eqb plugin_name n then Some info else plugin_lookup plugin_name rest
  end.

(** [suggestions.sort(key=lambda x: x['confidence'], reverse=True)]:
    the stable sort by decreasing confidence.  An element goes before
    the first one whose confidence is not greater than its own. *)
Fixpoint insert_desc (x : Suggestion) (sorted : list Suggestion) : list Suggestion :=
  match sorted with
  | [] => [x]
  | y :: rest =>
      if Score.gt (s_confidence y) (s_confidence x)
      then y :: insert_desc x rest
      else x :: sorted
  end.

Definition sort_desc (xs : list Suggestion) : list Suggestion :=
  fold_right insert_desc [] xs.

Section WithCosine.

(** scikit-learn's [cosine_similarity] of two vectors *)
Variable cosine_similarity : list Q -> list Q -> Q.

(** [_find_best_plugin_match] *)
Definition _find_best_plugin_match (self : SarahAICore) (text : string) : Match :=
  match sentence_model self with
  | None => _keyword_based_matching self text
  | Some encode =>
      let input_embedding := encode text in
      fold_left (fun best_match '(plugin_name, plugin_embedding) =>
                   let similarity :=
                     cosine_similarity input_embedding plugin_embedding in
                   consider best_match plugin_name similarity)
                (plugin_embeddings self) default_match
  end.

(** [understand_input] *)
Definition understand_input (self : SarahAICore) (user_input : string) : Intent :=
  let cleaned_input := _clean_input user_input in
  let entities := _extract_entities self cleaned_input in
  let plugin_match := _find_best_plugin_match self cleaned_input in
  {| plugin_name := plugin plugin_match;
     confidence := match_confidence plugin_match;
     entities := entities;
     raw_text := user_input |}.

(** The loop of [get_suggestions] over the plugin embeddings; [None]
    when a plugin has an embedding but no entry in [plugins_info]. *)
Fixpoint collect_suggestions (infos : list (string * PluginInfo))
    (input_embedding : list Q) (embeddings : list (string * list Q))
    : option (list Suggestion) :=
  match embeddings with
  | [] => Some []
  | (plugin_name, plugin_embedding) :: rest =>
      match plugin_lookup plugin_name infos with
      | None => None
      | Some info =>
          let similarity := cosine_similarity input_embedding plugin_embedding in
          match collect_suggestions infos input_embedding rest with
          | None => None
          | Some more =>
              Some ({| s_plugin := plugin_name; s_confidence := similarity;
                       s_description := Some (description info) |} :: more)
          end
      end
  end.

(** [get_suggestions]; [None] stands for an exception. *)
Definition get_suggestions (self : SarahAICore) (user_input : string)
    (max_suggestions_arg : option Z) : option (list Suggestion) :=
  let max_suggestions :=
    match max_suggestions_arg with
    | None => max_suggestions (config self)
    | Some n => n
    end in
  match sentence_model self with
  | None => Some [suggestion_of_match (_keyword_based_matching self user_input)]
  | Some encode =>
      let cleaned_input := _clean_input user_input in
      let input_embedding := encode cleaned_input in
      match collect_suggestions (plugins_info self) input_embedding
                                (plugin_embeddings self) with
      | None => None
      | Some suggestions =>
          Some (PyStr.slice_to (sort_desc suggestions) max_suggestions)
      end
  end.

End WithCosine.

Section Formatting.

Variable cosine_similarity : list Q -> list Q -> Q.

(** The text of a score under the format [:.2f] *)
Variable format_2f : Q -> string.

(** The loop of [format_response] over the suggestions, numbered from
    [i]; [None] stands for the [KeyError] of a suggestion without
    ['description']. *)
Fixpoint suggestion_lines (i : Z) (suggestions : list Suggestion)
    : option string :=
  match suggestions with
  | [] => Some ""
  | suggestion :: rest =>
      match s_description suggestion with
      | None => None
      | Some description =>
          match suggestion_lines (i + 1) rest with
          | None => None
          | Some more =>
              Some (PyStr.str_of_int i ++ ". " ++ description
                    ++ " (confidence: " ++ format_2f (s_confidence suggestion)
                    ++ ")" ++ String (ascii_of_nat 10) "" ++ more)
          end
      end
  end.

(** [format_response]; [result] is [None] for the default argument and
    [None] as outcome stands for an exception. *)
Definition format_response (self : SarahAICore) (intent : Intent)
    (result : option string) : option string :=
  if Score.gt (confidence_threshold (config self)) (confidence intent)
  then
    match get_suggestions cosine_similarity self (raw_text intent) (Some 3) with
    | None => None
    | Some suggestions =>
        match suggestion_lines 1 suggestions with
        | None => None
        | Some lines =>
            Some ("I'm not quite sure what you mean by '" ++ raw_text intent
                  ++ "'. " ++ "Did you mean:" ++ String (ascii_of_nat 10) ""
                  ++ lines)
        end
    end
  else
    match result with
    | Some (String c r) =>
        Some ("Here's what I found:" ++ String (ascii_of_nat 10) ""
              ++ String c r)
    | _ =>
        Some ("I understood you want to use " ++ plugin_name intent
              ++ " with confidence " ++ format_2f (confidence intent))
    end.

End Formatting.

End AICore.

(** ** conversation_manager.py *)

Module Conversation.

(** A naive [datetime] is its position on the time line and a
    [timedelta] a signed duration, both counted in microseconds, the
    resolution in which Python computes and compares them. *)
Definition minutes (n : Z) : Z := n * 60000000.

(** [class ConversationTurn] *)
Record ConversationTurn := {
  timestamp : Z;
  user_input : string;
  intent_plugin : string;
  intent_confidence : Q;
  entities : AICore.Entities;
  sarah_response : string;
  execution_successful : bool
}.

(** The [user_preferences] dictionary: the usage count per plugin under
    ['preferred_plugins'] and the last location under
    ['preferred_location'] (which may hold [None]); an absent key is
    [None]. *)
Record Preferences := {
  preferred_plugins : option (gmap string Z);
  preferred_location : option (option string)
}.

Definition no_preferences : Preferences :=
  {| preferred_plugins := None; preferred_location := None |}.

(** [class ConversationContext] *)
Record ConversationContext := {
  session_id : string;
  started_at : Z;
  last_interaction : Z;
  turns : list ConversationTurn;
  active_topic : option string;
  user_preferences : option Preferences;
  location_context : option string
}.

(** Context objects live in a heap: [current_context] and the values of
    [conversation_history] are references, so that a session started
    by [start_conversation] is one object seen from both. *)
Definition loc := positive.

(** [class ConversationManager] *)
Record ConversationManager := {
  max_context_turns : Z;
  session_timeout : Z;
  current_context : option loc;
  conversation_history : gmap string loc;
  heap : gmap loc ConversationContext
}.

Definition greeting_responses : list string :=
  ["Hello! I'm Sarah, your AI assistant. How can I help you today?";
   "Hi there! What can I do for you?";
   "Hey! Ready to help you with anything you need.";
   "Good to see you! What would you like me to help with?"].

Definition farewell_responses : list string :=
  ["Goodbye! Feel free to ask me anything anytime.";
   "See you later! I'm always here when you need help.";
   "Take care! Don't hesitate to come back if you need anything.";
   "Bye! Looking forward to helping you again soon."].

Definition acknowledgment_responses : list string :=
  ["Got it!"; "Understood!"; "Perfect!"; "Sure thing!"; "Absolutely!";
   "No problem!"].

(** [random.choice(pool)], the generator's draw being [pick] *)
Definition choice (pick : nat) (pool : list string) : string :=
  nth (pick mod length pool) pool "".

(** [ConversationManager.__init__] *)
Definition create_conversation_manager (max_context_turns : Z)
    (session_timeout_minutes : Z) : ConversationManager :=
  {| max_context_turns := max_context_turns;
     session_timeout := minutes session_timeout_minutes;
     current_context := None;
     conversation_history := ∅;
     heap := ∅ |}.

(** The object [current_context] refers to *)
Definition current (self : ConversationManager) : option ConversationContext :=
  match current_context self with
  | Some l => heap self !! l
  | None => None
  end.

(** [self.conversation_history], each session with its object's state *)
Definition sessions (self : ConversationManager) : gmap string ConversationContext :=
  omap (fun l => heap self !! l) (conversation_history self).

(** An assignment to attributes of [self.current_context] *)
Definition update_current (f : ConversationContext -> ConversationContext)
    (self : ConversationManager) : ConversationManager :=
  match current_context self with
  | Some l =>
      {| max_context_turns := max_context_turns self;
         session_timeout := session_timeout self;
         current_context := current_context self;
         conversation_history := conversation_history self;
         heap := alter f l (heap self) |}
  | None => self
  end.

Definition set_history (h : gmap string loc) (self : ConversationManager)
    : ConversationManager :=
  {| max_context_turns := max_context_turns self;
     session_timeout := session_timeout self;
     current_context := current_context self;
     conversation_history := h;
     heap := heap self |}.

(** A new context object: [(reference, heap with the object)] *)
Definition alloc (ctx : ConversationContext)
    (h : gmap loc ConversationContext) : loc * gmap loc ConversationContext :=
  let l := fresh (dom h) in (l, <[l := ctx]> h).

(** What [start_conversation] reads from its environment: the clock of
    [time.time()] in whole seconds, the two successive readings of
    [datetime.now()] (for the new context, then for the cleanup) and
    the draw of [random.choice]. *)
Record StartEnv := {
  epoch_seconds : Z;
  now_started : Z;
  now_cleanup : Z;
  greeting_pick : nat
}.

(** [context.last_interaction < cutoff_time] for the object at [l] *)
Definition expired (h : gmap loc ConversationContext) (cutoff_time : Z) (l : loc) : bool :=
  match h !! l with
  | Some context => last_interaction context <? cutoff_time
  | None => false
  end.

(** [_cleanup_old_sessions], [now] being its reading of the clock *)
Definition _cleanup_old_sessions (now : Z) (self : ConversationManager)
    : ConversationManager :=
  let cutoff_time := now - session_timeout self in
  set_history
    (filter (fun kv => expired (heap self) cutoff_time (snd kv) = false)
            (conversation_history self))
    self.

(** [_get_greeting_response] *)
Definition _get_greeting_response (pick : nat) : string :=
  choice pick greeting_responses.

(** The session id of [start_conversation]: the argument, or
    [f"session_{int(time.time())}"] when it is [None] *)
Definition new_session_id (session_id_arg : option string) (env : StartEnv)
    : string :=
  match session_id_arg with
  | Some s => s
  | None => "session_" ++ PyStr.str_of_int (epoch_seconds env)
  end.

(** [start_conversation] *)
Definition start_conversation (session_id_arg : option string) (env : StartEnv)
    (self : ConversationManager) : ConversationManager * string :=
  let session_id := new_session_id session_id_arg env in
  let now := now_started env in
  let context :=
    {| session_id := session_id;
       started_at := now;
       last_interaction := now;
       turns := [];
       active_topic := None;
       user_preferences := Some no_preferences;
       location_context := None |} in
  let '(l, h) := alloc context (heap self) in
  let self1 :=
    {| max_context_turns := max_context_turns self;
       session_timeout := session_timeout self;
       current_context := Some l;
       conversation_history := <[session_id := l]> (conversation_history self);
       heap := h |} in
  (_cleanup_old_sessions (now_cleanup env) self1,
   _get_greeting_response (greeting_pick env)).

(** [_update_active_topic] *)
Definition _update_active_topic (intent_plugin : string)
    (entities : AICore.Entities) (ctx : ConversationContext) : ConversationContext :=
  let set_topic topic :=
    {| session_id := session_id ctx;
       started_at := started_at ctx;
       last_interaction := last_interaction ctx;
       turns := turns ctx;
       active_topic := Some topic;
       user_preferences := user_preferences ctx;
       location_context := location_context ctx |} in
  match AICore.search_terms entities with
  | Some (term :: terms) => set_topic (PyStr.join " " (firstn 3 (term :: terms)))
  | _ =>
      if PyStr.mem intent_plugin ["weather"; "time"; "speedtest"]
      then set_topic intent_plugin
      else ctx
  end.

(** [entities.get('gpe') or entities.get('loc')] *)
Definition gpe_or_loc (entities : AICore.Entities) : option string :=
  match AICore.gpe entities with
  | Some (String c s) => Some (String c s)
  | _ => AICore.loc entities
  end.

(** [_update_user_preferences] *)
Definition _update_user_preferences (entities : AICore.Entities)
    (intent_plugin : string) (ctx : ConversationContext) : ConversationContext :=
  let prefs0 :=
    match user_preferences ctx with
    | Some prefs => prefs
    | None => no_preferences
    end in
  let plugin_prefs :=
    match preferred_plugins prefs0 with
    | Some counts => counts
    | None => ∅
    end in
  let plugin_prefs' :=
    <[intent_plugin := default 0 (plugin_prefs !! intent_plugin) + 1]> plugin_prefs in
  match AICore.gpe entities, AICore.loc entities with
  | None, None =>
      {| session_id := session_id ctx;
         started_at := started_at ctx;
         last_interaction := last_interaction ctx;
         turns := turns ctx;
         active_topic := active_topic ctx;
         user_preferences :=
           Some {| preferred_plugins := Some plugin_prefs';
                   preferred_location := preferred_location prefs0 |};
         location_context := location_context ctx |}
  | _, _ =>
      let location := gpe_or_loc entities in
      {| session_id := session_id ctx;
         started_at := started_at ctx;
         last_interaction := last_interaction ctx;
         turns := turns ctx;
         active_topic := active_topic ctx;
         user_preferences :=
           Some {| preferred_plugins := Some plugin_prefs';
                   preferred_location := Some location |};
         location_context := location |}
  end.

(** The two assignments after [turns.append(turn)] *)
Definition append_turn (turn : ConversationTurn) (ctx : ConversationContext)
    : ConversationContext :=
  {| session_id := session_id ctx;
     started_at := started_at ctx;
     last_interaction := timestamp turn;
     turns := turns ctx ++ [turn];
     active_topic := active_topic ctx;
     user_preferences := user_preferences ctx;
     location_context := location_context ctx |}.

(** [if len(turns) > max_context_turns: turns = turns[-max_context_turns:]] *)
Definition trim_turns (max_context_turns : Z) (ctx : ConversationContext)
    : ConversationContext :=
  if max_context_turns <? Z.of_nat (length (turns ctx))
  then {| session_id := session_id ctx;
          started_at := started_at ctx;
          last_interaction := last_interaction ctx;
          turns := PyStr.slice_last (turns ctx) max_context_turns;
          active_topic := active_topic ctx;
          user_preferences := user_preferences ctx;
          location_context := location_context ctx |}
  else ctx.

(** What [add_turn] reads from its environment: what the implicit
    [start_conversation] reads when no context is current, then the
    clock for the turn's timestamp. *)
Record TurnEnv := {
  implicit_start : StartEnv;
  now_turn : Z
}.

(** The arguments of one [add_turn] call *)
Record TurnArgs := {
  arg_user_input : string;
  arg_intent_plugin : string;
  arg_intent_confidence : Q;
  arg_entities : AICore.Entities;
  arg_sarah_response : string;
  arg_execution_successful : bool
}.

Definition make_turn (args : TurnArgs) (now : Z) : ConversationTurn :=
  {| timestamp := now;
     user_input := arg_user_input args;
     intent_plugin := arg_intent_plugin args;
     intent_confidence := arg_intent_confidence args;
     entities := arg_entities args;
     sarah_response := arg_sarah_response args;
     execution_successful := arg_execution_successful args |}.

(** [add_turn] *)
Definition add_turn (args : TurnArgs) (env : TurnEnv)
    (self : ConversationManager) : ConversationManager :=
  let self1 :=
    match current_context self with
    | None => fst (start_conversation None (implicit_start env) self)
    | Some _ => self
    end in
  let turn := make_turn args (now_turn env) in
  update_current
    (fun ctx =>
       _update_user_preferences (arg_entities args) (arg_intent_plugin args)
         (trim_turns (max_context_turns self1)
            (_update_active_topic (arg_intent_plugin args) (arg_entities args)
               (append_turn turn ctx))))
    self1.

Definition greetings : list string :=
  ["hello"; "hi"; "hey"; "good morning"; "good afternoon"; "good evening";
   "greetings"; "howdy"].

Definition farewells : list string :=
  ["goodbye"; "bye"; "see you"; "farewell"; "exit"; "quit"; "thanks";
   "thank you"; "that's all"].

Definition follow_up_words : list string :=
  ["also"; "and"; "what about"; "how about"; "more"; "another"].

(** [_is_greeting] *)
Definition _is_greeting (user_input : string) : bool :=
  PyStr.any_in greetings (PyStr.lower user_input).

(** [_is_farewell] *)
Definition _is_farewell (user_input : string) : bool :=
  PyStr.any_in farewells (PyStr.lower user_input).

(** [_is_follow_up_question], [now] being its reading of the clock *)
Definition _is_follow_up_question (now : Z) (user_input intent_plugin : string)
    (self : ConversationManager) : bool :=
  match current self with
  | None => false
  | Some ctx =>
      match last (turns ctx) with
      | None => false
      | Some last_turn =>
          let time_diff := now - timestamp last_turn in
          if (time_diff <? minutes 2)
             && String.eqb intent_plugin (Conversation.intent_plugin last_turn)
          then true
          else PyStr.any_in follow_up_words (PyStr.lower user_input)
      end
  end.

(** [bool(turns)] of the current context, false without a context *)
Definition has_turns (self : ConversationManager) : bool :=
  match current self with
  | Some ctx => match turns ctx with [] => false | _ => true end
  | None => false
  end.

(** [_get_contextual_greeting] *)
Definition _get_contextual_greeting (pick : nat) (self : ConversationManager) : string :=
  if has_turns self
  then "Welcome back! What else can I help you with?"
  else _get_greeting_response pick.

(** [_get_farewell_response] *)
Definition _get_farewell_response (pick : nat) (self : ConversationManager) : string :=
  let base_farewell := choice pick farewell_responses in
  if has_turns self
  then base_farewell ++ " It was great helping you today!"
  else base_farewell.

Definition newline : string := String (ascii_of_nat 10) EmptyString.

(** [_handle_follow_up] *)
Definition _handle_follow_up (pick : nat) (base_response : string) : string :=
  let acknowledgment := choice pick acknowledgment_responses in
  acknowledgment ++ " Here's more information:" ++ newline ++ base_response.

(** The truth value of an optional string: neither [None] nor empty *)
Definition truthy (s : option string) : bool :=
  match s with
  | Some (String _ _) => true
  | _ => false
  end.

(** [_add_context_to_response] *)
Definition _add_context_to_response (base_response intent_plugin : string)
    (ctx : ConversationContext) : string :=
  let base_response1 :=
    match location_context ctx with
    | Some location =>
        if String.eqb intent_plugin "weather" && truthy (Some location)
           && negb (PyStr.contains (PyStr.lower location) (PyStr.lower base_response))
        then base_response ++ newline ++ "(I remember you usually ask about "
               ++ location ++ ")"
        else base_response
    | None => base_response
    end in
  match active_topic ctx with
  | Some topic =>
      if truthy (Some topic)
         && PyStr.mem intent_plugin ["wiki"; "google"; "youtube"; "github"]
         && negb (PyStr.contains (PyStr.lower topic) (PyStr.lower base_response1))
      then base_response1 ++ newline ++ "(Related to our discussion about "
             ++ topic ++ ")"
      else base_response1
  | None => base_response1
  end.

(** What [get_contextual_response] reads from its environment: the
    clock (in the follow-up test) and the draw of [random.choice]. *)
Record ReplyEnv := {
  now_reply : Z;
  reply_pick : nat
}.

(** [get_contextual_response] *)
Definition get_contextual_response (user_input intent_plugin : string)
    (entities : AICore.Entities) (base_response : string) (env : ReplyEnv)
    (self : ConversationManager) : string :=
  match current self with
  | None => base_response
  | Some ctx =>
      if _is_greeting user_input
      then _get_contextual_greeting (reply_pick env) self
      else if _is_farewell user_input
      then _get_farewell_response (reply_pick env) self
      else if _is_follow_up_question (now_reply env) user_input intent_plugin self
      then _handle_follow_up (reply_pick env) base_response
      else _add_context_to_response base_response intent_plugin ctx
  end.

(** The dictionary returned by [get_conversation_summary].  The
    duration is kept as a [timedelta] rather than its text, and
    [recent_topics], a [list(set(...))] whose order Python leaves
    open, as a set. *)
Record Summary := {
  sum_session_id : string;
  sum_duration : Z;
  sum_total_turns : nat;
  sum_active_topic : option string;
  sum_recent_plugins : list string;
  sum_recent_topics : gset string;
  sum_user_preferences : option Preferences
}.

(** The loop of [get_conversation_summary] over the last five turns *)
Definition recent_plugins_of (recent : list ConversationTurn) : list string :=
  fold_left (fun acc turn =>
               if PyStr.mem (intent_plugin turn) acc then acc
               else (acc ++ [intent_plugin turn])%list)
            recent [].

Definition recent_topics_of (recent : list ConversationTurn) : list string :=
  fold_left (fun acc turn =>
               match AICore.search_terms (entities turn) with
               | Some terms => (acc ++ terms)%list
               | None => acc
               end)
            recent [].

(** [get_conversation_summary]; [None] is the dictionary
    [{"status": "no_active_conversation"}]. *)
Definition get_conversation_summary (now : Z) (self : ConversationManager)
    : option Summary :=
  match current self with
  | None => None
  | Some ctx =>
      let recent := PyStr.slice_last (turns ctx) 5 in
      Some {| sum_session_id := session_id ctx;
              sum_duration := now - started_at ctx;
              sum_total_turns := length (turns ctx);
              sum_active_topic := active_topic ctx;
              sum_recent_plugins := recent_plugins_of recent;
              sum_recent_topics := list_to_set (recent_topics_of recent);
              sum_user_preferences := user_preferences ctx |}
  end.

(** *** Saving and loading the history *)

(** What [json.load] returns and [json.dump] accepts.  An object is the
    list of its members in order. *)
Inductive json :=
| JNull
| JBool (b : bool)
| JInt (n : Z)
| JFloat (q : Q)
| JStr (s : string)
| JList (items : list json)
| JObj (members : list (string * json)).

(** A file as [json.load] sees it: text that is no JSON document, or
    the document.  The file system maps the paths that can be opened
    for reading to their files. *)
Inductive file :=
| NotJson
| Document (doc : json).

(** The line a call writes to the log: [logger.info] on success,
    [logger.error] from the [except] clause.  [LeftTypedState] is no
    line of the log: it marks a load that has stored a context which
    holds a value of another type than its field is annotated with.
    Python stores such a context as it is loaded and goes on; the typed
    state of this embedding has no place for it, so the embedding
    follows the call up to that context and says nothing of what comes
    after: the manager given with [LeftTypedState] is the state reached
    just before that context is stored. *)
Inductive logged := Info | Error | LeftTypedState.

(** How the source ends the reconstruction of an object from a loaded
    dictionary.  It raises ([Raises]): a key is missing or is none of the
    fields, a timestamp is refused by [fromisoformat], a value cannot be
    subscripted or iterated.  Or it builds the object, the dataclass
    storing each value as it is loaded: when every value has the type
    its field is annotated with, the object is one of the typed state
    ([Builds]); when some value has another type, the object exists in
    Python but is outside the typed state ([BuildsUntyped]). *)
Inductive reconstruction (A : Type) :=
| Raises
| Builds (a : A)
| BuildsUntyped.

Arguments Raises {A}.
Arguments Builds {A} a.
Arguments BuildsUntyped {A}.

(** [d[key]] on the members of an object; [None] stands for [KeyError]. *)
Fixpoint jget (key : string) (members : list (string * json)) : option json :=
  match members with
  | [] => None
  | (k, v) :: rest => if String.eqb key k then Some v else jget key rest
  end.

(** The members of a dictionary, passed as keyword arguments, fit a
    dataclass whose fields are
    [fields], of which [required] have no default. *)
Definition fits (fields required : list string) (members : list (string * json)) : bool :=
  forallb (fun k => PyStr.mem k fields) (map fst members)
  && forallb (fun f => PyStr.mem f (map fst members)) required.

Definition turn_fields : list string :=
  ["timestamp"; "user_input"; "intent_plugin"; "intent_confidence";
   "entities"; "sarah_response"; "execution_successful"].

Definition context_fields : list string :=
  ["session_id"; "started_at"; "last_interaction"; "turns"; "active_topic";
   "user_preferences"; "location_context"].

Definition context_required : list string :=
  ["session_id"; "started_at"; "last_interaction"; "turns"].

(** Reading a loaded value at the type its field is annotated with:
    [None] when the value has another type.  Python's dataclasses store
    whatever they are given, so [None] is no failure of the source: it
    tells a value of the typed state from one outside it, and the
    reconstruction of a record that holds one ends in [BuildsUntyped],
    not in [Raises]. *)
Definition as_str (j : json) : option string :=
  match j with JStr s => Some s | _ => None end.

Definition as_int (j : json) : option Z :=
  match j with JInt n => Some n | _ => None end.

Definition as_float (j : json) : option Q :=
  match j with JFloat q => Some q | JInt n => Some (inject_Z n) | _ => None end.

Definition as_bool (j : json) : option bool :=
  match j with JBool b => Some b | _ => None end.

Definition as_optional_str (j : json) : option (option string) :=
  match j with JNull => Some None | JStr s => Some (Some s) | _ => None end.

(** A key that may be absent *)
Definition optional_member {A} (read : json -> option A) (key : string)
    (members : list (string * json)) : option (option A) :=
  match jget key members with
  | None => Some None
  | Some j => match read j with Some a => Some (Some a) | None => None end
  end.

Definition as_str_list (j : json) : option (list string) :=
  match j with JList items => mapM as_str items | _ => None end.

Definition entity_keys : list string :=
  ["person"; "org"; "gpe"; "loc"; "search_terms"].

(** The [entities] of a turn read at the type of the typed state: the
    dictionary that [_extract_entities] builds.  A dictionary with
    other keys or values is kept by the source as loaded; it is no
    value of the typed state ([None]). *)
Definition typed_entities (j : json) : option AICore.Entities :=
  match j with
  | JObj members =>
      if forallb (fun k => PyStr.mem k entity_keys) (map fst members) then
        person ← optional_member as_str "person" members;
        org ← optional_member as_str "org" members;
        gpe ← optional_member as_str "gpe" members;
        loc ← optional_member as_str "loc" members;
        search_terms ← optional_member as_str_list "search_terms" members;
        Some {| AICore.person := person; AICore.org := org; AICore.gpe := gpe;
                AICore.loc := loc; AICore.search_terms := search_terms |}
      else None
  | _ => None
  end.

Definition member_of {A} (write : A -> json) (key : string) (v : option A)
    : list (string * json) :=
  match v with Some a => [(key, write a)] | None => [] end.

Definition entities_to_json (es : AICore.Entities) : json :=
  JObj (member_of JStr "person" (AICore.person es)
        ++ member_of JStr "org" (AICore.org es)
        ++ member_of JStr "gpe" (AICore.gpe es)
        ++ member_of JStr "loc" (AICore.loc es)
        ++ member_of (fun terms => JList (map JStr terms)) "search_terms"
             (AICore.search_terms es))%list.

Definition optional_str_to_json (s : option string) : json :=
  match s with Some s => JStr s | None => JNull end.

Definition counts_to_json (counts : gmap string Z) : json :=
  JObj (map (fun kv => (fst kv, JInt (snd kv))) (map_to_list counts)).

(** The usage counts read at the type of the typed state, a
    dictionary of [int]; one with other values is kept by the source as
    loaded and is no value of the typed state ([None]). *)
Definition typed_counts (j : json) : option (gmap string Z) :=
  match j with
  | JObj members =>
      pairs ← mapM (fun kv => n ← as_int (snd kv); Some (fst kv, n)) members;
      Some (list_to_map pairs)
  | _ => None
  end.

Definition preference_keys : list string :=
  ["preferred_plugins"; "preferred_location"].

Definition preferences_to_json (prefs : option Preferences) : json :=
  match prefs with
  | None => JNull
  | Some p =>
      JObj (member_of counts_to_json "preferred_plugins" (preferred_plugins p)
            ++ member_of optional_str_to_json "preferred_location"
                 (preferred_location p))%list
  end.

(** The [user_preferences] read at the type of the typed state:
    [None] of Python, or the dictionary that [_update_user_preferences]
    maintains.  A dictionary with other keys or values is kept by the
    source as loaded; it is no value of the typed state ([None]). *)
Definition typed_preferences (j : json) : option (option Preferences) :=
  match j with
  | JNull => Some None
  | JObj members =>
      if forallb (fun k => PyStr.mem k preference_keys) (map fst members) then
        plugins ← optional_member typed_counts "preferred_plugins" members;
        location ← optional_member as_optional_str "preferred_location" members;
        Some (Some {| preferred_plugins := plugins;
                      preferred_location := location |})
      else None
  | _ => None
  end.

(** A key with the default [None] *)
Definition defaulted_member {A} (read : json -> option (option A)) (key : string)
    (members : list (string * json)) : option (option A) :=
  match jget key members with
  | None => Some None
  | Some j => read j
  end.

Section Persistence.

(** [datetime.isoformat] and [datetime.fromisoformat]; the latter is
    [None] where Python raises. *)
Variable isoformat : Z -> string.
Variable fromisoformat : string -> option Z.

(** [asdict(turn)] with its timestamp in ISO format *)
Definition turn_to_json (turn : ConversationTurn) : json :=
  JObj [("timestamp", JStr (isoformat (timestamp turn)));
        ("user_input", JStr (user_input turn));
        ("intent_plugin", JStr (intent_plugin turn));
        ("intent_confidence", JFloat (intent_confidence turn));
        ("entities", entities_to_json (entities turn));
        ("sarah_response", JStr (sarah_response turn));
        ("execution_successful", JBool (execution_successful turn))].

(** [asdict(context)] with its timestamps in ISO format and its turns
    replaced by [turns_data] *)
Definition context_to_json (context : ConversationContext) : json :=
  JObj [("session_id", JStr (session_id context));
        ("started_at", JStr (isoformat (started_at context)));
        ("last_interaction", JStr (isoformat (last_interaction context)));
        ("turns", JList (map turn_to_json (turns context)));
        ("active_topic", optional_str_to_json (active_topic context));
        ("user_preferences", preferences_to_json (user_preferences context));
        ("location_context", optional_str_to_json (location_context context))].

(** [history_data] of [save_conversation_history] *)
Definition history_to_json (self : ConversationManager) : json :=
  JObj (map (fun kv => (fst kv, context_to_json (snd kv)))
            (map_to_list (sessions self))).

(** [save_conversation_history]; [writable] tells whether
    [open(filepath, 'w')] succeeds. *)
Definition save_conversation_history (filepath : string) (writable : bool)
    (self : ConversationManager) (fs : gmap string file)
    : gmap string file * logged :=
  let history_data := history_to_json self in
  if writable then (<[filepath := Document history_data]> fs, Info)
  else (fs, Error).

(** [d['timestamp']] parsed by [fromisoformat] *)
Definition read_datetime (key : string) (members : list (string * json))
    : option Z :=
  j ← jget key members; s ← as_str j; fromisoformat s.

(** The fields of a turn other than its timestamp, read at their
    annotated types *)
Definition typed_turn (timestamp : Z) (members : list (string * json))
    : option ConversationTurn :=
  user_input ← jget "user_input" members ≫= as_str;
  intent_plugin ← jget "intent_plugin" members ≫= as_str;
  intent_confidence ← jget "intent_confidence" members ≫= as_float;
  entities ← jget "entities" members ≫= typed_entities;
  sarah_response ← jget "sarah_response" members ≫= as_str;
  execution_successful ← jget "execution_successful" members ≫= as_bool;
  Some {| timestamp := timestamp;
          user_input := user_input;
          intent_plugin := intent_plugin;
          intent_confidence := intent_confidence;
          entities := entities;
          sarah_response := sarah_response;
          execution_successful := execution_successful |}.

(** One turn of the inner loop of [load_conversation_history]: the
    timestamp is read and parsed, which raises unless [turn_dict] is a
    dictionary with a string under ['timestamp'] that [fromisoformat]
    accepts; then the turn is built from the members of [turn_dict] as
    keyword arguments, which raises unless its keys are exactly the
    fields of the dataclass, and stores the values as they are. *)
Definition load_turn (turn_dict : json) : reconstruction ConversationTurn :=
  match turn_dict with
  | JObj members =>
      match read_datetime "timestamp" members with
      | None => Raises
      | Some timestamp =>
          if fits turn_fields turn_fields members then
            match typed_turn timestamp members with
            | Some turn => Builds turn
            | None => BuildsUntyped
            end
          else Raises
      end
  | _ => Raises
  end.

(** The inner loop over a list: it raises as soon as one turn does,
    whatever the turns before it hold. *)
Fixpoint load_turn_list (items : list json)
    : reconstruction (list ConversationTurn) :=
  match items with
  | [] => Builds []
  | turn_dict :: rest =>
      match load_turn turn_dict, load_turn_list rest with
      | Raises, _ => Raises
      | _, Raises => Raises
      | Builds turn, Builds turns => Builds (turn :: turns)
      | _, _ => BuildsUntyped
      end
  end.

(** [for turn_dict in context_dict['turns']]: a list is walked; the
    empty string and the empty object are iterables without
    elements; iterating anything else raises, at once or at its
    first element. *)
Definition load_turns (turns_json : json)
    : reconstruction (list ConversationTurn) :=
  match turns_json with
  | JList items => load_turn_list items
  | JStr EmptyString => Builds []
  | JObj [] => Builds []
  | _ => Raises
  end.

(** The fields of a context other than its timestamps and turns, read
    at their annotated types *)
Definition typed_context (started_at last_interaction : Z)
    (turns : list ConversationTurn) (members : list (string * json))
    : option ConversationContext :=
  session_id ← jget "session_id" members ≫= as_str;
  active_topic ← defaulted_member as_optional_str "active_topic" members;
  user_preferences ←
    defaulted_member typed_preferences "user_preferences" members;
  location_context ←
    defaulted_member as_optional_str "location_context" members;
  Some {| session_id := session_id;
          started_at := started_at;
          last_interaction := last_interaction;
          turns := turns;
          active_topic := active_topic;
          user_preferences := user_preferences;
          location_context := location_context |}.

(** The body of the outer loop of [load_conversation_history] up to
    the construction of the context: the turns are rebuilt, which
    raises unless [context_dict] is a dictionary with the key ['turns']
    and no turn raises; the two timestamps are read and parsed; then
    the context is built from the members of [context_dict] as keyword
    arguments, which raises unless its keys are fields of the dataclass
    and those without default are among them, and stores the values as
    they are. *)
Definition load_context (context_dict : json)
    : reconstruction ConversationContext :=
  match context_dict with
  | JObj members =>
      match jget "turns" members with
      | None => Raises
      | Some turns_json =>
          match load_turns turns_json with
          | Raises => Raises
          | rebuilt =>
              match read_datetime "started_at" members,
                    read_datetime "last_interaction" members with
              | Some started_at, Some last_interaction =>
                  if fits context_fields context_required members then
                    match rebuilt with
                    | Builds turns =>
                        match typed_context started_at last_interaction
                                turns members with
                        | Some context => Builds context
                        | None => BuildsUntyped
                        end
                    | _ => BuildsUntyped
                    end
                  else Raises
              | _, _ => Raises
              end
          end
      end
  | _ => Raises
  end.

(** [self.conversation_history[session_id] = ConversationContext(...)] *)
Definition store_session (session_id : string) (context : ConversationContext)
    (self : ConversationManager) : ConversationManager :=
  let '(l, h) := alloc context (heap self) in
  {| max_context_turns := max_context_turns self;
     session_timeout := session_timeout self;
     current_context := current_context self;
     conversation_history := <[session_id := l]> (conversation_history self);
     heap := h |}.

(** The outer loop of [load_conversation_history]: the first record
    whose reconstruction raises ends it, with what was stored so far;
    a record that is rebuilt is stored, and the loop goes on.  At a
    record that Python rebuilds outside the typed state the embedding
    stops following the loop. *)
Fixpoint load_sessions (items : list (string * json))
    (self : ConversationManager) : ConversationManager * logged :=
  match items with
  | [] => (self, Info)
  | (session_id, context_dict) :: rest =>
      match load_context context_dict with
      | Raises => (self, Error)
      | Builds context =>
          load_sessions rest (store_session session_id context self)
      | BuildsUntyped => (self, LeftTypedState)
      end
  end.

(** [load_conversation_history].  Every exception is caught by the
    [except] clause, so the call always returns.  The outcome
    [LeftTypedState] is that of a document with a record that holds a
    value of another type than annotated, before any record that
    raises. *)
Definition load_conversation_history (filepath : string)
    (fs : gmap string file) (self : ConversationManager)
    : ConversationManager * logged :=
  match fs !! filepath with
  | None => (self, Error)
  | Some NotJson => (self, Error)
  | Some (Document history_data) =>
      let self0 := set_history ∅ self in
      match history_data with
      | JObj items => load_sessions items self0
      | _ => (self0, Error)
      end
  end.

End Persistence.

End Conversation.

(** ** ai_agent.py

    The decisions of the plugin: which command it runs, with which
    arguments, and which turn it records.  What it prints is left out,
    but for the lines of [_show_suggestions]. *)

Module Agent.

(** [_prepare_plugin_args] *)
Definition _prepare_plugin_args (intent : AICore.Intent) : list string :=
  let entities := AICore.entities intent in
  let args0 :=
    match AICore.search_terms entities with
    | Some terms => terms
    | None => []
    end in
  let args1 :=
    if PyStr.mem (AICore.plugin_name intent) ["weather"; "adhan"]
    then match AICore.gpe entities, AICore.loc entities with
         | Some place, _ => (args0 ++ [place])%list
         | None, Some place => (args0 ++ [place])%list
         | None, None => args0
         end
    else args0 in
  let args2 :=
    if String.eqb (AICore.plugin_name intent) "whois"
    then match AICore.person entities with
         | Some who => (args1 ++ [who])%list
         | None => args1
         end
    else args1 in
  match args2, AICore.search_terms entities with
  | [], Some terms => terms
  | _, _ => args2
  end.

(** How [subprocess.run] ends *)
Inductive run_outcome :=
| Completed (returncode : Z) (stdout stderr : string)
| TimeoutExpired
| OtherException.

(** The command line of [_execute_plugin] *)
Definition sarah_cmd (intent : AICore.Intent) : list string :=
  ("sarah" :: AICore.plugin_name intent :: _prepare_plugin_args intent)%list.

(** The value [_execute_plugin] returns, [run] being how the command
    ended *)
Definition _execute_plugin (intent : AICore.Intent) (run : run_outcome) : bool :=
  match run with
  | Completed returncode stdout stderr =>
      if negb (String.eqb stderr "") && negb (returncode =? 0)
      then false
      else returncode =? 0
  | TimeoutExpired => false
  | OtherException => false
  end.

Definition keyword_mapping : list (string * list string) :=
  [("weather", ["weather"; "temperature"; "rain"; "snow"; "forecast"]);
   ("time", ["time"; "date"; "clock"]);
   ("wiki", ["wiki"; "wikipedia"; "about"; "information"]);
   ("google", ["google"; "search"; "find"]);
   ("youtube", ["youtube"; "video"; "music"]);
   ("github", ["github"; "code"; "repository"]);
   ("speedtest", ["speed"; "internet"; "connection"]);
   ("hi", ["hello"; "hi"; "hey"; "greetings"])].

(** The loop of [_fallback_processing]: [(best_match, max_matches)] *)
Definition fallback_match (user_lower : string) : option string * nat :=
  fold_left
    (fun best '(plugin, keywords) =>
       let matches :=
         length (List.filter (fun keyword => PyStr.contains keyword user_lower)
                             keywords) in
       if (snd best <? matches)%nat then (Some plugin, matches) else best)
    keyword_mapping (None, 0%nat).

(** [_fallback_processing]: the command it runs, [None] when it finds no
    match *)
Definition _fallback_processing (user_input : string) : option (list string) :=
  let user_lower := PyStr.lower user_input in
  match fallback_match user_lower with
  | (Some best_match, max_matches) =>
      if (0 <? max_matches)%nat then
        let words := PyStr.split user_input in
        let args :=
          firstn 5 (List.filter (fun word => (2 <? String.length word)%nat)
                                words) in
        Some ("sarah" :: best_match :: args)%list
      else None
  | (None, _) => None
  end.

(** One line of [_show_suggestions] for the [i]-th suggestion; [None]
    stands for the [KeyError] of a suggestion without ['description']. *)
Definition suggestion_line (i : Z) (suggestion : AICore.Suggestion)
    : option string :=
  let confidence_indicator :=
    if Score.gt (AICore.s_confidence suggestion) (7 # 10) then "HIGH"
    else if Score.gt (AICore.s_confidence suggestion) (4 # 10) then "MED"
    else "LOW" in
  match AICore.s_description suggestion with
  | Some description =>
      Some ("  " ++ PyStr.str_of_int i ++ ". " ++ description ++ " ("
            ++ confidence_indicator ++ ")")
  | None => None
  end.

(** The lines [_show_suggestions] prints for the suggestions, numbered
    from [i]; [None] when it raises. *)
Fixpoint _show_suggestions (i : Z) (suggestions : list AICore.Suggestion)
    : option (list string) :=
  match suggestions with
  | [] => Some []
  | suggestion :: rest =>
      match suggestion_line i suggestion with
      | None => None
      | Some line =>
          match _show_suggestions (i + 1) rest with
          | None => None
          | Some more => Some (line :: more)
          end
      end
  end.

(** The attributes of [AIAgentPlugin] that processing reads *)
Record AIAgentPlugin := {
  initialized : bool;
  ai_core : option AICore.SarahAICore;
  conversation_manager : option Conversation.ConversationManager
}.

(** What one call of [_process_natural_language] did *)
Inductive outcome :=
| UsedFallback (command : option (list string))
| AskedBack (lines : list string)
| ErrorCaught
| Ran (command : list string) (success : bool).

Section Processing.

Variable cosine_similarity : list Q -> list Q -> Q.

(** [_process_natural_language]: [run] is how the command ends when one
    is run, [env] what [add_turn] reads. *)
Definition _process_natural_language (user_input : string) (run : run_outcome)
    (env : Conversation.TurnEnv) (self : AIAgentPlugin)
    : AIAgentPlugin * outcome :=
  match initialized self, ai_core self with
  | true, Some core =>
      let intent := AICore.understand_input cosine_similarity core user_input in
      if Score.gt (3 # 10) (AICore.confidence intent) then
        match AICore.get_suggestions cosine_similarity core user_input (Some 3) with
        | None => (self, ErrorCaught)
        | Some suggestions =>
            match _show_suggestions 1 suggestions with
            | None => (self, ErrorCaught)
            | Some lines => (self, AskedBack lines)
            end
        end
      else
        let success := _execute_plugin intent run in
        match conversation_manager self with
        | Some manager =>
            let plugin_response :=
              if success then "Command executed successfully"
              else "Command failed" in
            let manager' :=
              Conversation.add_turn
                {| Conversation.arg_user_input := user_input;
                   Conversation.arg_intent_plugin := AICore.plugin_name intent;
                   Conversation.arg_intent_confidence := AICore.confidence intent;
                   Conversation.arg_entities := AICore.entities intent;
                   Conversation.arg_sarah_response := plugin_response;
                   Conversation.arg_execution_successful := success |}
                env manager in
            ({| initialized := initialized self;
                ai_core := ai_core self;
                conversation_manager := Some manager' |},
             Ran (sarah_cmd intent) success)
        | None => (self, Ran (sarah_cmd intent) success)
        end
  | _, _ => (self, UsedFallback (_fallback_processing user_input))
  end.

End Processing.

End Agent.

(** ** Vocabulary of the specification and sample inputs *)

Module Samples.

(** The utterance consists of whitespace only (the empty one included). *)
Fixpoint whitespace_only (s : string) : bool :=
  match s with
  | EmptyString => true
  | String c s' => PyStr.isspace c && whitespace_only s'
  end.

(** [needle] occurs in [hay] as a substring. *)
Definition substring_of (needle hay : string) : Prop :=
  exists before after, hay = before ++ needle ++ after.

(** [x] is the entry of [l] that a maximum search with first-seen
    tie-break selects: no entry before it scores as much, no entry after
    it scores more. *)
Definition first_maximum {A} (score : A -> Q) (l : list A) (x : A) : Prop :=
  exists before after,
    l = (before ++ x :: after)%list
    /\ (forall y, In y before -> (score y < score x)%Q)
    /\ (forall y, In y after -> (score y <= score x)%Q).

(** The utterance contains, case-insensitively, one of the phrases. *)
Definition mentions (phrases : list string) (user_input : string) : Prop :=
  exists phrase, In phrase phrases /\ substring_of phrase (PyStr.lower user_input).

(** The follow-up test on a context: it has a last turn, and either that
    turn used the same plugin less than two minutes before [now], or the
    utterance contains a continuation word. *)
Definition follow_up (now : Z) (user_input intent_plugin : string)
    (ctx : Conversation.ConversationContext) : Prop :=
  exists last_turn,
    last (Conversation.turns ctx) = Some last_turn
    /\ ((now - Conversation.timestamp last_turn < Conversation.minutes 2
         /\ intent_plugin = Conversation.intent_plugin last_turn)
        \/ mentions Conversation.follow_up_words user_input).

(** The two hints [_add_context_to_response] can append *)
Definition location_hint (location : string) : string :=
  Conversation.newline ++ "(I remember you usually ask about " ++ location ++ ")".

Definition topic_hint (topic : string) : string :=
  Conversation.newline ++ "(Related to our discussion about " ++ topic ++ ")".

(** The cosine similarity of two one-dimensional vectors: the sign of
    the product of their components, and 0 as soon as one is the zero
    vector, as scikit-learn has it.  Vectors of other dimensions do not
    occur with the one-dimensional encoders below. *)
Definition cosine_1d (a b : list Q) : Q :=
  match a, b with
  | [x], [y] =>
      match Qnum (x * y) with
      | Z0 => 0
      | Zpos _ => 1
      | Zneg _ => - (1)
      end
  | _, _ => 0
  end%Q.

(** A one-dimensional encoder that sends every text to the same side. *)
Definition encode_same_side (text : string) : list Q :=
  [inject_Z (1 + Z.of_nat (String.length text))].

(** A one-dimensional encoder that separates short texts (utterances)
    from long ones (the combined text of a plugin). *)
Definition encode_by_length (text : string) : list Q :=
  [inject_Z (Z.of_nat (String.length text) - 50)].

(** The core as constructed without spaCy and without a sentence model:
    keyword-fallback mode *)
Definition keyword_core : AICore.SarahAICore :=
  AICore.create_ai_core AICore.default_config None None.

(** The two-action catalog of the specification's example scenario *)
Definition example_catalog : list (string * AICore.PluginInfo) :=
  [ ("weather",
     {| AICore.name := "weather";
        AICore.description := "Get weather information";
        AICore.examples := [];
        AICore.keywords := ["weather"; "temperature"; "rain"; "forecast"];
        AICore.parameters := [] |});
    ("time",
     {| AICore.name := "time";
        AICore.description := "Show current time";
        AICore.examples := [];
        AICore.keywords := ["time"; "date"; "clock"];
        AICore.parameters := [] |}) ].

Definition example_core : AICore.SarahAICore :=
  {| AICore.config := AICore.default_config;
     AICore.nlp := None;
     AICore.sentence_model := None;
     AICore.plugin_embeddings := [];
     AICore.plugins_info := example_catalog |}.

(** A stand-in for the ISO-8601 text of a timestamp: the decimal numeral
    of its position on the time line. *)
Definition decimal_isoformat (t : Z) : string :=
  DecimalString.NilZero.string_of_int (Z.to_int t).

Definition decimal_fromisoformat (s : string) : option Z :=
  match DecimalString.NilZero.int_of_string s with
  | Some d => Some (Z.of_int d)
  | None => None
  end.

(** A history file with one well-formed session followed by a record
    without any member *)
Definition good_record (session_id last_interaction : string) : Conversation.json :=
  Conversation.JObj
    [("session_id", Conversation.JStr session_id);
     ("started_at", Conversation.JStr "0");
     ("last_interaction", Conversation.JStr last_interaction);
     ("turns", Conversation.JList []);
     ("active_topic", Conversation.JNull);
     ("user_preferences", Conversation.JObj []);
     ("location_context", Conversation.JNull)].

Definition half_good_history : Conversation.json :=
  Conversation.JObj
    [("first", good_record "first" "0");
     ("second", Conversation.JObj [])].

(** Successive [add_turn] calls, each with its arguments and with what
    it reads from its environment *)
Definition add_turns (calls : list (Conversation.TurnArgs * Conversation.TurnEnv))
    (self : Conversation.ConversationManager) : Conversation.ConversationManager :=
  fold_left (fun m call => Conversation.add_turn (fst call) (snd call) m)
            calls self.

(** The turns those calls create, oldest first *)
Definition turns_of (calls : list (Conversation.TurnArgs * Conversation.TurnEnv))
    : list Conversation.ConversationTurn :=
  map (fun call =>
         Conversation.make_turn (fst call) (Conversation.now_turn (snd call)))
      calls.

(** The [n] last elements of a list, all of it when it is shorter *)
Definition most_recent {A} (n : nat) (l : list A) : list A :=
  skipn (length l - n) l.

(** The context that [start_conversation] creates *)
Definition fresh_context (session_id : string) (now : Z)
    : Conversation.ConversationContext :=
  {| Conversation.session_id := session_id;
     Conversation.started_at := now;
     Conversation.last_interaction := now;
     Conversation.turns := [];
     Conversation.active_topic := None;
     Conversation.user_preferences := Some Conversation.no_preferences;
     Conversation.location_context := None |}.

(** A manager with [max_context_turns = 0] that holds one session *)
Definition zero_limit_session : Conversation.ConversationManager :=
  fst (Conversation.start_conversation (Some "s")
         {| Conversation.epoch_seconds := 0;
            Conversation.now_started := 5;
            Conversation.now_cleanup := 5;
            Conversation.greeting_pick := 0 |}
         (Conversation.create_conversation_manager 0 30)).

Definition turn_at (now : Z) : Conversation.TurnEnv :=
  {| Conversation.implicit_start :=
       {| Conversation.epoch_seconds := 0;
          Conversation.now_started := now;
          Conversation.now_cleanup := now;
          Conversation.greeting_pick := 0 |};
     Conversation.now_turn := now |}.

(** Every reference of the history leads to an object of the heap. *)
Definition no_dangling (self : Conversation.ConversationManager) : Prop :=
  forall k l,
    Conversation.conversation_history self !! k = Some l ->
    is_Some (Conversation.heap self !! l).

(** The references of a manager lead somewhere: those of the history
    and the current one. *)
Definition well_formed (self : Conversation.ConversationManager) : Prop :=
  no_dangling self
  /\ forall l, Conversation.current_context self = Some l ->
               is_Some (Conversation.heap self !! l).


(** A manager that holds one session, started at time 5 *)
Definition sample_start : Conversation.StartEnv :=
  {| Conversation.epoch_seconds := 0;
     Conversation.now_started := 5;
     Conversation.now_cleanup := 5;
     Conversation.greeting_pick := 0 |}.

Definition one_session : Conversation.ConversationManager :=
  fst (Conversation.start_conversation (Some "kept") sample_start
         (Conversation.create_conversation_manager 10 30)).

(** A manager fresh from [__init__] that has loaded a history file with
    one session, last used at time 0 *)
Definition old_history : Conversation.json :=
  Conversation.JObj [("old", good_record "old" "0")].

Definition loaded_manager : Conversation.ConversationManager :=
  fst (Conversation.load_conversation_history decimal_fromisoformat
         "history.json" {["history.json" := Conversation.Document old_history]}
         (Conversation.create_conversation_manager 10 30)).

(** A turn whose entities and whose effect on the preferences exercise
    every kind of value the history file holds *)
Definition rich_args : Conversation.TurnArgs :=
  {| Conversation.arg_user_input := "weather in Paris tomorrow";
     Conversation.arg_intent_plugin := "weather";
     Conversation.arg_intent_confidence := 7 # 8;
     Conversation.arg_entities :=
       {| AICore.person := None; AICore.org := None;
          AICore.gpe := Some "Paris"; AICore.loc := None;
          AICore.search_terms := Some ["weather"; "paris"; "tomorrow"] |};
     Conversation.arg_sarah_response := "Command failed";
     Conversation.arg_execution_successful := false |}.

Definition sample_args (text plugin : string) : Conversation.TurnArgs :=
  {| Conversation.arg_user_input := text;
     Conversation.arg_intent_plugin := plugin;
     Conversation.arg_intent_confidence := 9 # 10;
     Conversation.arg_entities := AICore.no_entities;
     Conversation.arg_sarah_response := "Command executed successfully";
     Conversation.arg_execution_successful := true |}.

(** Two hours after time 0 *)
Definition two_hours_later : Conversation.TurnEnv :=
  {| Conversation.implicit_start :=
       {| Conversation.epoch_seconds := 7200;
          Conversation.now_started := Conversation.minutes 120;
          Conversation.now_cleanup := Conversation.minutes 120;
          Conversation.greeting_pick := 0 |};
     Conversation.now_turn := Conversation.minutes 120 |}.

(** A recogniser that finds two places and a date in every text *)
Definition two_places (text : string) : AICore.Doc :=
  {| AICore.ents := [("GPE", "paris"); ("GPE", "london"); ("DATE", "today")];
     AICore.tokens :=
       [{| AICore.tok_text := "paris"; AICore.is_stop := false;
           AICore.is_punct := false |};
        {| AICore.tok_text := "or"; AICore.is_stop := true;
           AICore.is_punct := false |};
        {| AICore.tok_text := "london"; AICore.is_stop := false;
           AICore.is_punct := false |}] |}.

Definition recogniser_core : AICore.SarahAICore :=
  AICore.create_ai_core AICore.default_config (Some two_places) None.

(** The core with the one-dimensional encoder that puts every text on
    the same side: embedding mode *)
Definition embedding_core : AICore.SarahAICore :=
  AICore.create_ai_core AICore.default_config None (Some encode_same_side).

(** How often the preferences of a context count a plugin: the value
    under its name in ['preferred_plugins'], 0 without one *)
Definition usage_count (plugin : string)
    (ctx : Conversation.ConversationContext) : Z :=
  match Conversation.user_preferences ctx with
  | Some prefs =>
      match Conversation.preferred_plugins prefs with
      | Some counts => default 0 (counts !! plugin)
      | None => 0
      end
  | None => 0
  end.

(** How many of the calls are for the plugin *)
Definition calls_with (plugin : string)
    (calls : list (Conversation.TurnArgs * Conversation.TurnEnv)) : nat :=
  length (List.filter
            (fun call =>
               String.eqb (Conversation.arg_intent_plugin (fst call)) plugin)
            calls).

(** A record whose keys are those of a context and whose
    [user_preferences] hold a key that [_update_user_preferences] never
    writes: Python rebuilds the context and stores the dictionary as
    loaded. *)
Definition themed_record (session_id : string) : Conversation.json :=
  Conversation.JObj
    [("session_id", Conversation.JStr session_id);
     ("started_at", Conversation.JStr "0");
     ("last_interaction", Conversation.JStr "0");
     ("turns", Conversation.JList []);
     ("active_topic", Conversation.JNull);
     ("user_preferences",
      Conversation.JObj [("theme", Conversation.JStr "dark")]);
     ("location_context", Conversation.JNull)].

(** A history file with a well-formed session, then a session with such
    preferences, then a record without any member *)
Definition themed_history : Conversation.json :=
  Conversation.JObj
    [("a", good_record "a" "0");
     ("typed", themed_record "typed");
     ("c", Conversation.JObj [])].

(** A record with such preferences and a turn without timestamp *)
Definition themed_broken_record : Conversation.json :=
  Conversation.JObj
    [("session_id", Conversation.JStr "s");
     ("started_at", Conversation.JStr "0");
     ("last_interaction", Conversation.JStr "0");
     ("turns", Conversation.JList [Conversation.JObj []]);
     ("user_preferences",
      Conversation.JObj [("theme", Conversation.JStr "dark")])].

End Samples.

(** * Properties *)

(** ** Strings *)

Lemma append_cons (c : ascii) (s t : string) :
  String c s ++ t = String c (s ++ t).
Proof. reflexivity. Qed.

Lemma append_nil (t : string) : "" ++ t = t.
Proof. reflexivity. Qed.

Lemma prefix_spec (needle hay : string) :
  String.prefix needle hay = true <-> exists after, hay = needle ++ after.
Proof.
  revert hay. induction needle as [|c needle IH]; intros hay.
  - split; [intros _; now exists hay | now destruct hay].
  - destruct hay as [|d hay]; simpl.
    + split; [discriminate | intros [after H]; discriminate].
    + destruct (Ascii.ascii_dec c d) as [->|Hne].
      * rewrite IH.
        split; intros [after H]; exists after; rewrite append_cons in *; congruence.
      * split; [discriminate | intros [after H]; rewrite append_cons in H; congruence].
Qed.

(** [needle in hay] decides the occurrence of [needle] in [hay]. *)
Lemma contains_spec (needle hay : string) :
  PyStr.contains needle hay = true <-> Samples.substring_of needle hay.
Proof.
  unfold Samples.substring_of.
  induction hay as [|d hay IH].
  - cbn [PyStr.contains].
    destruct (String.prefix needle "") eqn:Hp.
    + split; [intros _ | reflexivity].
      apply prefix_spec in Hp as [after H]. exists "", after.
      now rewrite append_nil.
    + split; [discriminate|].
      intros ([|b before] & after & H).
      * assert (String.prefix needle "" = true) as Hq
          by (apply prefix_spec; exists after; now rewrite append_nil in H).
        congruence.
      * discriminate.
  - cbn [PyStr.contains].
    destruct (String.prefix needle (String d hay)) eqn:Hp.
    + split; [intros _ | reflexivity].
      apply prefix_spec in Hp as [after H]. exists "", after.
      now rewrite append_nil.
    + rewrite IH. split.
      * intros (before & after & H). exists (String d before), after.
        rewrite append_cons. now rewrite H.
      * intros ([|b before] & after & H).
        -- assert (String.prefix needle (String d hay) = true) as Hq
             by (apply prefix_spec; exists after; now rewrite append_nil in H).
           congruence.
        -- rewrite append_cons in H. injection H as _ H. now exists before, after.
Qed.

Lemma lstrip_whitespace_only (s : string) :
  Samples.whitespace_only s = true -> PyStr.lstrip s = "".
Proof.
  induction s as [|c s IH]; simpl; [reflexivity|].
  intros [Hc Hs]%andb_prop. rewrite Hc. auto.
Qed.

(** [_clean_input] maps the empty and every whitespace-only utterance to
    the empty string. *)
Lemma clean_input_whitespace_only (s : string) :
  Samples.whitespace_only s = true -> AICore._clean_input s = "".
Proof.
  intros H. unfold AICore._clean_input, PyStr.strip.
  now rewrite (lstrip_whitespace_only s H).
Qed.

Lemma filter_none {A} (f : A -> bool) (l : list A) :
  (forall x, In x l -> f x = false) -> List.filter f l = [].
Proof.
  induction l as [|a l IH]; intros H; [reflexivity|].
  simpl. rewrite (H a (or_introl eq_refl)). apply IH.
  intros x Hx. apply H. now right.
Qed.

(** ** Scores *)

Lemma gt_true (a b : Q) : Score.gt a b = true <-> (b < a)%Q.
Proof.
  unfold Score.gt. rewrite negb_true_iff.
  split.
  - intros H. apply Qnot_le_lt. intros Hle.
    apply Qle_bool_iff in Hle. congruence.
  - intros H. destruct (Qle_bool a b) eqn:E; [|reflexivity].
    apply Qle_bool_iff in E. exfalso. exact (Qlt_not_le _ _ H E).
Qed.

Lemma gt_false (a b : Q) : Score.gt a b = false <-> (a <= b)%Q.
Proof.
  unfold Score.gt. rewrite negb_false_iff. apply Qle_bool_iff.
Qed.

Lemma pos_of_nat_Z (n : nat) : (0 < n)%nat -> Z.pos (Pos.of_nat n) = Z.of_nat n.
Proof.
  intros Hn. rewrite <- positive_nat_Z, Nat2Pos.id; [reflexivity | lia].
Qed.

Lemma ratio_zero (n : nat) : Score.ratio 0 n = 0%Q.
Proof.
  unfold Score.ratio. change 0%Q with (Qred 0). apply Qred_complete.
  reflexivity.
Qed.

Lemma ratio_full (n : nat) : (0 < n)%nat -> Score.ratio n n = 1%Q.
Proof.
  intros Hn. unfold Score.ratio. change 1%Q with (Qred 1).
  apply Qred_complete. unfold Qeq. simpl Qnum. simpl Qden.
  rewrite (pos_of_nat_Z n Hn). lia.
Qed.

Lemma ratio_nonneg (m n : nat) : (0 <= Score.ratio m n)%Q.
Proof.
  unfold Score.ratio. rewrite Qred_correct. unfold Qle. simpl. lia.
Qed.

(** The ratio of two lengths is the quotient of the two numbers. *)
Lemma ratio_quotient (m n : nat) :
  (0 < n)%nat ->
  (Score.ratio m n == inject_Z (Z.of_nat m) / inject_Z (Z.of_nat n))%Q.
Proof.
  intros Hn. unfold Score.ratio. rewrite Qred_correct.
  rewrite (Qmake_Qdiv (Z.of_nat m) (Pos.of_nat n)).
  now rewrite (pos_of_nat_Z n Hn).
Qed.

(** ** The matching loop

    Both matchers fold [AICore.consider] over a dictionary; [step] is
    the body of either loop, [label] the key and [score] the score of an
    entry. *)

Section Scan.

Context {A : Type} (label : A -> string) (score : A -> Q).
Context (step : AICore.Match -> A -> AICore.Match).
Hypothesis step_consider :
  forall best x, step best x = AICore.consider best (label x) (score x).

Lemma scan_keep (l : list A) (best : AICore.Match) :
  (forall y, In y l -> (score y <= AICore.match_confidence best)%Q) ->
  fold_left step l best = best.
Proof.
  revert best. induction l as [|a l IH]; intros best Hle; [reflexivity|].
  simpl. rewrite step_consider. unfold AICore.consider.
  assert (Score.gt (score a) (AICore.match_confidence best) = false) as ->
    by (apply gt_false, Hle; now left).
  apply IH. intros y Hy. apply Hle. now right.
Qed.

Lemma scan_first_maximum (before after : list A) (x : A) (best : AICore.Match) :
  (AICore.match_confidence best < score x)%Q ->
  (forall y, In y before -> (score y < score x)%Q) ->
  (forall y, In y after -> (score y <= score x)%Q) ->
  fold_left step (before ++ x :: after) best
  = {| AICore.plugin := label x; AICore.match_confidence := score x |}.
Proof.
  revert best. induction before as [|a before IH]; intros best Hbest Hlt Hle.
  - simpl. rewrite step_consider. unfold AICore.consider.
    assert (Score.gt (score x) (AICore.match_confidence best) = true) as ->
      by now apply gt_true.
    now apply scan_keep.
  - simpl. rewrite step_consider. apply IH.
    + unfold AICore.consider.
      destruct (Score.gt (score a) (AICore.match_confidence best)); simpl.
      * apply Hlt. now left.
      * exact Hbest.
    + intros y Hy. apply Hlt. now right.
    + exact Hle.
Qed.

Lemma scan_confidence_grows (l : list A) (best : AICore.Match) :
  (AICore.match_confidence best
   <= AICore.match_confidence (fold_left step l best))%Q.
Proof.
  revert best. induction l as [|a l IH]; intros best; [apply Qle_refl|].
  simpl. eapply Qle_trans; [|apply IH].
  rewrite step_consider. unfold AICore.consider.
  destruct (Score.gt (score a) (AICore.match_confidence best)) eqn:E; simpl.
  - apply Qlt_le_weak. now apply gt_true.
  - apply Qle_refl.
Qed.

(** Among entries of which one scores above [floor], a first maximum
    exists, and it scores above [floor]. *)
Lemma first_maximum_exists (l : list A) (floor : Q) :
  (exists y, In y l /\ (floor < score y)%Q) ->
  exists x, Samples.first_maximum score l x /\ (floor < score x)%Q.
Proof.
  revert floor. induction l as [|a l IH]; intros floor (y & Hy & Hfloor).
  - destruct Hy.
  - set (top := if Score.gt (score a) floor then score a else floor).
    assert (floor <= top)%Q as Hfloor_top.
    { unfold top. destruct (Score.gt (score a) floor) eqn:E.
      - apply Qlt_le_weak. now apply gt_true.
      - apply Qle_refl. }
    assert (score a <= top)%Q as Ha_top.
    { unfold top. destruct (Score.gt (score a) floor) eqn:E.
      - apply Qle_refl.
      - now apply gt_false. }
    destruct (existsb (fun z => Score.gt (score z) top) l) eqn:Ex.
    + apply existsb_exists in Ex as (z & Hz & Hgt). apply gt_true in Hgt.
      destruct (IH top) as (x & (before & after & -> & Hb & Ha) & Hx).
      { now exists z. }
      exists x. split.
      * exists (a :: before), after. repeat split; [|exact Ha].
        intros w [<-|Hw]; [|now apply Hb].
        eapply Qle_lt_trans; eassumption.
      * eapply Qle_lt_trans; eassumption.
    + assert (forall z, In z l -> (score z <= top)%Q) as Hall.
      { intros z Hz. apply gt_false.
        destruct (Score.gt (score z) top) eqn:E; [|reflexivity].
        assert (existsb (fun z => Score.gt (score z) top) l = true) as Hex
          by (apply existsb_exists; now exists z).
        congruence. }
      destruct (Score.gt (score a) floor) eqn:E.
      * exists a. split; [|now apply gt_true].
        exists [], l. repeat split; [intros w []|].
        intros z Hz. specialize (Hall z Hz). unfold top in Hall.
        now rewrite ?E in Hall.
      * exfalso. unfold top in Hall, Ha_top. rewrite ?E in Hall, Ha_top.
        destruct Hy as [<-|Hy].
        -- exact (Qlt_not_le _ _ Hfloor Ha_top).
        -- exact (Qlt_not_le _ _ Hfloor (Hall y Hy)).
Qed.

(** When every entry has the score of the first one, the first maximum
    is the first entry. *)
Lemma first_maximum_flat (a : A) (l : list A) (x : A) :
  (forall y, In y (a :: l) -> (score y == score a)%Q) ->
  Samples.first_maximum score (a :: l) x -> x = a.
Proof.
  intros Hflat (before & after & Hl & Hb & _).
  destruct before as [|b before]; simpl in Hl.
  - congruence.
  - injection Hl as <- Hl. exfalso.
    assert (In x (a :: l)) as Hx.
    { right. rewrite Hl. apply in_or_app. right. now left. }
    specialize (Hb a (or_introl eq_refl)).
    rewrite (Hflat x Hx) in Hb. exact (Qlt_irrefl _ Hb).
Qed.

End Scan.

(** ** Intent resolution *)

Section Resolution.

Variable cosine_similarity : list Q -> list Q -> Q.

Lemma keyword_matching_fold (self : AICore.SarahAICore) (text : string) :
  forall best (x : string * AICore.PluginInfo),
    (fun best_match '(plugin_name, plugin_info) =>
       AICore.consider best_match plugin_name
         (AICore.keyword_score plugin_info text)) best x
    = AICore.consider best (fst x) (AICore.keyword_score (snd x) text).
Proof. intros best [n p]. reflexivity. Qed.

Lemma embedding_matching_fold (input_embedding : list Q) :
  forall best (x : string * list Q),
    (fun best_match '(plugin_name, plugin_embedding) =>
       let similarity := cosine_similarity input_embedding plugin_embedding in
       AICore.consider best_match plugin_name similarity) best x
    = AICore.consider best (fst x) (cosine_similarity input_embedding (snd x)).
Proof. intros best [n e]. reflexivity. Qed.

(** In keyword-fallback mode the best match is what the keyword loop
    returns; in embedding mode, what the loop over the embeddings
    returns. *)
Lemma find_best_keyword_mode (self : AICore.SarahAICore) (text : string) :
  AICore.sentence_model self = None ->
  AICore._find_best_plugin_match cosine_similarity self text
  = AICore._keyword_based_matching self text.
Proof. intros H. unfold AICore._find_best_plugin_match. now rewrite H. Qed.

(** The loop returns the first maximum as soon as one score is positive. *)
Lemma keyword_matching_first_maximum (self : AICore.SarahAICore) (text : string)
    (entry : string * AICore.PluginInfo) :
  Samples.first_maximum (fun e => AICore.keyword_score (snd e) text)
    (AICore.plugins_info self) entry ->
  (0 < AICore.keyword_score (snd entry) text)%Q ->
  AICore._keyword_based_matching self text
  = {| AICore.plugin := fst entry;
       AICore.match_confidence := AICore.keyword_score (snd entry) text |}.
Proof.
  intros (before & after & Hl & Hb & Ha) Hpos.
  unfold AICore._keyword_based_matching. rewrite Hl.
  apply (scan_first_maximum fst (fun e => AICore.keyword_score (snd e) text) _
           (keyword_matching_fold self text)); assumption.
Qed.

Lemma keyword_matching_default (self : AICore.SarahAICore) (text : string) :
  (forall e, In e (AICore.plugins_info self) ->
             (AICore.keyword_score (snd e) text <= 0)%Q) ->
  AICore._keyword_based_matching self text = AICore.default_match.
Proof.
  intros Hle. unfold AICore._keyword_based_matching.
  apply (scan_keep fst (fun e => AICore.keyword_score (snd e) text) _
           (keyword_matching_fold self text)).
  exact Hle.
Qed.

Lemma embedding_matching_first_maximum (self : AICore.SarahAICore)
    (encode : string -> list Q) (text : string) (entry : string * list Q) :
  AICore.sentence_model self = Some encode ->
  Samples.first_maximum (fun e => cosine_similarity (encode text) (snd e))
    (AICore.plugin_embeddings self) entry ->
  (0 < cosine_similarity (encode text) (snd entry))%Q ->
  AICore._find_best_plugin_match cosine_similarity self text
  = {| AICore.plugin := fst entry;
       AICore.match_confidence := cosine_similarity (encode text) (snd entry) |}.
Proof.
  intros Hmode (before & after & Hl & Hb & Ha) Hpos.
  unfold AICore._find_best_plugin_match. rewrite Hmode, Hl.
  apply (scan_first_maximum fst
           (fun e => cosine_similarity (encode text) (snd e)) _
           (embedding_matching_fold (encode text))); assumption.
Qed.

Lemma embedding_matching_default (self : AICore.SarahAICore)
    (encode : string -> list Q) (text : string) :
  AICore.sentence_model self = Some encode ->
  (forall e, In e (AICore.plugin_embeddings self) ->
             (cosine_similarity (encode text) (snd e) <= 0)%Q) ->
  AICore._find_best_plugin_match cosine_similarity self text
  = AICore.default_match.
Proof.
  intros Hmode Hle. unfold AICore._find_best_plugin_match. rewrite Hmode.
  apply (scan_keep fst (fun e => cosine_similarity (encode text) (snd e)) _
           (embedding_matching_fold (encode text))).
  exact Hle.
Qed.

Lemma best_match_confidence_nonneg (self : AICore.SarahAICore) (text : string) :
  (0 <= AICore.match_confidence
          (AICore._find_best_plugin_match cosine_similarity self text))%Q.
Proof.
  unfold AICore._find_best_plugin_match, AICore._keyword_based_matching.
  destruct (AICore.sentence_model self) as [encode|].
  - exact (scan_confidence_grows fst
             (fun e => cosine_similarity (encode text) (snd e)) _
             (embedding_matching_fold (encode text))
             (AICore.plugin_embeddings self) AICore.default_match).
  - exact (scan_confidence_grows fst
             (fun e => AICore.keyword_score (snd e) text) _
             (keyword_matching_fold self text)
             (AICore.plugins_info self) AICore.default_match).
Qed.

(** The keyword score is 0 without keywords and otherwise the number of
    keywords found in the text over the number of keywords. *)
Lemma keyword_score_formula (info : AICore.PluginInfo) (text : string) :
  (AICore.keywords info = [] -> AICore.keyword_score info text = 0%Q)
  /\ (AICore.keywords info <> [] ->
      (AICore.keyword_score info text
       == inject_Z (Z.of_nat (AICore.keyword_matches info text))
          / inject_Z (Z.of_nat (length (AICore.keywords info))))%Q).
Proof.
  unfold AICore.keyword_score. split; intros H.
  - now rewrite H.
  - destruct (AICore.keywords info) as [|k ks] eqn:E; [congruence|].
    apply ratio_quotient. simpl. lia.
Qed.

Lemma keyword_score_nonneg (info : AICore.PluginInfo) (text : string) :
  (0 <= AICore.keyword_score info text)%Q.
Proof.
  unfold AICore.keyword_score.
  destruct (AICore.keywords info); [apply Qle_refl | apply ratio_nonneg].
Qed.

(** Every keyword occurs in the text: the score is 1. *)
Lemma keyword_score_all (info : AICore.PluginInfo) (text : string) :
  AICore.keywords info <> [] ->
  (forall k, In k (AICore.keywords info) -> Samples.substring_of k text) ->
  AICore.keyword_score info text = 1%Q.
Proof.
  intros Hne Hall. unfold AICore.keyword_score, AICore.keyword_matches.
  destruct (AICore.keywords info) as [|k ks] eqn:E; [congruence|].
  replace (List.filter (fun keyword => PyStr.contains keyword text) (k :: ks))
    with (k :: ks).
  - apply ratio_full. simpl. lia.
  - symmetry. apply forallb_filter_id. apply forallb_forall.
    intros x Hx. apply contains_spec, Hall, Hx.
Qed.

(** No keyword occurs in the text: the score is 0. *)
Lemma keyword_score_none (info : AICore.PluginInfo) (text : string) :
  (forall k, In k (AICore.keywords info) -> ~ Samples.substring_of k text) ->
  AICore.keyword_score info text = 0%Q.
Proof.
  intros Hnone. unfold AICore.keyword_score, AICore.keyword_matches.
  destruct (AICore.keywords info) as [|k ks] eqn:E; [reflexivity|].
  replace (List.filter (fun keyword => PyStr.contains keyword text) (k :: ks))
    with (@nil string).
  - apply ratio_zero.
  - symmetry. apply filter_none.
    intros x Hx. destruct (PyStr.contains x text) eqn:C; [|reflexivity].
    exfalso. apply (Hnone x Hx). now apply contains_spec.
Qed.

Lemma extract_entities_blank (self : AICore.SarahAICore) :
  (forall analyse, AICore.nlp self = Some analyse ->
     analyse "" = {| AICore.ents := []; AICore.tokens := [] |}) ->
  AICore._extract_entities self "" = AICore.no_entities.
Proof.
  intros Hdoc. unfold AICore._extract_entities.
  destruct (AICore.nlp self) as [analyse|]; [|reflexivity].
  now rewrite (Hdoc analyse eq_refl).
Qed.

End Resolution.

(** ** Claims about intent resolution *)

(** C2, as amended.  For the empty utterance and for every
    whitespace-only utterance, [understand_input] returns an [Intent]
    with empty entities and the utterance as raw text (the recogniser,
    when there is one, finding nothing in the empty text).  In
    keyword-fallback mode its action is the default ['hi'] and its
    confidence exactly 0.  In embedding mode nothing treats the blank
    utterance apart: the action and confidence are those of the
    similarity loop for the empty string, and they are ['hi'] and 0 when
    no plugin has a positive similarity with it. *)
Theorem blank_utterance_resolution
    (cosine_similarity : list Q -> list Q -> Q) (cfg : AICore.Config)
    (nlp : option (string -> AICore.Doc))
    (sentence_model : option (string -> list Q)) (user_input : string) :
  Samples.whitespace_only user_input = true ->
  (forall analyse, nlp = Some analyse ->
     analyse "" = {| AICore.ents := []; AICore.tokens := [] |}) ->
  let self := AICore.create_ai_core cfg nlp sentence_model in
  let intent := AICore.understand_input cosine_similarity self user_input in
  AICore.entities intent = AICore.no_entities
  /\ AICore.raw_text intent = user_input
  /\ (sentence_model = None ->
      AICore.plugin_name intent = "hi" /\ AICore.confidence intent = 0%Q)
  /\ (forall encode, sentence_model = Some encode ->
      (forall e, In e (AICore.plugin_embeddings self) ->
                 (cosine_similarity (encode "") (snd e) <= 0)%Q) ->
      AICore.plugin_name intent = "hi" /\ AICore.confidence intent = 0%Q).
Proof.
  intros Hblank Hdoc self intent.
  unfold intent, AICore.understand_input.
  rewrite (clean_input_whitespace_only user_input Hblank). simpl.
  split; [|split; [reflexivity|split]].
  - now apply extract_entities_blank.
  - intros ->. now vm_compute.
  - intros encode -> Hle.
    rewrite (embedding_matching_default cosine_similarity self encode ""
               eq_refl Hle).
    now split.
Qed.

Lemma blank_utterance_resolution_witness :
  Samples.whitespace_only "   " = true
  /\ AICore.plugin_name
       (AICore.understand_input Samples.cosine_1d Samples.keyword_core "   ")
     = "hi"
  /\ AICore.confidence
       (AICore.understand_input Samples.cosine_1d Samples.keyword_core "   ")
     = 0%Q.
Proof.
  split; [reflexivity|].
  refine (proj1 (proj2 (proj2
    (blank_utterance_resolution Samples.cosine_1d AICore.default_config
       None None "   " eq_refl _))) eq_refl).
  intros analyse H. discriminate H.
Defined.

(** C2 fails in embedding mode: with an encoder under which the empty
    string has a positive similarity with a plugin, the empty utterance
    resolves to that plugin with a positive confidence. *)
Lemma blank_utterance_embedding_mode :
  let self :=
    AICore.create_ai_core AICore.default_config None
      (Some Samples.encode_same_side) in
  let intent := AICore.understand_input Samples.cosine_1d self "" in
  AICore.plugin_name intent = "weather"
  /\ AICore.confidence intent = 1%Q
  /\ ~ (AICore.plugin_name intent = "hi" /\ (AICore.confidence intent == 0)%Q).
Proof.
  vm_compute. split; [reflexivity|split; [reflexivity|]].
  intros [H _]. discriminate H.
Qed.

(** C3, as amended.  In embedding mode, whenever some plugin has a
    positive cosine similarity with the utterance, [understand_input]
    selects the plugin of maximum similarity over all plugin embeddings,
    the earliest in iteration order among those that attain the maximum,
    and returns that similarity as confidence. *)
Theorem embedding_mode_first_maximum
    (cosine_similarity : list Q -> list Q -> Q) (self : AICore.SarahAICore)
    (encode : string -> list Q) (user_input : string) :
  AICore.sentence_model self = Some encode ->
  let similarity := fun e : string * list Q =>
    cosine_similarity (encode (AICore._clean_input user_input)) (snd e) in
  (exists e, In e (AICore.plugin_embeddings self) /\ (0 < similarity e)%Q) ->
  let intent := AICore.understand_input cosine_similarity self user_input in
  exists entry,
    Samples.first_maximum similarity (AICore.plugin_embeddings self) entry
    /\ AICore.plugin_name intent = fst entry
    /\ AICore.confidence intent = similarity entry.
Proof.
  intros Hmode similarity Hpos intent.
  destruct (first_maximum_exists similarity (AICore.plugin_embeddings self)
              0%Q Hpos) as (entry & Hmax & Hentry).
  exists entry. split; [exact Hmax|].
  unfold intent, AICore.understand_input. simpl.
  rewrite (embedding_matching_first_maximum cosine_similarity self encode
             (AICore._clean_input user_input) entry Hmode Hmax Hentry).
  now split.
Qed.

Lemma embedding_mode_first_maximum_witness :
  let self :=
    AICore.create_ai_core AICore.default_config None
      (Some Samples.encode_same_side) in
  exists entry,
    Samples.first_maximum
      (fun e : string * list Q =>
         Samples.cosine_1d
           (Samples.encode_same_side (AICore._clean_input "what time is it"))
           (snd e))
      (AICore.plugin_embeddings self) entry
    /\ AICore.plugin_name
         (AICore.understand_input Samples.cosine_1d self "what time is it")
       = fst entry
    /\ AICore.confidence
         (AICore.understand_input Samples.cosine_1d self "what time is it")
       = Samples.cosine_1d
           (Samples.encode_same_side (AICore._clean_input "what time is it"))
           (snd entry).
Proof.
  intros self.
  apply (embedding_mode_first_maximum Samples.cosine_1d self
           Samples.encode_same_side "what time is it" eq_refl).
  eexists. split; [left; reflexivity|]. vm_compute. reflexivity.
Defined.

(** C3 fails when no similarity is positive: every plugin then has the
    similarity -1 with the utterance, the first maximum is the first
    plugin, and the code returns ['hi'] with confidence 0. *)
Lemma embedding_mode_nonpositive_maximum :
  let self :=
    AICore.create_ai_core AICore.default_config None
      (Some Samples.encode_by_length) in
  let similarity := fun e : string * list Q =>
    Samples.cosine_1d
      (Samples.encode_by_length (AICore._clean_input "hello")) (snd e) in
  let intent := AICore.understand_input Samples.cosine_1d self "hello" in
  ~ exists entry,
      Samples.first_maximum similarity (AICore.plugin_embeddings self) entry
      /\ AICore.plugin_name intent = fst entry
      /\ AICore.confidence intent = similarity entry.
Proof.
  intros self similarity intent (entry & Hmax & Hname & _).
  assert (entry = hd entry (AICore.plugin_embeddings self)) as Hfirst.
  { apply (first_maximum_flat similarity _
             (tl (AICore.plugin_embeddings self)) entry); [|exact Hmax].
    apply List.Forall_forall. vm_compute. repeat constructor. }
  rewrite Hfirst in Hname. vm_compute in Hname. discriminate Hname.
Qed.

(** C10.  In embedding mode the confidence of the returned [Intent] is
    never negative, and when no plugin has a positive cosine similarity
    with the utterance the result is the initial accumulator: the
    default action ['hi'] with confidence exactly 0. *)
Theorem embedding_confidence_nonnegative
    (cosine_similarity : list Q -> list Q -> Q) (self : AICore.SarahAICore)
    (encode : string -> list Q) (user_input : string) :
  AICore.sentence_model self = Some encode ->
  let intent := AICore.understand_input cosine_similarity self user_input in
  (0 <= AICore.confidence intent)%Q
  /\ ((forall e, In e (AICore.plugin_embeddings self) ->
         (cosine_similarity (encode (AICore._clean_input user_input)) (snd e)
          <= 0)%Q) ->
      AICore.plugin_name intent = "hi" /\ AICore.confidence intent = 0%Q).
Proof.
  intros Hmode intent. unfold intent, AICore.understand_input. simpl. split.
  - apply best_match_confidence_nonneg.
  - intros Hle.
    rewrite (embedding_matching_default cosine_similarity self encode
               (AICore._clean_input user_input) Hmode Hle).
    now split.
Qed.

Lemma embedding_confidence_nonnegative_witness :
  let self :=
    AICore.create_ai_core AICore.default_config None
      (Some Samples.encode_by_length) in
  let intent := AICore.understand_input Samples.cosine_1d self "hello" in
  (0 <= AICore.confidence intent)%Q
  /\ AICore.plugin_name intent = "hi" /\ AICore.confidence intent = 0%Q.
Proof.
  intros self intent.
  destruct (embedding_confidence_nonnegative Samples.cosine_1d self
              Samples.encode_by_length "hello" eq_refl) as [Hnonneg Hdefault].
  split; [exact Hnonneg|]. apply Hdefault.
  apply List.Forall_forall. vm_compute. repeat constructor; discriminate.
Defined.

(** C4, as amended.  In keyword-fallback mode, for every utterance:
    each plugin's score is the number of its keywords that occur in the
    normalised utterance over its number of keywords, and 0 for a plugin
    without keywords; when some plugin scores above 0, the plugin of
    maximum score is selected, the earliest in catalog order among those
    that attain it, with that score as confidence; when none does, the
    result is the default ['hi'] with confidence 0.  In particular an
    utterance that contains every keyword of one plugin (which has some)
    and no keyword of any other resolves to that plugin with confidence
    1, and on the two-action example catalog the utterance of the
    example resolves to [weather] with confidence 1/2. *)
Theorem keyword_fallback_resolution
    (cosine_similarity : list Q -> list Q -> Q) (self : AICore.SarahAICore)
    (user_input : string) :
  AICore.sentence_model self = None ->
  let text := AICore._clean_input user_input in
  let score := fun e : string * AICore.PluginInfo =>
    AICore.keyword_score (snd e) text in
  let intent := AICore.understand_input cosine_similarity self user_input in
  (forall e, In e (AICore.plugins_info self) ->
     (AICore.keywords (snd e) = [] -> score e = 0%Q)
     /\ (AICore.keywords (snd e) <> [] ->
         (score e
          == inject_Z (Z.of_nat (AICore.keyword_matches (snd e) text))
             / inject_Z (Z.of_nat (length (AICore.keywords (snd e)))))%Q))
  /\ ((exists e, In e (AICore.plugins_info self) /\ (0 < score e)%Q) ->
      exists entry,
        Samples.first_maximum score (AICore.plugins_info self) entry
        /\ AICore.plugin_name intent = fst entry
        /\ AICore.confidence intent = score entry)
  /\ ((forall e, In e (AICore.plugins_info self) -> (score e <= 0)%Q) ->
      AICore.plugin_name intent = "hi" /\ AICore.confidence intent = 0%Q)
  /\ (forall before entry after,
        AICore.plugins_info self = (before ++ entry :: after)%list ->
        AICore.keywords (snd entry) <> [] ->
        (forall k, In k (AICore.keywords (snd entry)) ->
                   Samples.substring_of k text) ->
        (forall other, In other (before ++ after)%list ->
           forall k, In k (AICore.keywords (snd other)) ->
                     ~ Samples.substring_of k text) ->
        AICore.plugin_name intent = fst entry
        /\ AICore.confidence intent = 1%Q)
  /\ (let example :=
        AICore.understand_input cosine_similarity Samples.example_core
          "what's the weather forecast for today" in
      AICore.plugin_name example = "weather"
      /\ AICore.confidence example = (1 # 2)%Q).
Proof.
  intros Hmode text score intent.
  assert (AICore.plugin_name intent
          = AICore.plugin (AICore._keyword_based_matching self text)
          /\ AICore.confidence intent
             = AICore.match_confidence
                 (AICore._keyword_based_matching self text)) as [Hname Hconf].
  { unfold intent, AICore.understand_input. simpl.
    now rewrite (find_best_keyword_mode cosine_similarity self _ Hmode). }
  rewrite Hname, Hconf.
  split; [|split; [|split; [|split]]].
  - intros e _. apply keyword_score_formula.
  - intros Hpos.
    destruct (first_maximum_exists score (AICore.plugins_info self) 0%Q Hpos)
      as (entry & Hmax & Hentry).
    exists entry. split; [exact Hmax|].
    now rewrite (keyword_matching_first_maximum self text entry Hmax Hentry).
  - intros Hle. now rewrite (keyword_matching_default self text Hle).
  - intros before entry after Hl Hne Hall Hnone.
    assert (score entry = 1%Q) as Hone
      by (apply keyword_score_all; assumption).
    assert (forall other, In other (before ++ after)%list -> score other = 0%Q)
      as Hzero by (intros other Ho; apply keyword_score_none; exact (Hnone other Ho)).
    assert (Samples.first_maximum score (AICore.plugins_info self) entry)
      as Hmax.
    { exists before, after. split; [exact Hl|]. split.
      - intros y Hy. rewrite Hone, (Hzero y); [reflexivity|].
        apply in_or_app. now left.
      - intros y Hy. rewrite Hone, (Hzero y); [discriminate|].
        apply in_or_app. now right. }
    rewrite (keyword_matching_first_maximum self text entry Hmax);
      [now split | fold (score entry); now rewrite Hone].
  - now vm_compute.
Qed.

Lemma keyword_fallback_resolution_witness :
  AICore.sentence_model Samples.example_core = None
  /\ AICore.plugin_name
       (AICore.understand_input Samples.cosine_1d Samples.example_core
          "what's the weather forecast for today")
     = "weather"
  /\ AICore.confidence
       (AICore.understand_input Samples.cosine_1d Samples.example_core
          "what's the weather forecast for today")
     = (1 # 2)%Q.
Proof.
  split; [reflexivity|].
  exact (proj2 (proj2 (proj2 (proj2
    (keyword_fallback_resolution Samples.cosine_1d Samples.example_core
       "what's the weather forecast for today" eq_refl))))).
Defined.

(** C4 fails when no plugin scores above 0: on the built-in catalog the
    utterance "xyz" gives every plugin the score 0, the maximum with
    catalog-order tie-break is the first plugin, [weather], and the code
    returns ['hi']. *)
Lemma keyword_fallback_all_zero :
  let text := AICore._clean_input "xyz" in
  let score := fun e : string * AICore.PluginInfo =>
    AICore.keyword_score (snd e) text in
  let intent :=
    AICore.understand_input Samples.cosine_1d Samples.keyword_core "xyz" in
  ~ exists entry,
      Samples.first_maximum score (AICore.plugins_info Samples.keyword_core)
        entry
      /\ AICore.plugin_name intent = fst entry.
Proof.
  intros text score intent (entry & Hmax & Hname).
  assert (entry = hd entry (AICore.plugins_info Samples.keyword_core))
    as Hfirst.
  { apply (first_maximum_flat score _
             (tl (AICore.plugins_info Samples.keyword_core)) entry);
      [|exact Hmax].
    apply List.Forall_forall. vm_compute. repeat constructor. }
  rewrite Hfirst in Hname. vm_compute in Hname. discriminate Hname.
Qed.

(** ** Suggestions *)

Lemma slice_to_length {A} (xs : list A) (n : Z) :
  0 <= n -> (length (PyStr.slice_to xs n) <= Z.to_nat n)%nat.
Proof.
  intros Hn. unfold PyStr.slice_to.
  destruct (0 <=? n) eqn:E; [|lia].
  rewrite length_firstn. lia.
Qed.

Lemma In_firstn {A} (n : nat) (xs : list A) (x : A) :
  In x (firstn n xs) -> In x xs.
Proof.
  revert xs. induction n as [|n IH]; intros [|a xs]; simpl; try tauto.
  intros [->|H]; [now left | right; now apply IH].
Qed.

Lemma slice_to_incl {A} (xs : list A) (n : Z) (x : A) :
  In x (PyStr.slice_to xs n) -> In x xs.
Proof.
  unfold PyStr.slice_to. destruct (0 <=? n); apply In_firstn.
Qed.

Lemma insert_desc_In (x y : AICore.Suggestion) (l : list AICore.Suggestion) :
  In y (AICore.insert_desc x l) <-> y = x \/ In y l.
Proof.
  induction l as [|a l IH]; simpl.
  - intuition.
  - destruct (Score.gt (AICore.s_confidence a) (AICore.s_confidence x)); simpl.
    + rewrite IH. intuition.
    + intuition.
Qed.

Lemma insert_desc_sorted (x : AICore.Suggestion) (l : list AICore.Suggestion) :
  StronglySorted
    (fun a b => (AICore.s_confidence b <= AICore.s_confidence a)%Q) l ->
  StronglySorted
    (fun a b => (AICore.s_confidence b <= AICore.s_confidence a)%Q)
    (AICore.insert_desc x l).
Proof.
  induction 1 as [|a l Hsorted IH Hall]; simpl.
  - repeat constructor.
  - destruct (Score.gt (AICore.s_confidence a) (AICore.s_confidence x)) eqn:E.
    + constructor; [exact IH|].
      apply List.Forall_forall. intros y Hy.
      apply insert_desc_In in Hy as [->|Hy].
      * apply Qlt_le_weak. now apply gt_true.
      * exact (proj1 (List.Forall_forall _ _) Hall y Hy).
    + apply gt_false in E.
      constructor; [now constructor|].
      constructor; [exact E|].
      apply List.Forall_forall. intros y Hy.
      eapply Qle_trans; [|exact E].
      exact (proj1 (List.Forall_forall _ _) Hall y Hy).
Qed.

(** The sort of [get_suggestions] orders by non-increasing confidence, *)
Lemma sort_desc_sorted (l : list AICore.Suggestion) :
  StronglySorted
    (fun a b => (AICore.s_confidence b <= AICore.s_confidence a)%Q)
    (AICore.sort_desc l).
Proof.
  induction l as [|x l IH]; simpl; [constructor|].
  now apply insert_desc_sorted.
Qed.

Lemma insert_desc_perm (x : AICore.Suggestion) (l : list AICore.Suggestion) :
  Permutation (AICore.insert_desc x l) (x :: l).
Proof.
  induction l as [|a l IH]; simpl; [reflexivity|].
  destruct (Score.gt (AICore.s_confidence a) (AICore.s_confidence x)).
  - rewrite IH. apply perm_swap.
  - reflexivity.
Qed.

(** rearranges its input, *)
Lemma sort_desc_perm (l : list AICore.Suggestion) :
  Permutation (AICore.sort_desc l) l.
Proof.
  induction l as [|x l IH]; simpl; [reflexivity|].
  rewrite insert_desc_perm. now constructor.
Qed.

Lemma insert_desc_same_confidence (c : Q) (x : AICore.Suggestion)
    (l : list AICore.Suggestion) :
  List.filter (fun s => Qeq_bool (AICore.s_confidence s) c)
    (AICore.insert_desc x l)
  = List.filter (fun s => Qeq_bool (AICore.s_confidence s) c) (x :: l).
Proof.
  induction l as [|a l IH]; [reflexivity|].
  cbn [AICore.insert_desc].
  destruct (Score.gt (AICore.s_confidence a) (AICore.s_confidence x)) eqn:E;
    [|reflexivity].
  cbn [List.filter] in *. rewrite IH.
  destruct (Qeq_bool (AICore.s_confidence x) c) eqn:Ex; [|reflexivity].
  destruct (Qeq_bool (AICore.s_confidence a) c) eqn:Ea; [|reflexivity].
  exfalso. apply gt_true in E.
  apply Qeq_bool_iff in Ex, Ea. rewrite Ex, Ea in E.
  exact (Qlt_irrefl _ E).
Qed.

(** and keeps suggestions of equal confidence in their input order. *)
Lemma sort_desc_stable (c : Q) (l : list AICore.Suggestion) :
  List.filter (fun s => Qeq_bool (AICore.s_confidence s) c) (AICore.sort_desc l)
  = List.filter (fun s => Qeq_bool (AICore.s_confidence s) c) l.
Proof.
  induction l as [|x l IH]; [reflexivity|].
  cbn [AICore.sort_desc fold_right]. fold (AICore.sort_desc l).
  rewrite insert_desc_same_confidence. cbn [List.filter]. now rewrite IH.
Qed.

(** In keyword-fallback mode [get_suggestions] returns the one best
    match of the keyword loop on the raw utterance, whatever the limit,
    and that entry has no description. *)
Lemma get_suggestions_keyword_mode
    (cosine_similarity : list Q -> list Q -> Q) (self : AICore.SarahAICore)
    (user_input : string) (limit : option Z) :
  AICore.sentence_model self = None ->
  AICore.get_suggestions cosine_similarity self user_input limit
  = Some [AICore.suggestion_of_match
            (AICore._keyword_based_matching self user_input)].
Proof. intros H. unfold AICore.get_suggestions. now rewrite H. Qed.

(** In embedding mode, on the core as constructed, [get_suggestions]
    returns for a limit that is not negative at most that many entries,
    by non-increasing confidence; each carries the description of a
    catalog plugin and its similarity with the normalised utterance. *)
Lemma get_suggestions_embedding_mode
    (cosine_similarity : list Q -> list Q -> Q) (cfg : AICore.Config)
    (nlp : option (string -> AICore.Doc)) (encode : string -> list Q)
    (user_input : string) (limit : Z) :
  0 <= limit ->
  exists suggestions,
    AICore.get_suggestions cosine_similarity
      (AICore.create_ai_core cfg nlp (Some encode)) user_input (Some limit)
    = Some suggestions
    /\ (length suggestions <= Z.to_nat limit)%nat
    /\ StronglySorted
         (fun a b => (AICore.s_confidence b <= AICore.s_confidence a)%Q)
         suggestions
    /\ (forall s, In s suggestions ->
          exists info,
            In (AICore.s_plugin s, info) AICore.builtin_plugins
            /\ AICore.s_description s = Some (AICore.description info)
            /\ exists embedding,
                 In (AICore.s_plugin s, embedding)
                    (AICore.plugin_embeddings
                       (AICore.create_ai_core cfg nlp (Some encode)))
                 /\ AICore.s_confidence s
                    = cosine_similarity
                        (encode (AICore._clean_input user_input)) embedding).
Proof.
  intros Hlimit.
  set (self := AICore.create_ai_core cfg nlp (Some encode)).
  set (all :=
         map (fun e : string * AICore.PluginInfo =>
                {| AICore.s_plugin := fst e;
                   AICore.s_confidence :=
                     cosine_similarity
                       (encode (AICore._clean_input user_input))
                       (encode (PyStr.join " "
                                  (AICore.description (snd e)
                                   :: AICore.examples (snd e)
                                   ++ AICore.keywords (snd e))%list));
                   AICore.s_description := Some (AICore.description (snd e)) |})
             AICore.builtin_plugins).
  assert (AICore.collect_suggestions cosine_similarity
            (AICore.plugins_info self)
            (encode (AICore._clean_input user_input))
            (AICore.plugin_embeddings self) = Some all) as Hall
    by reflexivity.
  exists (PyStr.slice_to (AICore.sort_desc all) limit).
  split; [|split; [|split]].
  - unfold AICore.get_suggestions. simpl AICore.sentence_model.
    cbv beta iota. now rewrite Hall.
  - now apply slice_to_length.
  - unfold PyStr.slice_to. destruct (0 <=? limit) eqn:E; [|lia].
    generalize (Z.to_nat limit) as k.
    generalize (sort_desc_sorted all).
    generalize (AICore.sort_desc all) as l.
    induction l as [|a l IH]; intros Hs k.
    + rewrite firstn_nil. constructor.
    + destruct k as [|k]; [constructor|]. simpl.
      apply StronglySorted_inv in Hs as [Hs Ha].
      constructor; [now apply IH|].
      apply List.Forall_forall. intros y Hy. apply In_firstn in Hy.
      exact (proj1 (List.Forall_forall _ _) Ha y Hy).
  - intros s Hs. apply slice_to_incl in Hs.
    apply (Permutation_in _ (sort_desc_perm all)) in Hs.
    apply in_map_iff in Hs as ([n info] & <- & Hin).
    cbn [fst snd AICore.s_plugin AICore.s_description AICore.s_confidence].
    exists info. split; [exact Hin|]. split; [reflexivity|].
    eexists. split; [|reflexivity].
    change (AICore.plugin_embeddings self)
      with (map (fun '(plugin_name, plugin_info) =>
                   (plugin_name : string,
                    encode (PyStr.join " "
                              (AICore.description plugin_info
                               :: AICore.examples plugin_info
                               ++ AICore.keywords plugin_info)%list)))
                AICore.builtin_plugins).
    apply in_map_iff. exists (n, info). split; [reflexivity|exact Hin].
Qed.

(** C5, the keyword-fallback path.  On the core as constructed without a
    sentence model, [get_suggestions] for "Weather" returns a single
    entry without description, also for the limit 0, and the entry is
    the default ['hi'] with confidence 0 although resolution of the same
    utterance selects [weather] with confidence 1/6: the utterance is
    not normalised on this path. *)
Theorem get_suggestions_keyword_path
    (cosine_similarity : list Q -> list Q -> Q) :
  let self := Samples.keyword_core in
  let only_entry :=
    {| AICore.s_plugin := "hi"; AICore.s_confidence := 0;
       AICore.s_description := None |} in
  AICore.get_suggestions cosine_similarity self "Weather" (Some 3)
  = Some [only_entry]
  /\ AICore.get_suggestions cosine_similarity self "Weather" (Some 0)
     = Some [only_entry]
  /\ AICore.plugin_name
       (AICore.understand_input cosine_similarity self "Weather") = "weather"
  /\ AICore.confidence
       (AICore.understand_input cosine_similarity self "Weather") = (1 # 6)%Q.
Proof. now vm_compute. Qed.

(** ** Turns of the current context *)

Lemma current_update_current
    (f : Conversation.ConversationContext -> Conversation.ConversationContext)
    (self : Conversation.ConversationManager) :
  Conversation.current (Conversation.update_current f self)
  = f <$> Conversation.current self.
Proof.
  unfold Conversation.current, Conversation.update_current.
  destruct (Conversation.current_context self) as [l|] eqn:E; simpl;
    rewrite ?E; [apply lookup_alter_eq | reflexivity].
Qed.

Lemma turns_update_user_preferences (entities : AICore.Entities)
    (intent_plugin : string) (ctx : Conversation.ConversationContext) :
  Conversation.turns
    (Conversation._update_user_preferences entities intent_plugin ctx)
  = Conversation.turns ctx.
Proof.
  unfold Conversation._update_user_preferences.
  now destruct (AICore.gpe entities), (AICore.loc entities).
Qed.

Lemma turns_update_active_topic (intent_plugin : string)
    (entities : AICore.Entities) (ctx : Conversation.ConversationContext) :
  Conversation.turns
    (Conversation._update_active_topic intent_plugin entities ctx)
  = Conversation.turns ctx.
Proof.
  unfold Conversation._update_active_topic.
  destruct (AICore.search_terms entities) as [[|term terms]|];
    try reflexivity;
    now destruct (PyStr.mem intent_plugin ["weather"; "time"; "speedtest"]).
Qed.

(** With a positive maximum, the trimming of [add_turn] keeps the most
    recent turns up to the maximum. *)
Lemma turns_trim_turns (max_context_turns : Z)
    (ctx : Conversation.ConversationContext) :
  1 <= max_context_turns ->
  Conversation.turns (Conversation.trim_turns max_context_turns ctx)
  = Samples.most_recent (Z.to_nat max_context_turns) (Conversation.turns ctx).
Proof.
  intros Hmax. unfold Conversation.trim_turns, Samples.most_recent.
  destruct (max_context_turns <? Z.of_nat (length (Conversation.turns ctx)))
    eqn:E; simpl.
  - unfold PyStr.slice_last.
    destruct (0 <? max_context_turns) eqn:E0; [reflexivity|lia].
  - replace (length (Conversation.turns ctx) - Z.to_nat max_context_turns)%nat
      with 0%nat by lia.
    reflexivity.
Qed.

Lemma most_recent_length {A} (n : nat) (l : list A) :
  length (Samples.most_recent n l) = Nat.min n (length l).
Proof. unfold Samples.most_recent. rewrite length_skipn. lia. Qed.

(** Keeping the most recent [n] after each addition is keeping the most
    recent [n] of all additions. *)
Lemma most_recent_snoc {A} (n : nat) (l : list A) (x : A) :
  (1 <= n)%nat ->
  Samples.most_recent n (Samples.most_recent n l ++ [x])%list
  = Samples.most_recent n (l ++ [x])%list.
Proof.
  intros Hn. unfold Samples.most_recent.
  rewrite !length_app, length_skipn. simpl length.
  destruct (Nat.le_gt_cases (length l) n) as [Hle|Hgt].
  - replace (length l - n)%nat with 0%nat by lia. simpl skipn.
    f_equal. lia.
  - rewrite (skipn_app (length l + 1 - n)).
    rewrite (skipn_app (length l - (length l - n) + 1 - n)).
    rewrite length_skipn, skipn_skipn.
    f_equal; f_equal; lia.
Qed.

Lemma add_turn_current (args : Conversation.TurnArgs)
    (env : Conversation.TurnEnv) (self : Conversation.ConversationManager)
    (ctx : Conversation.ConversationContext) :
  Conversation.current self = Some ctx ->
  exists ctx',
    Conversation.current (Conversation.add_turn args env self) = Some ctx'
    /\ Conversation.max_context_turns (Conversation.add_turn args env self)
       = Conversation.max_context_turns self
    /\ Conversation.turns ctx'
       = Conversation.turns
           (Conversation.trim_turns (Conversation.max_context_turns self)
              (Conversation.append_turn
                 (Conversation.make_turn args (Conversation.now_turn env))
                 ctx)).
Proof.
  intros Hcur. unfold Conversation.add_turn.
  assert (exists l, Conversation.current_context self = Some l) as [l Hl].
  { unfold Conversation.current in Hcur.
    destruct (Conversation.current_context self); [eauto|discriminate]. }
  rewrite Hl. rewrite current_update_current, Hcur. simpl.
  eexists. split; [reflexivity|]. split.
  - unfold Conversation.update_current. now rewrite Hl.
  - rewrite turns_update_user_preferences.
    unfold Conversation.trim_turns.
    rewrite !turns_update_active_topic.
    destruct (_ <? _); [reflexivity|].
    now rewrite turns_update_active_topic.
Qed.

(** Invariant of successive [add_turn] calls under a positive maximum:
    the current context holds the most recent turns, oldest first. *)
Lemma add_turns_most_recent
    (calls : list (Conversation.TurnArgs * Conversation.TurnEnv))
    (self : Conversation.ConversationManager)
    (ctx : Conversation.ConversationContext)
    (earlier : list Conversation.ConversationTurn) :
  1 <= Conversation.max_context_turns self ->
  Conversation.current self = Some ctx ->
  Conversation.turns ctx
  = Samples.most_recent (Z.to_nat (Conversation.max_context_turns self))
      earlier ->
  exists ctx',
    Conversation.current (Samples.add_turns calls self) = Some ctx'
    /\ Conversation.turns ctx'
       = Samples.most_recent (Z.to_nat (Conversation.max_context_turns self))
           (earlier ++ Samples.turns_of calls)%list.
Proof.
  revert self ctx earlier.
  induction calls as [|[args env] calls IH]; intros self ctx earlier Hmax Hcur Hturns.
  - exists ctx. simpl. now rewrite app_nil_r.
  - destruct (add_turn_current args env self ctx Hcur)
      as (ctx1 & Hcur1 & Hmax1 & Hturns1).
    rewrite (turns_trim_turns _ _ Hmax) in Hturns1.
    simpl Conversation.turns in Hturns1.
    rewrite Hturns, most_recent_snoc in Hturns1 by lia.
    destruct (IH (Conversation.add_turn args env self) ctx1
                (earlier ++ [Conversation.make_turn args
                               (Conversation.now_turn env)])%list)
      as (ctx' & Hcur' & Hturns').
    + now rewrite Hmax1.
    + exact Hcur1.
    + now rewrite Hmax1.
    + exists ctx'. split; [exact Hcur'|].
      rewrite Hturns', Hmax1. simpl Samples.turns_of.
      now rewrite <- app_assoc.
Qed.

(** The positive part of C6.  With a maximum of at least 1, the turns of
    the current context never exceed the maximum after [add_turn], and
    from an empty session, after [max_context_turns + k] calls with
    [k >= 1], exactly the [max_context_turns] most recent turns remain,
    oldest first. *)
Lemma add_turns_keep_most_recent
    (calls : list (Conversation.TurnArgs * Conversation.TurnEnv))
    (self : Conversation.ConversationManager)
    (ctx : Conversation.ConversationContext) (k : nat) :
  1 <= Conversation.max_context_turns self ->
  Conversation.current self = Some ctx ->
  Conversation.turns ctx = [] ->
  (1 <= k)%nat ->
  length calls = (Z.to_nat (Conversation.max_context_turns self) + k)%nat ->
  exists ctx',
    Conversation.current (Samples.add_turns calls self) = Some ctx'
    /\ Conversation.turns ctx' = skipn k (Samples.turns_of calls)
    /\ Z.of_nat (length (Conversation.turns ctx'))
       = Conversation.max_context_turns self.
Proof.
  intros Hmax Hcur Hempty Hk Hlen.
  destruct (add_turns_most_recent calls self ctx [] Hmax Hcur)
    as (ctx' & Hcur' & Hturns').
  { now rewrite Hempty. }
  exists ctx'. split; [exact Hcur'|].
  simpl app in Hturns'. rewrite Hturns'.
  unfold Samples.most_recent, Samples.turns_of.
  rewrite length_map, Hlen.
  replace (Z.to_nat (Conversation.max_context_turns self) + k
           - Z.to_nat (Conversation.max_context_turns self))%nat
    with k by lia.
  split; [reflexivity|].
  rewrite length_skipn, length_map, Hlen. lia.
Qed.

Lemma add_turn_bounded (args : Conversation.TurnArgs)
    (env : Conversation.TurnEnv) (self : Conversation.ConversationManager)
    (ctx : Conversation.ConversationContext) :
  1 <= Conversation.max_context_turns self ->
  Conversation.current self = Some ctx ->
  exists ctx',
    Conversation.current (Conversation.add_turn args env self) = Some ctx'
    /\ Z.of_nat (length (Conversation.turns ctx'))
       <= Conversation.max_context_turns self.
Proof.
  intros Hmax Hcur.
  destruct (add_turn_current args env self ctx Hcur) as (ctx' & Hcur' & _ & Ht).
  exists ctx'. split; [exact Hcur'|].
  rewrite Ht, (turns_trim_turns _ _ Hmax), most_recent_length. lia.
Qed.

(** C6 at [max_context_turns = 0].  The test [len(turns) > 0] succeeds
    after every addition, and the slice [turns[-0:]] is the whole list:
    nothing is ever dropped.  After one [add_turn] the session holds one
    turn, after two it holds two, both above the maximum of 0. *)
Theorem add_turn_zero_maximum :
  let self := Samples.zero_limit_session in
  let once :=
    Samples.add_turns [(Samples.sample_args "hello" "hi", Samples.turn_at 6)]
      self in
  let twice :=
    Samples.add_turns [(Samples.sample_args "hello" "hi", Samples.turn_at 6);
                       (Samples.sample_args "what time is it" "time",
                        Samples.turn_at 7)] self in
  Conversation.max_context_turns self = 0
  /\ (length ∘ Conversation.turns) <$> Conversation.current self = Some 0%nat
  /\ (length ∘ Conversation.turns) <$> Conversation.current once = Some 1%nat
  /\ (length ∘ Conversation.turns) <$> Conversation.current twice = Some 2%nat.
Proof. now vm_compute. Qed.

(** ** Sessions of the history *)

Lemma sessions_lookup (self : Conversation.ConversationManager) (k : string) :
  Conversation.sessions self !! k
  = Conversation.conversation_history self !! k
      ≫= fun l => Conversation.heap self !! l.
Proof. unfold Conversation.sessions. apply lookup_omap. Qed.

Lemma sessions_lookup_Some (self : Conversation.ConversationManager)
    (k : string) (ctx : Conversation.ConversationContext) :
  Conversation.sessions self !! k = Some ctx
  <-> exists l, Conversation.conversation_history self !! k = Some l
                /\ Conversation.heap self !! l = Some ctx.
Proof. rewrite sessions_lookup. apply bind_Some. Qed.

(** The state [start_conversation] leaves: one new object, current and
    stored under the session id, then the cleanup of the history. *)
Lemma start_conversation_state (session_id_arg : option string)
    (env : Conversation.StartEnv) (self : Conversation.ConversationManager) :
  let session_id := Conversation.new_session_id session_id_arg env in
  let l := fresh (dom (Conversation.heap self)) in
  let self' := fst (Conversation.start_conversation session_id_arg env self) in
  Conversation.heap self'
  = <[l := Samples.fresh_context session_id (Conversation.now_started env)]>
      (Conversation.heap self)
  /\ Conversation.current_context self' = Some l
  /\ Conversation.conversation_history self'
     = filter
         (fun kv =>
            Conversation.expired (Conversation.heap self')
              (Conversation.now_cleanup env - Conversation.session_timeout self)
              (snd kv) = false)
         (<[session_id := l]> (Conversation.conversation_history self))
  /\ Conversation.max_context_turns self' = Conversation.max_context_turns self
  /\ Conversation.session_timeout self' = Conversation.session_timeout self.
Proof. repeat split. Qed.

Lemma fresh_not_allocated (self : Conversation.ConversationManager)
    (l : Conversation.loc) (ctx : Conversation.ConversationContext) :
  Conversation.heap self !! l = Some ctx ->
  l <> fresh (dom (Conversation.heap self)).
Proof.
  intros Hl ->.
  apply (is_fresh (dom (Conversation.heap self))).
  apply elem_of_dom. eauto.
Qed.

(** After [start_conversation] no session of the history is older than
    the timeout. *)
Lemma start_conversation_none_expired (session_id_arg : option string)
    (env : Conversation.StartEnv) (self : Conversation.ConversationManager)
    (k : string) (ctx : Conversation.ConversationContext) :
  Conversation.sessions
    (fst (Conversation.start_conversation session_id_arg env self)) !! k
  = Some ctx ->
  Conversation.now_cleanup env - Conversation.session_timeout self
  <= Conversation.last_interaction ctx.
Proof.
  intros (l & Hk & Hl)%sessions_lookup_Some.
  destruct (start_conversation_state session_id_arg env self)
    as (_ & _ & Hhist & _).
  rewrite Hhist in Hk.
  apply map_lookup_filter_Some in Hk as [_ Hkeep]. cbn [snd] in Hkeep.
  unfold Conversation.expired in Hkeep. rewrite Hl in Hkeep. lia.
Qed.

(** The new session stays when the clock has advanced by no more than
    the timeout between its creation and the cleanup. *)
Lemma start_conversation_keeps_new (session_id_arg : option string)
    (env : Conversation.StartEnv) (self : Conversation.ConversationManager) :
  Conversation.now_cleanup env - Conversation.session_timeout self
  <= Conversation.now_started env ->
  let self' := fst (Conversation.start_conversation session_id_arg env self) in
  let new := Samples.fresh_context
               (Conversation.new_session_id session_id_arg env)
               (Conversation.now_started env) in
  Conversation.current self' = Some new
  /\ Conversation.sessions self'
       !! Conversation.new_session_id session_id_arg env = Some new.
Proof.
  intros Hclock self' new.
  destruct (start_conversation_state session_id_arg env self)
    as (Hheap & Hcur & Hhist & _).
  fold self' in Hheap, Hcur, Hhist.
  assert (Conversation.heap self' !! fresh (dom (Conversation.heap self))
          = Some new) as Hnew
    by (rewrite Hheap; apply lookup_insert_eq).
  split.
  - unfold Conversation.current. now rewrite Hcur.
  - apply sessions_lookup_Some. eexists. split; [|exact Hnew].
    rewrite Hhist. apply map_lookup_filter_Some. split.
    + apply lookup_insert_eq.
    + cbn [snd]. unfold Conversation.expired. rewrite Hnew. unfold new.
      cbn [Samples.fresh_context Conversation.last_interaction]. lia.
Qed.

(** A session that is not older than the timeout, and whose id is not
    the new one, stays as it is. *)
Lemma start_conversation_keeps_recent (session_id_arg : option string)
    (env : Conversation.StartEnv) (self : Conversation.ConversationManager)
    (k : string) (ctx : Conversation.ConversationContext) :
  Conversation.sessions self !! k = Some ctx ->
  k <> Conversation.new_session_id session_id_arg env ->
  Conversation.now_cleanup env - Conversation.session_timeout self
  <= Conversation.last_interaction ctx ->
  Conversation.sessions
    (fst (Conversation.start_conversation session_id_arg env self)) !! k
  = Some ctx.
Proof.
  intros (l & Hk & Hl)%sessions_lookup_Some Hne Hrecent.
  destruct (start_conversation_state session_id_arg env self)
    as (Hheap & _ & Hhist & _).
  assert (Conversation.heap
            (fst (Conversation.start_conversation session_id_arg env self))
            !! l = Some ctx) as Hl'.
  { rewrite Hheap, lookup_insert_ne; [exact Hl|].
    apply not_eq_sym. eapply fresh_not_allocated, Hl. }
  apply sessions_lookup_Some. exists l. split; [|exact Hl'].
  rewrite Hhist. apply map_lookup_filter_Some. split.
  - rewrite lookup_insert_ne; [exact Hk | now apply not_eq_sym].
  - cbn [snd]. unfold Conversation.expired. rewrite Hl'. lia.
Qed.

(** With a current context, [add_turn] leaves the history mapping as it
    is, and every session the history holds stays in it. *)
Lemma add_turn_keeps_sessions (args : Conversation.TurnArgs)
    (env : Conversation.TurnEnv) (self : Conversation.ConversationManager) :
  Conversation.current_context self <> None ->
  Conversation.conversation_history (Conversation.add_turn args env self)
  = Conversation.conversation_history self
  /\ forall k,
       is_Some (Conversation.sessions (Conversation.add_turn args env self) !! k)
       <-> is_Some (Conversation.sessions self !! k).
Proof.
  intros Hcur.
  destruct (Conversation.current_context self) as [l|] eqn:E; [|congruence].
  unfold Conversation.add_turn. rewrite E.
  unfold Conversation.update_current. rewrite E.
  split; [reflexivity|].
  intros k. rewrite !sessions_lookup. simpl.
  destruct (Conversation.conversation_history self !! k) as [l'|]; simpl;
    [|reflexivity].
  rewrite lookup_alter. destruct (decide (l = l')) as [->|]; [|reflexivity].
  apply fmap_is_Some.
Qed.

(** C7, as amended.  After a [start_conversation] call, every context
    in the history has a [last_interaction] that is not older than the
    session timeout at the time of the cleanup: a context older than
    that is absent.  The call evicts nothing else: a session that is not
    older than the timeout and whose id is not taken by the new session
    stays unchanged.  The freshly started session itself stays, and is
    current, provided the clock has advanced by no more than the timeout
    between its creation and the cleanup.  [add_turn] evicts nothing
    while a context is current; without a current context it calls
    [start_conversation] itself, whose cleanup then runs.
    ([get_contextual_response] and [get_conversation_summary] assign
    nothing and are functions of the manager into their result.) *)
Theorem eviction_by_start_conversation (session_id_arg : option string)
    (env : Conversation.StartEnv) (self : Conversation.ConversationManager) :
  let self' := fst (Conversation.start_conversation session_id_arg env self) in
  let cutoff_time :=
    Conversation.now_cleanup env - Conversation.session_timeout self in
  let session_id := Conversation.new_session_id session_id_arg env in
  (forall k ctx,
     Conversation.sessions self' !! k = Some ctx ->
     ~ Conversation.last_interaction ctx < cutoff_time)
  /\ (forall k ctx,
        Conversation.sessions self !! k = Some ctx ->
        k <> session_id ->
        ~ Conversation.last_interaction ctx < cutoff_time ->
        Conversation.sessions self' !! k = Some ctx)
  /\ (cutoff_time <= Conversation.now_started env ->
      Conversation.current self'
      = Some (Samples.fresh_context session_id (Conversation.now_started env))
      /\ Conversation.sessions self' !! session_id
         = Some (Samples.fresh_context session_id
                   (Conversation.now_started env)))
  /\ (forall args turn_env,
        Conversation.current_context self <> None ->
        Conversation.conversation_history
          (Conversation.add_turn args turn_env self)
        = Conversation.conversation_history self
        /\ forall k,
             is_Some (Conversation.sessions
                        (Conversation.add_turn args turn_env self) !! k)
             <-> is_Some (Conversation.sessions self !! k)).
Proof.
  intros self' cutoff_time session_id.
  split; [|split; [|split]].
  - intros k ctx Hk Hold.
    pose proof (start_conversation_none_expired session_id_arg env self k ctx Hk).
    unfold cutoff_time in Hold. lia.
  - intros k ctx Hk Hne Hrecent.
    apply start_conversation_keeps_recent; [exact Hk|exact Hne|].
    unfold cutoff_time in Hrecent. lia.
  - intros Hclock. now apply start_conversation_keeps_new.
  - intros args turn_env Hcur. now apply add_turn_keeps_sessions.
Qed.

Lemma eviction_by_start_conversation_witness :
  let self := Conversation.create_conversation_manager 10 30 in
  Conversation.now_cleanup Samples.sample_start
  - Conversation.session_timeout self
  <= Conversation.now_started Samples.sample_start
  /\ Conversation.current Samples.one_session
     = Some (Samples.fresh_context "kept" 5)
  /\ Conversation.sessions Samples.one_session !! "kept"
     = Some (Samples.fresh_context "kept" 5).
Proof.
  intros self.
  assert (Conversation.now_cleanup Samples.sample_start
          - Conversation.session_timeout self
          <= Conversation.now_started Samples.sample_start) as Hclock
    by (vm_compute; discriminate).
  split; [exact Hclock|].
  exact (proj1 (proj2 (proj2
           (eviction_by_start_conversation (Some "kept") Samples.sample_start
              self))) Hclock).
Defined.

(** C7 fails for [add_turn] without a current context: a manager fresh
    from [__init__] that has loaded a history with a session last used
    at time 0 has no current context; [add_turn] two hours later starts
    a session, and the cleanup of that start evicts the loaded one. *)
Lemma add_turn_evicts_without_context :
  Conversation.current_context Samples.loaded_manager = None
  /\ is_Some (Conversation.sessions Samples.loaded_manager !! "old")
  /\ Conversation.sessions
       (Conversation.add_turn (Samples.sample_args "what time is it" "time")
          Samples.two_hours_later Samples.loaded_manager) !! "old"
     = None.
Proof.
  split; [reflexivity|]. split.
  - eexists. vm_compute. reflexivity.
  - vm_compute. reflexivity.
Qed.

(** A new session can be evicted by its own start: with a timeout of 0
    minutes, the clock need only advance between the creation of the
    context and the cleanup. *)
Lemma start_conversation_evicts_new :
  let env :=
    {| Conversation.epoch_seconds := 0;
       Conversation.now_started := 5;
       Conversation.now_cleanup := 6;
       Conversation.greeting_pick := 0 |} in
  Conversation.sessions
    (fst (Conversation.start_conversation (Some "s") env
            (Conversation.create_conversation_manager 10 0))) !! "s"
  = None.
Proof. vm_compute. reflexivity. Qed.

(** ** Contextual responses *)

Lemma append_assoc (a b c : string) : (a ++ b) ++ c = a ++ b ++ c.
Proof.
  induction a as [|x a IH]; [reflexivity|].
  rewrite !append_cons. now rewrite IH.
Qed.

Lemma append_empty_r (a : string) : a ++ "" = a.
Proof.
  induction a as [|x a IH]; [reflexivity|].
  rewrite append_cons. now rewrite IH.
Qed.

Lemma any_in_spec (phrases : list string) (text : string) :
  PyStr.any_in phrases text = true
  <-> exists phrase, In phrase phrases /\ Samples.substring_of phrase text.
Proof.
  unfold PyStr.any_in. rewrite existsb_exists.
  split; intros (p & Hp & H); exists p; split; trivial; now apply contains_spec.
Qed.

Lemma is_greeting_spec (user_input : string) :
  Conversation._is_greeting user_input = true
  <-> Samples.mentions Conversation.greetings user_input.
Proof. apply any_in_spec. Qed.

Lemma is_farewell_spec (user_input : string) :
  Conversation._is_farewell user_input = true
  <-> Samples.mentions Conversation.farewells user_input.
Proof. apply any_in_spec. Qed.

Lemma is_follow_up_question_spec (now : Z) (user_input intent_plugin : string)
    (self : Conversation.ConversationManager)
    (ctx : Conversation.ConversationContext) :
  Conversation.current self = Some ctx ->
  Conversation._is_follow_up_question now user_input intent_plugin self = true
  <-> Samples.follow_up now user_input intent_plugin ctx.
Proof.
  intros Hcur. unfold Conversation._is_follow_up_question, Samples.follow_up.
  rewrite Hcur.
  destruct (last (Conversation.turns ctx)) as [last_turn|].
  - destruct ((now - Conversation.timestamp last_turn <? Conversation.minutes 2)
              && String.eqb intent_plugin
                   (Conversation.intent_plugin last_turn)) eqn:E.
    + apply andb_prop in E as [Htime Hsame].
      apply String.eqb_eq in Hsame.
      split; [intros _|reflexivity].
      exists last_turn. split; [reflexivity|]. left. split; [lia|exact Hsame].
    + rewrite any_in_spec. split.
      * intros H. exists last_turn. split; [reflexivity|]. now right.
      * intros (t & [= <-] & [[Htime Hsame]|H]); [|exact H].
        exfalso. apply andb_false_iff in E as [E|E]; [lia|].
        apply String.eqb_neq in E. contradiction.
  - split; [discriminate|]. now intros (t & [=] & _).
Qed.

Lemma has_turns_spec (self : Conversation.ConversationManager)
    (ctx : Conversation.ConversationContext) :
  Conversation.current self = Some ctx ->
  Conversation.has_turns self
  = match Conversation.turns ctx with [] => false | _ => true end.
Proof.
  intros Hcur. unfold Conversation.has_turns. now rewrite Hcur.
Qed.

(** What [_add_context_to_response] appends: at most a location hint,
    then at most a topic hint, each only under its conditions. *)
Lemma add_context_hints (base_response intent_plugin : string)
    (ctx : Conversation.ConversationContext) :
  exists location_part topic_part,
    Conversation._add_context_to_response base_response intent_plugin ctx
    = base_response ++ location_part ++ topic_part
    /\ (location_part = ""
        \/ exists location,
             Conversation.location_context ctx = Some location
             /\ location <> ""
             /\ intent_plugin = "weather"
             /\ ~ Samples.substring_of (PyStr.lower location)
                    (PyStr.lower base_response)
             /\ location_part = Samples.location_hint location)
    /\ (topic_part = ""
        \/ exists topic,
             Conversation.active_topic ctx = Some topic
             /\ topic <> ""
             /\ In intent_plugin ["wiki"; "google"; "youtube"; "github"]
             /\ ~ Samples.substring_of (PyStr.lower topic)
                    (PyStr.lower (base_response ++ location_part))
             /\ topic_part = Samples.topic_hint topic).
Proof.
  unfold Conversation._add_context_to_response.
  set (with_location :=
         match Conversation.location_context ctx with
         | Some location =>
             if String.eqb intent_plugin "weather"
                && Conversation.truthy (Some location)
                && negb (PyStr.contains (PyStr.lower location)
                           (PyStr.lower base_response))
             then base_response ++ Conversation.newline
                    ++ "(I remember you usually ask about " ++ location ++ ")"
             else base_response
         | None => base_response
         end).
  assert (exists location_part,
            with_location = base_response ++ location_part
            /\ (location_part = ""
                \/ exists location,
                     Conversation.location_context ctx = Some location
                     /\ location <> ""
                     /\ intent_plugin = "weather"
                     /\ ~ Samples.substring_of (PyStr.lower location)
                            (PyStr.lower base_response)
                     /\ location_part = Samples.location_hint location))
    as (location_part & Hwith & Hlocation).
  { unfold with_location.
    destruct (Conversation.location_context ctx) as [location|];
      [|exists ""; split; [now rewrite append_empty_r | now left]].
    destruct (String.eqb intent_plugin "weather"
              && Conversation.truthy (Some location)
              && negb (PyStr.contains (PyStr.lower location)
                         (PyStr.lower base_response))) eqn:E;
      [|exists ""; split; [now rewrite append_empty_r | now left]].
    apply andb_prop in E as [[Hplugin Htruthy]%andb_prop Habsent].
    exists (Samples.location_hint location). split; [reflexivity|].
    right. exists location. repeat split.
    - intros ->. discriminate Htruthy.
    - now apply String.eqb_eq.
    - intros Hsub%contains_spec. rewrite Hsub in Habsent. discriminate. }
  rewrite Hwith.
  destruct (Conversation.active_topic ctx) as [topic|];
    [|exists location_part, ""; split;
      [now rewrite append_empty_r | split; [exact Hlocation | now left]]].
  destruct (Conversation.truthy (Some topic)
            && PyStr.mem intent_plugin ["wiki"; "google"; "youtube"; "github"]
            && negb (PyStr.contains (PyStr.lower topic)
                       (PyStr.lower (base_response ++ location_part)))) eqn:E;
    [|exists location_part, ""; split;
      [now rewrite append_empty_r | split; [exact Hlocation | now left]]].
  apply andb_prop in E as [[Htruthy Hplugin]%andb_prop Habsent].
  exists location_part, (Samples.topic_hint topic).
  split; [now rewrite append_assoc|]. split; [exact Hlocation|].
  right. exists topic. repeat split.
  - intros ->. discriminate Htruthy.
  - unfold PyStr.mem in Hplugin.
    apply existsb_exists in Hplugin as (p & Hp & ->%String.eqb_eq). exact Hp.
  - intros Hsub%contains_spec. rewrite Hsub in Habsent. discriminate.
Qed.

(** C9, as amended.  [get_contextual_response] classifies in this fixed
    order.  Without a current context it returns [base_response]
    unchanged.  Otherwise, if the utterance case-insensitively contains
    a greeting phrase it returns a greeting, the "welcome back" one when
    the session already has turns; else if it contains a farewell phrase
    it returns a farewell, with the thank-you remark appended exactly
    when the session already has turns; else if the session has at least
    one turn and either the action is that of the immediately preceding
    turn, less than two minutes old, or the utterance contains a
    continuation word, it returns [base_response] prefixed with an
    acknowledgment; otherwise it returns [base_response], possibly
    extended with a location hint and a topic hint, each appended only
    when the stored value does not already occur in the response text. *)
Theorem contextual_response_classification
    (user_input intent_plugin : string) (entities : AICore.Entities)
    (base_response : string) (env : Conversation.ReplyEnv)
    (self : Conversation.ConversationManager) :
  let reply :=
    Conversation.get_contextual_response user_input intent_plugin entities
      base_response env self in
  let pick := Conversation.reply_pick env in
  let greeting := Samples.mentions Conversation.greetings user_input in
  let farewell := Samples.mentions Conversation.farewells user_input in
  (Conversation.current self = None -> reply = base_response)
  /\ forall ctx,
       Conversation.current self = Some ctx ->
       let continued :=
         Samples.follow_up (Conversation.now_reply env) user_input
           intent_plugin ctx in
       (greeting ->
        reply = match Conversation.turns ctx with
                | [] => Conversation.choice pick Conversation.greeting_responses
                | _ => "Welcome back! What else can I help you with?"
                end)
       /\ (~ greeting -> farewell ->
           reply = Conversation.choice pick Conversation.farewell_responses
                   ++ match Conversation.turns ctx with
                      | [] => ""
                      | _ => " It was great helping you today!"
                      end)
       /\ (~ greeting -> ~ farewell -> continued ->
           reply = Conversation.choice pick Conversation.acknowledgment_responses
                   ++ " Here's more information:" ++ Conversation.newline
                   ++ base_response)
       /\ (~ greeting -> ~ farewell -> ~ continued ->
           exists location_part topic_part,
             reply = base_response ++ location_part ++ topic_part
             /\ (location_part = ""
                 \/ exists location,
                      Conversation.location_context ctx = Some location
                      /\ location <> ""
                      /\ intent_plugin = "weather"
                      /\ ~ Samples.substring_of (PyStr.lower location)
                             (PyStr.lower base_response)
                      /\ location_part = Samples.location_hint location)
             /\ (topic_part = ""
                 \/ exists topic,
                      Conversation.active_topic ctx = Some topic
                      /\ topic <> ""
                      /\ In intent_plugin ["wiki"; "google"; "youtube"; "github"]
                      /\ ~ Samples.substring_of (PyStr.lower topic)
                             (PyStr.lower (base_response ++ location_part))
                      /\ topic_part = Samples.topic_hint topic)).
Proof.
  intros reply pick greeting farewell.
  unfold reply, Conversation.get_contextual_response.
  split; [now intros ->|].
  intros ctx Hcur. rewrite Hcur.
  set (continued :=
         Samples.follow_up (Conversation.now_reply env) user_input
           intent_plugin ctx).
  pose proof (is_greeting_spec user_input) as Hg.
  pose proof (is_farewell_spec user_input) as Hf.
  pose proof (is_follow_up_question_spec (Conversation.now_reply env)
                user_input intent_plugin self ctx Hcur) as Hc.
  fold greeting in Hg. fold farewell in Hf. fold continued in Hc.
  destruct (Conversation._is_greeting user_input).
  { split; [|split; [|split]];
      try (intros Hng; exfalso; apply Hng, Hg; reflexivity).
    intros _. unfold Conversation._get_contextual_greeting.
    rewrite (has_turns_spec self ctx Hcur).
    now destruct (Conversation.turns ctx). }
  assert (~ greeting) as Hng by (intros H; apply Hg in H; discriminate).
  split; [intros H; contradiction|].
  destruct (Conversation._is_farewell user_input).
  { split; [|split];
      try (intros _ Hnf; exfalso; apply Hnf, Hf; reflexivity).
    intros _ _. unfold Conversation._get_farewell_response.
    rewrite (has_turns_spec self ctx Hcur).
    destruct (Conversation.turns ctx); [|reflexivity].
    now rewrite append_empty_r. }
  assert (~ farewell) as Hnf by (intros H; apply Hf in H; discriminate).
  split; [intros _ H; contradiction|].
  destruct (Conversation._is_follow_up_question (Conversation.now_reply env)
              user_input intent_plugin self).
  { split; [reflexivity|].
    intros _ _ Hnc. exfalso. apply Hnc, Hc. reflexivity. }
  split.
  - intros _ _ H. apply Hc in H. discriminate.
  - intros _ _ _. apply add_context_hints.
Qed.

Lemma contextual_response_classification_witness :
  let env := {| Conversation.now_reply := 6; Conversation.reply_pick := 1 |} in
  Conversation.current Samples.one_session
  = Some (Samples.fresh_context "kept" 5)
  /\ Samples.mentions Conversation.greetings "Hello Sarah"
  /\ Conversation.get_contextual_response "Hello Sarah" "hi"
       AICore.no_entities "Hello! How can I help you?" env Samples.one_session
     = "Hi there! What can I do for you?".
Proof.
  intros env.
  assert (Samples.mentions Conversation.greetings "Hello Sarah") as Hgreeting.
  { exists "hello". split; [now left|]. now exists "", " sarah". }
  split; [reflexivity|]. split; [exact Hgreeting|].
  exact (proj1 (proj2
           (contextual_response_classification "Hello Sarah" "hi"
              AICore.no_entities "Hello! How can I help you?" env
              Samples.one_session)
           (Samples.fresh_context "kept" 5) eq_refl) Hgreeting).
Defined.

(** C9 fails for a continuation word in a session without turns: the
    utterance is neither a greeting nor a farewell and contains "what
    about", yet the follow-up test answers no before it looks at the
    words, and [base_response] comes back without acknowledgment. *)
Lemma continuation_word_without_turns :
  let env := {| Conversation.now_reply := 6; Conversation.reply_pick := 0 |} in
  let reply :=
    Conversation.get_contextual_response "what about tomorrow" "weather"
      AICore.no_entities "Sunny" env Samples.one_session in
  Conversation._is_greeting "what about tomorrow" = false
  /\ Conversation._is_farewell "what about tomorrow" = false
  /\ PyStr.any_in Conversation.follow_up_words
       (PyStr.lower "what about tomorrow") = true
  /\ reply = "Sunny"
  /\ reply <> Conversation._handle_follow_up 0 "Sunny".
Proof.
  vm_compute. repeat split. discriminate.
Qed.

(** ** Saving and loading *)

Lemma mapM_as_str (terms : list string) :
  mapM Conversation.as_str (map Conversation.JStr terms) = Some terms.
Proof. now apply mapM_fmap_Some. Qed.

Lemma entities_round_trip (es : AICore.Entities) :
  Conversation.typed_entities (Conversation.entities_to_json es) = Some es.
Proof.
  destruct es as [[p|] [o|] [g|] [l|] [t|]];
    cbn -[mapM]; rewrite ?mapM_as_str; reflexivity.
Qed.

Lemma counts_round_trip (counts : gmap string Z) :
  Conversation.typed_counts (Conversation.counts_to_json counts) = Some counts.
Proof.
  unfold Conversation.typed_counts, Conversation.counts_to_json.
  rewrite (mapM_fmap_Some
             (fun kv : string * Conversation.json =>
                n ← Conversation.as_int (snd kv); Some (fst kv, n))
             (fun kv : string * Z => (fst kv, Conversation.JInt (snd kv)))).
  - simpl. now rewrite list_to_map_to_list.
  - now intros [k n].
Qed.

Lemma preferences_round_trip (prefs : option Conversation.Preferences) :
  Conversation.typed_preferences (Conversation.preferences_to_json prefs)
  = Some prefs.
Proof.
  destruct prefs as [[[counts|] [[location|]|]]|];
    cbn -[Conversation.typed_counts Conversation.counts_to_json];
    rewrite ?counts_round_trip; reflexivity.
Qed.

Lemma optional_str_round_trip (s : option string) :
  Conversation.as_optional_str (Conversation.optional_str_to_json s) = Some s.
Proof. now destruct s. Qed.

Lemma fold_insert_NoDup {V} (items : list (string * V)) (base : gmap string V) :
  NoDup (items.*1) ->
  fold_left (fun acc kv => <[fst kv := snd kv]> acc) items base
  = list_to_map items ∪ base.
Proof.
  revert base. induction items as [|[k v] items IH]; intros base Hnd.
  - simpl. now rewrite (left_id_L ∅ (∪)).
  - simpl in *. apply NoDup_cons in Hnd as [Hk Hnd].
    rewrite (IH _ Hnd).
    rewrite <- insert_union_l.
    apply not_elem_of_list_to_map in Hk.
    now rewrite <- (insert_union_r _ _ _ _ Hk).
Qed.

Section RoundTrip.

Variable isoformat : Z -> string.
Variable fromisoformat : string -> option Z.

(** [fromisoformat] is the inverse of [isoformat]. *)
Hypothesis fromisoformat_isoformat :
  forall t, fromisoformat (isoformat t) = Some t.

Lemma turn_round_trip (turn : Conversation.ConversationTurn) :
  Conversation.load_turn fromisoformat
    (Conversation.turn_to_json isoformat turn) = Conversation.Builds turn.
Proof.
  destruct turn as [ts ui ip ic es sr ok].
  cbn -[Conversation.typed_entities Conversation.entities_to_json].
  rewrite fromisoformat_isoformat.
  cbn -[Conversation.typed_entities Conversation.entities_to_json].
  now rewrite entities_round_trip.
Qed.

Lemma turns_round_trip (turns : list Conversation.ConversationTurn) :
  Conversation.load_turns fromisoformat
    (Conversation.JList (map (Conversation.turn_to_json isoformat) turns))
  = Conversation.Builds turns.
Proof.
  cbn [Conversation.load_turns].
  induction turns as [|turn turns IH]; [reflexivity|].
  cbn [map Conversation.load_turn_list]. now rewrite turn_round_trip, IH.
Qed.

Lemma context_round_trip (context : Conversation.ConversationContext) :
  Conversation.load_context fromisoformat
    (Conversation.context_to_json isoformat context)
  = Conversation.Builds context.
Proof.
  destruct context as [sid st li ts topic prefs location].
  cbn -[Conversation.load_turns Conversation.turn_to_json
        Conversation.typed_preferences Conversation.preferences_to_json
        Conversation.as_optional_str Conversation.optional_str_to_json].
  rewrite turns_round_trip.
  cbn -[Conversation.typed_preferences Conversation.preferences_to_json
        Conversation.as_optional_str Conversation.optional_str_to_json].
  rewrite !fromisoformat_isoformat.
  cbn -[Conversation.typed_preferences Conversation.preferences_to_json
        Conversation.as_optional_str Conversation.optional_str_to_json].
  rewrite !optional_str_round_trip, preferences_round_trip. reflexivity.
Qed.

End RoundTrip.

Lemma store_session_sessions (session_id : string)
    (context : Conversation.ConversationContext)
    (self : Conversation.ConversationManager) :
  Samples.no_dangling self ->
  Conversation.sessions (Conversation.store_session session_id context self)
  = <[session_id := context]> (Conversation.sessions self)
  /\ Samples.no_dangling (Conversation.store_session session_id context self).
Proof.
  intros Hwf.
  set (l := fresh (dom (Conversation.heap self))).
  assert (Conversation.conversation_history
            (Conversation.store_session session_id context self)
          = <[session_id := l]> (Conversation.conversation_history self))
    as Hhist by reflexivity.
  assert (Conversation.heap
            (Conversation.store_session session_id context self)
          = <[l := context]> (Conversation.heap self)) as Hheap by reflexivity.
  assert (forall k l', Conversation.conversation_history self !! k = Some l' ->
                       l' <> l) as Hfresh.
  { intros k l' Hk. destruct (Hwf k l' Hk) as [c Hc].
    eapply fresh_not_allocated, Hc. }
  split.
  - apply map_eq. intros k. rewrite sessions_lookup, Hhist, Hheap.
    destruct (decide (session_id = k)) as [->|Hne].
    + rewrite !lookup_insert_eq. simpl. apply lookup_insert_eq.
    + rewrite !lookup_insert_ne by exact Hne. rewrite sessions_lookup.
      destruct (Conversation.conversation_history self !! k) as [l'|] eqn:Hk;
        [|reflexivity].
      simpl. apply lookup_insert_ne, not_eq_sym, (Hfresh k l' Hk).
  - intros k l'. rewrite Hhist, Hheap.
    destruct (decide (session_id = k)) as [->|Hne].
    + rewrite lookup_insert_eq. intros [= <-]. rewrite lookup_insert_eq. eauto.
    + rewrite lookup_insert_ne by exact Hne. intros Hk.
      rewrite lookup_insert_ne; [exact (Hwf k l' Hk)|].
      apply not_eq_sym, (Hfresh k l' Hk).
Qed.



Lemma load_sessions_encoded (isoformat : Z -> string)
    (fromisoformat : string -> option Z)
    (items : list (string * Conversation.ConversationContext))
    (self : Conversation.ConversationManager) :
  (forall t, fromisoformat (isoformat t) = Some t) ->
  Samples.no_dangling self ->
  exists self',
    Conversation.load_sessions fromisoformat
      (map (fun kv => (fst kv, Conversation.context_to_json isoformat (snd kv)))
           items) self
    = (self', Conversation.Info)
    /\ Conversation.sessions self'
       = fold_left (fun acc kv => <[fst kv := snd kv]> acc) items
           (Conversation.sessions self).
Proof.
  intros Hiso. revert self.
  induction items as [|[k context] items IH]; intros self Hwf.
  - now exists self.
  - cbn [map fold_left fst snd Conversation.load_sessions].
    rewrite (context_round_trip isoformat fromisoformat Hiso).
    destruct (store_session_sessions k context self Hwf) as [Hs Hwf'].
    destruct (IH _ Hwf') as (self' & Hload & Hsessions).
    exists self'. split; [exact Hload|]. now rewrite Hsessions, Hs.
Qed.

Lemma decimal_round_trip (t : Z) :
  Samples.decimal_fromisoformat (Samples.decimal_isoformat t) = Some t.
Proof.
  unfold Samples.decimal_fromisoformat, Samples.decimal_isoformat.
  pose proof (DecimalZ.of_to t) as Ht.
  destruct (Z.to_int t) as [[| | | | | | | | | |]|[| | | | | | | | | |]] eqn:E;
    try (rewrite DecimalString.NilZero.isi by discriminate; now rewrite Ht).
  - rewrite DecimalString.NilZero.isi_posnil. now rewrite <- Ht.
  - rewrite DecimalString.NilZero.isi_negnil. now rewrite <- Ht.
Qed.

(** C8.  For every manager, [save_conversation_history] to a writable
    path followed by [load_conversation_history] of that path into a
    fresh manager succeeds and reproduces the history: the same session
    ids, each with the same context, that is the same [session_id],
    [started_at], [last_interaction], turns with all their fields,
    [active_topic], [user_preferences] and [location_context].
    Timestamps come back equal because [fromisoformat] inverts
    [isoformat]. *)
Theorem save_load_round_trip (isoformat : Z -> string)
    (fromisoformat : string -> option Z)
    (self : Conversation.ConversationManager) (filepath : string)
    (fs : gmap string Conversation.file)
    (max_context_turns session_timeout_minutes : Z) :
  (forall t, fromisoformat (isoformat t) = Some t) ->
  let saved :=
    Conversation.save_conversation_history isoformat filepath true self fs in
  let loaded :=
    Conversation.load_conversation_history fromisoformat filepath (fst saved)
      (Conversation.create_conversation_manager max_context_turns
         session_timeout_minutes) in
  snd saved = Conversation.Info
  /\ snd loaded = Conversation.Info
  /\ Conversation.sessions (fst loaded) = Conversation.sessions self.
Proof.
  intros Hiso saved loaded. split; [reflexivity|].
  unfold loaded, saved, Conversation.load_conversation_history,
    Conversation.save_conversation_history.
  cbn [fst snd]. rewrite lookup_insert_eq.
  unfold Conversation.history_to_json.
  set (fresh_manager :=
         Conversation.set_history ∅
           (Conversation.create_conversation_manager max_context_turns
              session_timeout_minutes)).
  assert (Samples.no_dangling fresh_manager) as Hwf.
  { intros k l Hk. cbn in Hk. now rewrite lookup_empty in Hk. }
  destruct (load_sessions_encoded isoformat fromisoformat
              (map_to_list (Conversation.sessions self)) fresh_manager
              Hiso Hwf) as (self' & Hload & Hsessions).
  rewrite Hload. cbn [fst snd]. split; [reflexivity|].
  rewrite Hsessions, fold_insert_NoDup by apply NoDup_fst_map_to_list.
  rewrite list_to_map_to_list.
  assert (Conversation.sessions fresh_manager = ∅) as ->
    by apply omap_empty.
  apply (right_id_L ∅ (∪)).
Qed.

Lemma save_load_round_trip_witness :
  let self :=
    Samples.add_turns
      [(Samples.rich_args, Samples.turn_at 6);
       (Samples.sample_args "what time is it" "time", Samples.turn_at 7)]
      Samples.one_session in
  let saved :=
    Conversation.save_conversation_history Samples.decimal_isoformat
      "history.json" true self ∅ in
  let loaded :=
    Conversation.load_conversation_history Samples.decimal_fromisoformat
      "history.json" (fst saved)
      (Conversation.create_conversation_manager 10 30) in
  (forall t,
     Samples.decimal_fromisoformat (Samples.decimal_isoformat t) = Some t)
  /\ snd saved = Conversation.Info
  /\ snd loaded = Conversation.Info
  /\ Conversation.sessions (fst loaded) = Conversation.sessions self.
Proof.
  intros self saved loaded. split; [exact decimal_round_trip|].
  exact (save_load_round_trip Samples.decimal_isoformat
           Samples.decimal_fromisoformat self "history.json" ∅ 10 30
           decimal_round_trip).
Defined.





(** When a later record fails, the sessions before it have replaced the
    prior history: the manager, which held the session "kept", now holds
    the session "first" of the file instead. *)
Lemma load_failure_partial_state :
  let loaded :=
    Conversation.load_conversation_history Samples.decimal_fromisoformat
      "history.json"
      {["history.json" := Conversation.Document Samples.half_good_history]}
      Samples.one_session in
  snd loaded = Conversation.Error
  /\ is_Some (Conversation.sessions Samples.one_session !! "kept")
  /\ Conversation.sessions (fst loaded) !! "kept" = None
  /\ is_Some (Conversation.sessions (fst loaded) !! "first")
  /\ Conversation.conversation_history (fst loaded)
     <> Conversation.conversation_history Samples.one_session.
Proof.
  intros loaded.
  assert (Conversation.sessions (fst loaded) !! "kept" = None) as Hgone
    by (vm_compute; reflexivity).
  assert (is_Some (Conversation.sessions Samples.one_session !! "kept"))
    as Hkept by (eexists; vm_compute; reflexivity).
  split; [vm_compute; reflexivity|]. split; [exact Hkept|].
  split; [exact Hgone|]. split; [eexists; vm_compute; reflexivity|].
  intros Heq. destruct Hkept as [ctx Hctx].
  apply sessions_lookup_Some in Hctx as (l & Hl & _).
  rewrite <- Heq in Hl. vm_compute in Hl. discriminate Hl.
Qed.

(** What raises in the reconstruction of a turn: the keys and the
    timestamp, never the other values. *)
Lemma load_turn_raises (fromisoformat : string -> option Z)
    (members : list (string * Conversation.json)) :
  Conversation.load_turn fromisoformat (Conversation.JObj members)
  = Conversation.Raises
  <-> Conversation.read_datetime fromisoformat "timestamp" members = None
      \/ Conversation.fits Conversation.turn_fields Conversation.turn_fields
           members = false.
Proof.
  cbn [Conversation.load_turn].
  destruct (Conversation.read_datetime fromisoformat "timestamp" members)
    as [timestamp|]; [|tauto].
  destruct (Conversation.fits _ _ members).
  - destruct (Conversation.typed_turn timestamp members);
      split; try discriminate; intros [H|H]; discriminate H.
  - tauto.
Qed.

(** What raises in the reconstruction of a context: the keys, the
    timestamps and the turns, never the other values. *)
Lemma load_context_raises (fromisoformat : string -> option Z)
    (members : list (string * Conversation.json)) :
  Conversation.load_context fromisoformat (Conversation.JObj members)
  = Conversation.Raises
  <-> Conversation.jget "turns" members = None
      \/ (exists turns_json,
            Conversation.jget "turns" members = Some turns_json
            /\ Conversation.load_turns fromisoformat turns_json
               = Conversation.Raises)
      \/ Conversation.read_datetime fromisoformat "started_at" members = None
      \/ Conversation.read_datetime fromisoformat "last_interaction" members
         = None
      \/ Conversation.fits Conversation.context_fields
           Conversation.context_required members = false.
Proof.
  cbn [Conversation.load_context].
  destruct (Conversation.jget "turns" members) as [turns_json|]; [|tauto].
  destruct (Conversation.load_turns fromisoformat turns_json)
    as [|turns|] eqn:Eturns.
  - split; [intros _|reflexivity]. right. left. eauto.
  - destruct (Conversation.read_datetime fromisoformat "started_at" members)
      as [started_at|]; [|tauto].
    destruct (Conversation.read_datetime fromisoformat "last_interaction"
                members) as [last_interaction|]; [|tauto].
    destruct (Conversation.fits _ _ members); [|tauto].
    destruct (Conversation.typed_context _ _ _ members); split;
      try discriminate;
      intros [H|[(j & [= <-] & H)|[H|[H|H]]]]; congruence.
  - destruct (Conversation.read_datetime fromisoformat "started_at" members)
      as [started_at|]; [|tauto].
    destruct (Conversation.read_datetime fromisoformat "last_interaction"
                members) as [last_interaction|]; [|tauto].
    destruct (Conversation.fits _ _ members); [|tauto].
    split; try discriminate;
      intros [H|[(j & [= <-] & H)|[H|[H|H]]]]; congruence.
Qed.

(** A record that holds a value of another type than annotated is
    rebuilt by Python and stored: its reconstruction does not raise,
    and a load that meets it before any record that raises leaves the
    typed state there, with the sessions of the records before it; it
    raises all the same when one of its turns does. *)
Lemma load_untyped_record :
  let loaded :=
    Conversation.load_conversation_history Samples.decimal_fromisoformat
      "history.json"
      {["history.json" := Conversation.Document Samples.themed_history]}
      Samples.one_session in
  Conversation.load_context Samples.decimal_fromisoformat
    (Samples.themed_record "typed") = Conversation.BuildsUntyped
  /\ Conversation.load_context Samples.decimal_fromisoformat
       Samples.themed_broken_record = Conversation.Raises
  /\ snd loaded = Conversation.LeftTypedState
  /\ is_Some (Conversation.sessions (fst loaded) !! "a")
  /\ Conversation.sessions (fst loaded) !! "kept" = None.
Proof.
  repeat split; try (vm_compute; reflexivity).
  eexists. vm_compute. reflexivity.
Qed.

(** ** Reachable managers are well formed

    The reference model has lookups that can fail; they never do on a
    manager built by the operations of the class. *)

Lemma create_well_formed (max_context_turns session_timeout_minutes : Z) :
  Samples.well_formed
    (Conversation.create_conversation_manager max_context_turns
       session_timeout_minutes).
Proof.
  split.
  - intros k l H. cbn in H. now rewrite lookup_empty in H.
  - intros l H. discriminate H.
Qed.

Lemma start_conversation_well_formed (session_id_arg : option string)
    (env : Conversation.StartEnv) (self : Conversation.ConversationManager) :
  Samples.well_formed self ->
  Samples.well_formed
    (fst (Conversation.start_conversation session_id_arg env self)).
Proof.
  intros [Hwf _].
  destruct (start_conversation_state session_id_arg env self)
    as (Hheap & Hcur & Hhist & _).
  split.
  - intros k l. rewrite Hhist, Hheap.
    intros [Hk _]%map_lookup_filter_Some.
    apply lookup_insert_is_Some'.
    destruct (decide (Conversation.new_session_id session_id_arg env = k))
      as [Heq|Hne].
    + rewrite Heq, lookup_insert_eq in Hk. injection Hk as <-. now left.
    + rewrite lookup_insert_ne in Hk by exact Hne. right. exact (Hwf k l Hk).
  - intros l. rewrite Hcur, Hheap. intros [= <-].
    rewrite lookup_insert_eq. eauto.
Qed.

Lemma update_current_well_formed
    (f : Conversation.ConversationContext -> Conversation.ConversationContext)
    (self : Conversation.ConversationManager) :
  Samples.well_formed self ->
  Samples.well_formed (Conversation.update_current f self).
Proof.
  intros [Hwf Hcur]. unfold Conversation.update_current.
  destruct (Conversation.current_context self) as [l|] eqn:E;
    [|split; [exact Hwf | now rewrite E]].
  assert (forall l', is_Some (Conversation.heap self !! l') ->
                     is_Some (alter f l (Conversation.heap self) !! l'))
    as Hkeep.
  { intros l' H. rewrite lookup_alter.
    destruct (decide (l = l')) as [->|]; [now apply fmap_is_Some | exact H]. }
  split.
  - intros k l' Hk. apply Hkeep, (Hwf k l' Hk).
  - intros l' Hl'. apply Hkeep, Hcur. cbn in Hl'. congruence.
Qed.

Lemma add_turn_well_formed (args : Conversation.TurnArgs)
    (env : Conversation.TurnEnv) (self : Conversation.ConversationManager) :
  Samples.well_formed self ->
  Samples.well_formed (Conversation.add_turn args env self).
Proof.
  intros Hwf. unfold Conversation.add_turn.
  apply update_current_well_formed.
  destruct (Conversation.current_context self);
    [exact Hwf | now apply start_conversation_well_formed].
Qed.

Lemma store_session_well_formed (session_id : string)
    (context : Conversation.ConversationContext)
    (self : Conversation.ConversationManager) :
  Samples.well_formed self ->
  Samples.well_formed (Conversation.store_session session_id context self).
Proof.
  intros [Hwf Hcur]. split.
  - now apply store_session_sessions.
  - intros l Hl.
    change (Conversation.heap
              (Conversation.store_session session_id context self))
      with (<[fresh (dom (Conversation.heap self)) := context]>
              (Conversation.heap self)).
    apply lookup_insert_is_Some'. right. exact (Hcur l Hl).
Qed.

Lemma load_sessions_well_formed (fromisoformat : string -> option Z)
    (items : list (string * Conversation.json))
    (self : Conversation.ConversationManager) :
  Samples.well_formed self ->
  Samples.well_formed
    (fst (Conversation.load_sessions fromisoformat items self)).
Proof.
  revert self. induction items as [|[k doc] items IH]; intros self Hwf.
  - exact Hwf.
  - simpl. destruct (Conversation.load_context fromisoformat doc);
      [exact Hwf| |exact Hwf].
    now apply IH, store_session_well_formed.
Qed.

Lemma load_conversation_history_well_formed
    (fromisoformat : string -> option Z) (filepath : string)
    (fs : gmap string Conversation.file)
    (self : Conversation.ConversationManager) :
  Samples.well_formed self ->
  Samples.well_formed
    (fst (Conversation.load_conversation_history fromisoformat filepath fs
            self)).
Proof.
  intros Hwf. unfold Conversation.load_conversation_history.
  assert (Samples.well_formed (Conversation.set_history ∅ self)) as Hwf0.
  { destruct Hwf as [_ Hcur]. split; [|exact Hcur].
    intros k l H. cbn in H. now rewrite lookup_empty in H. }
  destruct (fs !! filepath) as [[|doc]|]; try exact Hwf.
  destruct doc; try exact Hwf0.
  now apply load_sessions_well_formed.
Qed.

(** The example scenario of the specification: one session, one turn,
    then the summary. *)
Lemma summary_after_one_turn :
  let self :=
    Conversation.add_turn
      {| Conversation.arg_user_input := "hello";
         Conversation.arg_intent_plugin := "hi";
         Conversation.arg_intent_confidence := 9 # 10;
         Conversation.arg_entities := AICore.no_entities;
         Conversation.arg_sarah_response := "Hi!";
         Conversation.arg_execution_successful := true |}
      (Samples.turn_at 6) Samples.one_session in
  (fun summary =>
     (Conversation.sum_total_turns summary,
      Conversation.sum_recent_plugins summary))
    <$> Conversation.get_conversation_summary 7 self
  = Some (1%nat, ["hi"]).
Proof. vm_compute. reflexivity. Qed.

(** * Further properties of the code *)

(** ** Normalisation of the utterance *)

Lemma isspace_lower_char (c : ascii) :
  PyStr.isspace (PyStr.lower_char c) = PyStr.isspace c.
Proof. destruct c as [[] [] [] [] [] [] [] []]; reflexivity. Qed.

Lemma lower_char_idempotent (c : ascii) :
  PyStr.lower_char (PyStr.lower_char c) = PyStr.lower_char c.
Proof. destruct c as [[] [] [] [] [] [] [] []]; reflexivity. Qed.

Lemma lower_idempotent (s : string) : PyStr.lower (PyStr.lower s) = PyStr.lower s.
Proof.
  induction s as [|c s IH]; [reflexivity|].
  simpl. now rewrite lower_char_idempotent, IH.
Qed.

Lemma lower_append (a b : string) :
  PyStr.lower (a ++ b) = PyStr.lower a ++ PyStr.lower b.
Proof.
  induction a as [|c a IH]; [reflexivity|].
  rewrite !append_cons. simpl. rewrite append_cons. now rewrite IH.
Qed.

Lemma string_of_list_ascii_app (l1 l2 : list ascii) :
  string_of_list_ascii (l1 ++ l2)
  = string_of_list_ascii l1 ++ string_of_list_ascii l2.
Proof.
  induction l1 as [|c l1 IH]; [reflexivity|].
  simpl. rewrite append_cons. now rewrite IH.
Qed.

Lemma word_snoc (c : ascii) (cur : list ascii) :
  string_of_list_ascii (rev (c :: cur))
  = string_of_list_ascii (rev cur) ++ String c "".
Proof. simpl. apply string_of_list_ascii_app. Qed.

Lemma rstrip_whitespace_only (s : string) :
  Samples.whitespace_only s = true -> PyStr.rstrip s = "".
Proof.
  induction s as [|c s IH]; [reflexivity|].
  simpl. intros [Hc Hs]%andb_prop. now rewrite (IH Hs), Hc.
Qed.

Lemma rstrip_cons (c : ascii) (s : string) :
  Samples.whitespace_only (String c s) = false ->
  PyStr.rstrip (String c s) = String c (PyStr.rstrip s).
Proof.
  simpl. intros H.
  destruct (PyStr.rstrip s) eqn:E; [|reflexivity].
  destruct (PyStr.isspace c) eqn:Hc; [|reflexivity].
  exfalso. simpl in H.
  assert (Samples.whitespace_only s = true) as Hs.
  { clear H. revert E. induction s as [|d s IH]; [reflexivity|].
    simpl. destruct (PyStr.rstrip s).
    - destruct (PyStr.isspace d); [|discriminate]. intros _. now rewrite IH.
    - discriminate. }
  now rewrite Hs in H.
Qed.

Lemma split_from_whitespace_only (cur : list ascii) (s : string) :
  Samples.whitespace_only s = true ->
  PyStr.split_from cur s
  = match cur with [] => [] | _ => [string_of_list_ascii (rev cur)] end.
Proof.
  revert cur. induction s as [|c s IH]; intros cur H; [reflexivity|].
  simpl in *. apply andb_prop in H as [Hc Hs]. rewrite Hc.
  rewrite (IH [] Hs). now rewrite app_nil_r.
Qed.

Lemma split_from_nonempty (cur : list ascii) (s : string) :
  cur <> [] \/ Samples.whitespace_only s = false ->
  PyStr.split_from cur s <> [].
Proof.
  revert cur. induction s as [|c s IH]; intros cur H.
  - destruct H as [H|H]; [|discriminate]. simpl. now destruct cur.
  - simpl. destruct (PyStr.isspace c) eqn:Hc.
    + destruct cur as [|d cur].
      * simpl. apply IH. right. destruct H as [H|H]; [congruence|].
        simpl in H. now rewrite Hc in H.
      * simpl. discriminate.
    + apply IH. now left.
Qed.

Lemma concat_cons (sep x : string) (xs : list string) :
  xs <> [] ->
  String.concat sep (x :: xs) = x ++ sep ++ String.concat sep xs.
Proof. destruct xs; [congruence|reflexivity]. Qed.

(** The words of a text joined by single spaces are the text without
    its outer whitespace and with every inner run of whitespace turned
    into one space. *)
Lemma join_split_from (s : string) :
  (forall cur, cur <> [] ->
     PyStr.join " " (PyStr.split_from cur s)
     = string_of_list_ascii (rev cur)
       ++ PyStr.collapse_from false (PyStr.rstrip s))
  /\ (Samples.whitespace_only s = false ->
      PyStr.join " " (PyStr.split_from [] s)
      = PyStr.collapse_from true (PyStr.rstrip s)).
Proof.
  induction s as [|c s [IHcur IHnil]].
  - split; [|discriminate].
    intros cur Hcur. simpl. destruct cur; [congruence|].
    unfold PyStr.join. simpl String.concat. now rewrite append_empty_r.
  - split.
    + intros cur Hcur. cbn [PyStr.split_from].
      destruct (PyStr.isspace c) eqn:Hc.
      * destruct cur as [|d cur]; [congruence|].
        destruct (Samples.whitespace_only s) eqn:Hs.
        -- rewrite (split_from_whitespace_only [] s Hs).
           cbn [PyStr.rstrip]. rewrite (rstrip_whitespace_only s Hs), Hc.
           cbn. now rewrite append_empty_r.
        -- cbn [app]. unfold PyStr.join.
           rewrite concat_cons by (apply split_from_nonempty; now right).
           fold (PyStr.join " " (PyStr.split_from [] s)).
           rewrite (IHnil eq_refl).
           rewrite rstrip_cons by (simpl; now rewrite Hc, Hs).
           cbn [PyStr.collapse_from]. rewrite Hc.
           now rewrite append_cons, append_nil.
      * rewrite (IHcur (c :: cur)) by discriminate.
        rewrite rstrip_cons by (simpl; now rewrite Hc).
        cbn [PyStr.collapse_from]. rewrite Hc.
        rewrite word_snoc, append_assoc. now rewrite append_cons, append_nil.
    + intros Hns. cbn [PyStr.split_from].
      destruct (PyStr.isspace c) eqn:Hc.
      * cbn [app]. simpl in Hns. rewrite Hc in Hns. simpl in Hns.
        rewrite (IHnil Hns).
        rewrite rstrip_cons by (simpl; now rewrite Hc, Hns).
        cbn [PyStr.collapse_from]. now rewrite Hc.
      * rewrite (IHcur [c]) by discriminate.
        rewrite rstrip_cons by (simpl; now rewrite Hc).
        cbn [PyStr.collapse_from]. rewrite Hc.
        cbn [rev app string_of_list_ascii].
        now rewrite append_cons, append_nil.
Qed.

Lemma split_lstrip (s : string) :
  PyStr.split_from [] (PyStr.lstrip s) = PyStr.split_from [] s.
Proof.
  induction s as [|c s IH]; [reflexivity|].
  simpl. destruct (PyStr.isspace c) eqn:Hc; [exact IH|].
  simpl. now rewrite Hc.
Qed.

Lemma lstrip_whitespace_only_iff (s : string) :
  Samples.whitespace_only (PyStr.lstrip s) = Samples.whitespace_only s.
Proof.
  induction s as [|c s IH]; [reflexivity|].
  simpl. destruct (PyStr.isspace c) eqn:Hc; [exact IH|].
  simpl. now rewrite Hc.
Qed.

Lemma lstrip_head (s : string) (c : ascii) (t : string) :
  PyStr.lstrip s = String c t -> PyStr.isspace c = false.
Proof.
  induction s as [|d s IH]; [discriminate|].
  simpl. destruct (PyStr.isspace d) eqn:Hd; [exact IH|].
  intros [= <- _]. exact Hd.
Qed.

Lemma collapse_strip_join_split (s : string) :
  PyStr.collapse_whitespace (PyStr.strip s) = PyStr.join " " (PyStr.split s).
Proof.
  unfold PyStr.collapse_whitespace, PyStr.strip, PyStr.split.
  rewrite <- split_lstrip.
  destruct (PyStr.lstrip s) as [|c t] eqn:E; [reflexivity|].
  pose proof (lstrip_head s c t E) as Hc.
  rewrite rstrip_cons by (simpl; now rewrite Hc).
  cbn [PyStr.collapse_from PyStr.split_from]. rewrite Hc.
  rewrite (proj1 (join_split_from t) [c]) by discriminate.
  cbn [rev app string_of_list_ascii]. now rewrite append_cons, append_nil.
Qed.

Lemma clean_input_join_split (text : string) :
  AICore._clean_input text
  = PyStr.lower (PyStr.join " " (PyStr.split text)).
Proof.
  unfold AICore._clean_input. now rewrite collapse_strip_join_split.
Qed.

(** X1.  [_clean_input] returns the words of the utterance, separated
    by single spaces, in lower case: what [' '.join(text.split()).lower()]
    computes. *)
Theorem clean_input_words (text : string) :
  AICore._clean_input text
  = PyStr.lower (PyStr.join " " (PyStr.split text)).
Proof.
  unfold AICore._clean_input. now rewrite collapse_strip_join_split.
Qed.

Lemma lower_string_of_list_ascii (l : list ascii) :
  PyStr.lower (string_of_list_ascii l)
  = string_of_list_ascii (map PyStr.lower_char l).
Proof. induction l as [|c l IH]; [reflexivity|]. simpl. now rewrite IH. Qed.

Lemma split_from_lower (cur : list ascii) (s : string) :
  PyStr.split_from (map PyStr.lower_char cur) (PyStr.lower s)
  = map PyStr.lower (PyStr.split_from cur s).
Proof.
  revert cur. induction s as [|c s IH]; intros cur.
  - simpl. destruct cur as [|d cur]; [reflexivity|].
    cbn [map]. rewrite lower_string_of_list_ascii, map_rev. reflexivity.
  - cbn [PyStr.lower PyStr.split_from]. rewrite isspace_lower_char.
    destruct (PyStr.isspace c).
    + rewrite map_app, <- (IH []).
      destruct cur as [|d cur]; [reflexivity|].
      cbn [map]. rewrite lower_string_of_list_ascii, map_rev. reflexivity.
    + apply (IH (c :: cur)).
Qed.

(** The words of the lowered text are the lowered words of the text. *)
Lemma split_lower (s : string) :
  PyStr.split (PyStr.lower s) = map PyStr.lower (PyStr.split s).
Proof. apply (split_from_lower [] s). Qed.

Lemma lower_join (sep : string) (ws : list string) :
  PyStr.lower (PyStr.join sep ws)
  = PyStr.join (PyStr.lower sep) (map PyStr.lower ws).
Proof.
  unfold PyStr.join. induction ws as [|w ws IH]; [reflexivity|].
  destruct ws as [|w' ws]; [reflexivity|].
  rewrite (concat_cons sep w) by discriminate.
  cbn [map]. rewrite (concat_cons (PyStr.lower sep) (PyStr.lower w))
    by discriminate.
  rewrite !lower_append. now rewrite IH.
Qed.

Lemma split_from_word (w : list ascii) (cur : list ascii) (rest : string) :
  forallb (fun c => negb (PyStr.isspace c)) w = true ->
  PyStr.split_from cur (string_of_list_ascii w ++ rest)
  = PyStr.split_from (rev w ++ cur) rest.
Proof.
  revert cur. induction w as [|c w IH]; intros cur H; [reflexivity|].
  simpl in H. apply andb_prop in H as [Hc Hw].
  cbn [string_of_list_ascii]. rewrite append_cons. cbn [PyStr.split_from].
  apply negb_true_iff in Hc. rewrite Hc.
  rewrite (IH (c :: cur) Hw). cbn [rev]. now rewrite <- app_assoc.
Qed.

(** Splitting what [join] made of words gives the words back. *)
Lemma split_join (ws : list (list ascii)) :
  Forall (fun w => w <> []
                   /\ forallb (fun c => negb (PyStr.isspace c)) w = true) ws ->
  PyStr.split (PyStr.join " " (map string_of_list_ascii ws))
  = map string_of_list_ascii ws.
Proof.
  unfold PyStr.split, PyStr.join.
  induction 1 as [|w ws [Hne Hw] Hws IH]; [reflexivity|].
  destruct ws as [|w' ws].
  - cbn [map String.concat].
    pose proof (split_from_word w [] "" Hw) as Hsplit.
    rewrite append_empty_r in Hsplit. rewrite Hsplit, app_nil_r.
    cbn [PyStr.split_from]. rewrite rev_involutive.
    destruct (rev w) eqn:E; [|reflexivity].
    apply (f_equal (@rev ascii)) in E. rewrite rev_involutive in E.
    simpl in E. contradiction.
  - cbn [map]. rewrite concat_cons by discriminate.
    rewrite (split_from_word w [] _ Hw), app_nil_r.
    rewrite append_cons, append_nil. cbn [PyStr.split_from].
    change (PyStr.isspace " ") with true. cbv iota.
    rewrite rev_involutive. cbn [map] in IH. rewrite IH.
    destruct (rev w) eqn:E; [|reflexivity].
    apply (f_equal (@rev ascii)) in E. rewrite rev_involutive in E.
    simpl in E. contradiction.
Qed.

(** The words [split] returns are not empty and hold no whitespace. *)
Lemma split_from_words (cur : list ascii) (s : string) :
  forallb (fun c => negb (PyStr.isspace c)) cur = true ->
  exists ws,
    PyStr.split_from cur s = map string_of_list_ascii ws
    /\ Forall (fun w => w <> []
                        /\ forallb (fun c => negb (PyStr.isspace c)) w = true)
         ws.
Proof.
  revert cur. induction s as [|c s IH]; intros cur Hcur.
  - simpl. destruct cur as [|d cur].
    + exists []. now split.
    + exists [rev (d :: cur)]. split; [reflexivity|].
      constructor; [|constructor]. split.
      * intros E. apply (f_equal (@rev ascii)) in E.
        rewrite rev_involutive in E. discriminate E.
      * apply forallb_forall. intros x Hx%in_rev.
        exact (proj1 (forallb_forall _ _) Hcur x Hx).
  - cbn [PyStr.split_from]. destruct (PyStr.isspace c) eqn:Hc.
    + destruct (IH [] eq_refl) as (ws & Hws & Hall).
      destruct cur as [|d cur].
      * exists ws. now split.
      * exists (rev (d :: cur) :: ws). rewrite Hws. split; [reflexivity|].
        constructor; [|exact Hall]. split.
        -- intros E. apply (f_equal (@rev ascii)) in E.
           rewrite rev_involutive in E. discriminate E.
        -- apply forallb_forall. intros x Hx%in_rev.
           exact (proj1 (forallb_forall _ _) Hcur x Hx).
    + apply IH. simpl. now rewrite Hc.
Qed.

(** X2.  [_clean_input] is idempotent: a cleaned utterance is left as it
    is by a second cleaning. *)
Theorem clean_input_idempotent (text : string) :
  AICore._clean_input (AICore._clean_input text) = AICore._clean_input text.
Proof.
  rewrite (clean_input_join_split (AICore._clean_input text)).
  rewrite (clean_input_join_split text).
  destruct (split_from_words [] text eq_refl) as (ws & Hws & Hall).
  fold (PyStr.split text) in Hws. rewrite Hws.
  set (lowered := map (map PyStr.lower_char) ws).
  assert (forall vs, map PyStr.lower (map string_of_list_ascii vs)
                     = map string_of_list_ascii (map (map PyStr.lower_char) vs))
    as Hlower.
  { intros vs. rewrite !map_map. apply map_ext. intros w.
    apply lower_string_of_list_ascii. }
  assert (PyStr.lower (PyStr.join " " (map string_of_list_ascii ws))
          = PyStr.join " " (map string_of_list_ascii lowered)) as Hinner.
  { rewrite (lower_join " "). change (PyStr.lower " ") with " ".
    now rewrite Hlower. }
  rewrite Hinner. rewrite split_join.
  - rewrite (lower_join " "). change (PyStr.lower " ") with " ".
    rewrite Hlower. do 2 f_equal. unfold lowered. rewrite map_map.
    apply map_ext. intros w. rewrite map_map. apply map_ext.
    apply lower_char_idempotent.
  - apply List.Forall_forall. intros w Hw.
    apply in_map_iff in Hw as (w0 & <- & Hw0).
    destruct (proj1 (List.Forall_forall _ _) Hall w0 Hw0) as [Hne Hclean].
    split.
    + destruct w0; [congruence|discriminate].
    + rewrite <- Hclean. clear. induction w0 as [|c w0 IH]; [reflexivity|].
      simpl. now rewrite isspace_lower_char, IH.
Qed.

(** ** Entities *)

Lemma split_from_substring (cur : list ascii) (s w : string) :
  In w (PyStr.split_from cur s) ->
  Samples.substring_of w (string_of_list_ascii (rev cur) ++ s).
Proof.
  revert cur. induction s as [|c s IH]; intros cur Hw.
  - simpl in Hw. destruct cur as [|d cur]; [destruct Hw|].
    destruct Hw as [<-|[]]. exists "", "". now rewrite append_nil.
  - cbn [PyStr.split_from] in Hw. destruct (PyStr.isspace c).
    + apply in_app_or in Hw as [Hw|Hw].
      * destruct cur as [|d cur]; [destruct Hw|].
        destruct Hw as [<-|[]]. exists "", (String c s). now rewrite append_nil.
      * destruct (IH [] Hw) as (a & b & Hab).
        cbn [rev string_of_list_ascii] in Hab. rewrite append_nil in Hab.
        exists (string_of_list_ascii (rev cur) ++ String c a), b.
        rewrite append_assoc, append_cons. now rewrite <- Hab.
    + destruct (IH (c :: cur) Hw) as (a & b & Hab).
      exists a, b. rewrite <- Hab, word_snoc, append_assoc.
      now rewrite append_cons, append_nil.
Qed.

(** Every word [split] returns occurs in the text. *)
Lemma split_substring (s w : string) :
  In w (PyStr.split s) -> Samples.substring_of w s.
Proof.
  intros H. apply split_from_substring in H.
  cbn [rev string_of_list_ascii] in H. now rewrite append_nil in H.
Qed.

(** The [search_terms] key is never set to an empty list. *)
Lemma set_search_terms_not_empty (es : AICore.Entities) (terms : list string) :
  AICore.search_terms es <> Some [] ->
  AICore.search_terms (AICore.set_search_terms es terms) <> Some [].
Proof. intros H. destruct terms; [exact H|discriminate]. Qed.

Lemma set_entity_search_terms (es : AICore.Entities) (e : string * string) :
  AICore.search_terms (AICore.set_entity es e) = AICore.search_terms es.
Proof.
  unfold AICore.set_entity.
  repeat (destruct (String.eqb _ _); [reflexivity|]). reflexivity.
Qed.

Lemma fold_set_entity_search_terms (l : list (string * string))
    (es : AICore.Entities) :
  AICore.search_terms (fold_left AICore.set_entity l es)
  = AICore.search_terms es.
Proof.
  revert es. induction l as [|e l IH]; intros es; [reflexivity|].
  simpl. now rewrite IH, set_entity_search_terms.
Qed.

(** X3.  Without a recogniser, the entities of [understand_input] hold
    no person, organisation or place, and [search_terms] is absent
    rather than empty; every search term is longer than two characters,
    is no stop word, is in lower case whatever the case of the utterance,
    and occurs in the cleaned utterance. *)
Theorem fallback_entities
    (cosine_similarity : list Q -> list Q -> Q) (self : AICore.SarahAICore)
    (user_input : string) :
  AICore.nlp self = None ->
  let entities :=
    AICore.entities
      (AICore.understand_input cosine_similarity self user_input) in
  AICore.person entities = None
  /\ AICore.org entities = None
  /\ AICore.gpe entities = None
  /\ AICore.loc entities = None
  /\ AICore.search_terms entities <> Some []
  /\ forall terms term,
       AICore.search_terms entities = Some terms ->
       In term terms ->
       (2 < String.length term)%nat
       /\ ~ In term AICore.stop_words
       /\ PyStr.lower term = term
       /\ Samples.substring_of term (AICore._clean_input user_input).
Proof.
  intros Hnlp entities. unfold entities, AICore.understand_input.
  cbn [AICore.entities]. unfold AICore._extract_entities. rewrite Hnlp.
  set (cleaned := AICore._clean_input user_input).
  set (kept := List.filter _ (PyStr.split cleaned)).
  assert (forall term, In term kept ->
            (2 < String.length term)%nat
            /\ ~ In term AICore.stop_words
            /\ PyStr.lower term = term
            /\ Samples.substring_of term cleaned) as Hkept.
  { intros term [Hin Hok]%filter_In.
    apply andb_prop in Hok as [Hstop Hlen].
    split; [now apply Nat.ltb_lt|]. split.
    - intros Hs. apply negb_true_iff in Hstop.
      assert (PyStr.mem term AICore.stop_words = true) as Hm; [|congruence].
      apply existsb_exists. exists term. split; [exact Hs|].
      apply String.eqb_refl.
    - split; [|now apply split_substring].
      unfold cleaned, AICore._clean_input in Hin.
      rewrite split_lower in Hin.
      apply in_map_iff in Hin as (w & <- & _). apply lower_idempotent. }
  destruct kept as [|t kept]; cbn [AICore.set_search_terms].
  - do 4 (split; [reflexivity|]). split; [discriminate|].
    intros terms term H. discriminate H.
  - do 4 (split; [reflexivity|]). split; [discriminate|].
    intros terms term [= <-] Hterm. apply (Hkept term Hterm).
Qed.

Lemma fallback_entities_witness :
  AICore.nlp Samples.keyword_core = None
  /\ AICore.search_terms
       (AICore.entities
          (AICore.understand_input Samples.cosine_1d Samples.keyword_core
             "Show me THE Weather"))
     <> Some [].
Proof.
  split; [reflexivity|].
  exact (proj1 (proj2 (proj2 (proj2 (proj2
    (fallback_entities Samples.cosine_1d Samples.keyword_core
       "Show me THE Weather" eq_refl)))))).
Defined.

Section LastSpan.

(** One of the four keys of the recogniser, with its reader *)
Variable kind : string.
Variable read : AICore.Entities -> option string.
Hypothesis read_set_entity :
  forall es e,
    read (AICore.set_entity es e)
    = if String.eqb (PyStr.lower (fst e)) kind then Some (snd e) else read es.

Lemma fold_set_entity_last (before after : list (string * string))
    (label span : string) (es : AICore.Entities) :
  PyStr.lower label = kind ->
  (forall e, In e after -> PyStr.lower (fst e) <> kind) ->
  read (fold_left AICore.set_entity (before ++ (label, span) :: after) es)
  = Some span.
Proof.
  intros Hlabel Hafter. rewrite fold_left_app. cbn [fold_left].
  set (es1 := AICore.set_entity _ (label, span)).
  assert (read es1 = Some span) as Hes1.
  { unfold es1. rewrite read_set_entity. cbn [fst snd].
    now rewrite Hlabel, String.eqb_refl. }
  clearbody es1. revert es1 Hes1.
  induction after as [|e after IH]; intros es1 Hes1; [exact Hes1|].
  cbn [fold_left]. apply IH.
  - intros e' He'. apply Hafter. now right.
  - rewrite read_set_entity.
    destruct (String.eqb_spec (PyStr.lower (fst e)) kind) as [Heq|_];
      [|exact Hes1].
    exfalso. apply (Hafter e); [now left | exact Heq].
Qed.

Lemma fold_set_entity_none (l : list (string * string)) (es : AICore.Entities) :
  (forall e, In e l -> PyStr.lower (fst e) <> kind) ->
  read (fold_left AICore.set_entity l es) = read es.
Proof.
  revert es. induction l as [|e l IH]; intros es Hl; [reflexivity|].
  cbn [fold_left]. rewrite IH by (intros e' He'; apply Hl; now right).
  rewrite read_set_entity.
  destruct (String.eqb_spec (PyStr.lower (fst e)) kind) as [Heq|_];
    [|reflexivity].
  exfalso. apply (Hl e); [now left | exact Heq].
Qed.

End LastSpan.

Lemma person_set_entity (es : AICore.Entities) (e : string * string) :
  AICore.person (AICore.set_entity es e)
  = if String.eqb (PyStr.lower (fst e)) "person" then Some (snd e)
    else AICore.person es.
Proof.
  unfold AICore.set_entity. cbv zeta.
  destruct (String.eqb_spec (PyStr.lower (fst e)) "person");
    destruct (String.eqb_spec (PyStr.lower (fst e)) "org");
    destruct (String.eqb_spec (PyStr.lower (fst e)) "gpe");
    destruct (String.eqb_spec (PyStr.lower (fst e)) "loc");
    try reflexivity; congruence.
Qed.

Lemma org_set_entity (es : AICore.Entities) (e : string * string) :
  AICore.org (AICore.set_entity es e)
  = if String.eqb (PyStr.lower (fst e)) "org" then Some (snd e)
    else AICore.org es.
Proof.
  unfold AICore.set_entity. cbv zeta.
  destruct (String.eqb_spec (PyStr.lower (fst e)) "person");
    destruct (String.eqb_spec (PyStr.lower (fst e)) "org");
    destruct (String.eqb_spec (PyStr.lower (fst e)) "gpe");
    destruct (String.eqb_spec (PyStr.lower (fst e)) "loc");
    try reflexivity; congruence.
Qed.

Lemma gpe_set_entity (es : AICore.Entities) (e : string * string) :
  AICore.gpe (AICore.set_entity es e)
  = if String.eqb (PyStr.lower (fst e)) "gpe" then Some (snd e)
    else AICore.gpe es.
Proof.
  unfold AICore.set_entity. cbv zeta.
  destruct (String.eqb_spec (PyStr.lower (fst e)) "person");
    destruct (String.eqb_spec (PyStr.lower (fst e)) "org");
    destruct (String.eqb_spec (PyStr.lower (fst e)) "gpe");
    destruct (String.eqb_spec (PyStr.lower (fst e)) "loc");
    try reflexivity; congruence.
Qed.

Lemma loc_set_entity (es : AICore.Entities) (e : string * string) :
  AICore.loc (AICore.set_entity es e)
  = if String.eqb (PyStr.lower (fst e)) "loc" then Some (snd e)
    else AICore.loc es.
Proof.
  unfold AICore.set_entity. cbv zeta.
  destruct (String.eqb_spec (PyStr.lower (fst e)) "person");
    destruct (String.eqb_spec (PyStr.lower (fst e)) "org");
    destruct (String.eqb_spec (PyStr.lower (fst e)) "gpe");
    destruct (String.eqb_spec (PyStr.lower (fst e)) "loc");
    try reflexivity; congruence.
Qed.

Lemma set_search_terms_kinds (es : AICore.Entities) (terms : list string) :
  AICore.person (AICore.set_search_terms es terms) = AICore.person es
  /\ AICore.org (AICore.set_search_terms es terms) = AICore.org es
  /\ AICore.gpe (AICore.set_search_terms es terms) = AICore.gpe es
  /\ AICore.loc (AICore.set_search_terms es terms) = AICore.loc es.
Proof. now destruct terms. Qed.

(** X4.  With a recogniser, each of the keys [person], [org], [gpe] and
    [loc] holds the text of the last span whose label is that kind,
    labels being compared without regard to case; a kind without span
    has no key. *)
Theorem recogniser_last_span_wins (self : AICore.SarahAICore)
    (analyse : string -> AICore.Doc) (text : string)
    (before after : list (string * string)) (label span : string) :
  AICore.nlp self = Some analyse ->
  AICore.ents (analyse text) = (before ++ (label, span) :: after)%list ->
  (forall e, In e after -> PyStr.lower (fst e) <> PyStr.lower label) ->
  let entities := AICore._extract_entities self text in
  (PyStr.lower label = "person" -> AICore.person entities = Some span)
  /\ (PyStr.lower label = "org" -> AICore.org entities = Some span)
  /\ (PyStr.lower label = "gpe" -> AICore.gpe entities = Some span)
  /\ (PyStr.lower label = "loc" -> AICore.loc entities = Some span)
  /\ ((forall e, In e (AICore.ents (analyse text)) ->
                 PyStr.lower (fst e) <> "person") ->
      AICore.person entities = None)
  /\ ((forall e, In e (AICore.ents (analyse text)) ->
                 PyStr.lower (fst e) <> "org") ->
      AICore.org entities = None)
  /\ ((forall e, In e (AICore.ents (analyse text)) ->
                 PyStr.lower (fst e) <> "gpe") ->
      AICore.gpe entities = None)
  /\ ((forall e, In e (AICore.ents (analyse text)) ->
                 PyStr.lower (fst e) <> "loc") ->
      AICore.loc entities = None).
Proof.
  intros Hnlp Hents Hafter entities.
  unfold entities, AICore._extract_entities. rewrite Hnlp.
  cbv zeta.
  set (terms := map AICore.tok_text _).
  destruct (set_search_terms_kinds
              (fold_left AICore.set_entity (AICore.ents (analyse text))
                 AICore.no_entities) terms) as (-> & -> & -> & ->).
  repeat match goal with |- _ /\ _ => split end.
  - intros Hk. rewrite Hents.
    apply (fold_set_entity_last "person" AICore.person person_set_entity);
      [exact Hk | now rewrite <- Hk].
  - intros Hk. rewrite Hents.
    apply (fold_set_entity_last "org" AICore.org org_set_entity);
      [exact Hk | now rewrite <- Hk].
  - intros Hk. rewrite Hents.
    apply (fold_set_entity_last "gpe" AICore.gpe gpe_set_entity);
      [exact Hk | now rewrite <- Hk].
  - intros Hk. rewrite Hents.
    apply (fold_set_entity_last "loc" AICore.loc loc_set_entity);
      [exact Hk | now rewrite <- Hk].
  - intros Hnone.
    now rewrite (fold_set_entity_none "person" AICore.person person_set_entity).
  - intros Hnone.
    now rewrite (fold_set_entity_none "org" AICore.org org_set_entity).
  - intros Hnone.
    now rewrite (fold_set_entity_none "gpe" AICore.gpe gpe_set_entity).
  - intros Hnone.
    now rewrite (fold_set_entity_none "loc" AICore.loc loc_set_entity).
Qed.

Lemma recogniser_last_span_wins_witness :
  AICore.nlp Samples.recogniser_core = Some Samples.two_places
  /\ AICore.gpe
       (AICore._extract_entities Samples.recogniser_core "paris or london")
     = Some "london"
  /\ AICore.person
       (AICore._extract_entities Samples.recogniser_core "paris or london")
     = None.
Proof.
  split; [reflexivity|].
  assert (forall e, In e [("DATE", "today")] ->
            PyStr.lower (fst e) <> PyStr.lower "GPE") as Hafter.
  { intros e [<-|[]]. vm_compute. discriminate. }
  destruct (recogniser_last_span_wins Samples.recogniser_core
              Samples.two_places "paris or london" [("GPE", "paris")]
              [("DATE", "today")] "GPE" "london" eq_refl eq_refl Hafter)
    as (_ & _ & Hgpe & _ & Hperson & _).
  split; [exact (Hgpe eq_refl)|].
  apply Hperson. intros e He. vm_compute in He.
  destruct He as [<-|[<-|[<-|[]]]]; vm_compute; discriminate.
Defined.

(** ** The result of a matching loop *)

Section ScanResult.

Context {A : Type} (label : A -> string) (score : A -> Q).
Context (step : AICore.Match -> A -> AICore.Match).
Hypothesis step_consider :
  forall best x, step best x = AICore.consider best (label x) (score x).

(** A loop returns its initial accumulator or an entry with its score. *)
Lemma scan_result (l : list A) (best : AICore.Match) :
  fold_left step l best = best
  \/ exists x,
       In x l
       /\ fold_left step l best
          = {| AICore.plugin := label x; AICore.match_confidence := score x |}.
Proof.
  revert best. induction l as [|a l IH]; intros best; [now left|].
  cbn [fold_left]. destruct (IH (step best a)) as [Hkeep|(x & Hx & Hres)].
  - rewrite Hkeep, step_consider. unfold AICore.consider.
    destruct (Score.gt (score a) (AICore.match_confidence best));
      [right; exists a; split; [now left|reflexivity] | now left].
  - right. exists x. split; [now right|exact Hres].
Qed.

End ScanResult.

Lemma ratio_le_1 (m n : nat) : (m <= n)%nat -> (Score.ratio m n <= 1)%Q.
Proof.
  intros Hmn. unfold Score.ratio. rewrite Qred_correct.
  unfold Qle. simpl Qnum. simpl Qden.
  destruct n as [|n].
  - replace m with 0%nat by lia. simpl. lia.
  - rewrite (pos_of_nat_Z (S n)) by lia. lia.
Qed.

Lemma keyword_score_le_1 (info : AICore.PluginInfo) (text : string) :
  (AICore.keyword_score info text <= 1)%Q.
Proof.
  unfold AICore.keyword_score, AICore.keyword_matches.
  destruct (AICore.keywords info) as [|k ks] eqn:E; [discriminate|].
  apply ratio_le_1. apply List.filter_length_le.
Qed.

Lemma best_match_plugin
    (cosine_similarity : list Q -> list Q -> Q) (self : AICore.SarahAICore)
    (text : string) :
  let best := AICore._find_best_plugin_match cosine_similarity self text in
  AICore.plugin best = "hi"
  \/ In (AICore.plugin best) (map fst (AICore.plugin_embeddings self))
  \/ In (AICore.plugin best) (map fst (AICore.plugins_info self)).
Proof.
  intros best. subst best.
  unfold AICore._find_best_plugin_match, AICore._keyword_based_matching.
  destruct (AICore.sentence_model self) as [encode|].
  - set (best := fold_left _ (AICore.plugin_embeddings self) _).
    assert (best = AICore.default_match
            \/ exists x, In x (AICore.plugin_embeddings self)
                 /\ best = {| AICore.plugin := fst x;
                              AICore.match_confidence :=
                                cosine_similarity (encode text) (snd x) |})
      as [->|(x & Hx & ->)]
      by exact (scan_result fst
                  (fun e : string * list Q =>
                     cosine_similarity (encode text) (snd e)) _
                  (embedding_matching_fold cosine_similarity (encode text))
                  (AICore.plugin_embeddings self) AICore.default_match).
    + now left.
    + right. left. cbn [AICore.plugin]. now apply in_map.
  - set (best := fold_left _ (AICore.plugins_info self) _).
    assert (best = AICore.default_match
            \/ exists x, In x (AICore.plugins_info self)
                 /\ best = {| AICore.plugin := fst x;
                              AICore.match_confidence :=
                                AICore.keyword_score (snd x) text |})
      as [->|(x & Hx & ->)]
      by exact (scan_result fst
                  (fun e : string * AICore.PluginInfo =>
                     AICore.keyword_score (snd e) text) _
                  (keyword_matching_fold self text)
                  (AICore.plugins_info self) AICore.default_match).
    + now left.
    + right. right. cbn [AICore.plugin]. now apply in_map.
Qed.

Lemma create_ai_core_embedding_names (cfg : AICore.Config)
    (nlp : option (string -> AICore.Doc))
    (sentence_model : option (string -> list Q)) (name : string) :
  In name (map fst (AICore.plugin_embeddings
                      (AICore.create_ai_core cfg nlp sentence_model))) ->
  In name (map fst AICore.builtin_plugins).
Proof.
  cbn [AICore.create_ai_core AICore.plugin_embeddings].
  unfold AICore._create_plugin_embeddings.
  destruct sentence_model as [encode|]; [|intros []].
  rewrite map_map. intros ([n info] & <- & Hin)%in_map_iff.
  apply in_map_iff. now exists (n, info).
Qed.

(** X5.  Whatever the utterance and the mode, [understand_input] on the
    core as constructed returns the name of a plugin of the catalog. *)
Theorem resolved_plugin_in_catalog
    (cosine_similarity : list Q -> list Q -> Q) (cfg : AICore.Config)
    (nlp : option (string -> AICore.Doc))
    (sentence_model : option (string -> list Q)) (user_input : string) :
  In (AICore.plugin_name
        (AICore.understand_input cosine_similarity
           (AICore.create_ai_core cfg nlp sentence_model) user_input))
     (map fst AICore.builtin_plugins).
Proof.
  unfold AICore.understand_input. cbn [AICore.plugin_name].
  destruct (best_match_plugin cosine_similarity
              (AICore.create_ai_core cfg nlp sentence_model)
              (AICore._clean_input user_input)) as [->|[H|H]].
  - vm_compute. tauto.
  - exact (create_ai_core_embedding_names cfg nlp sentence_model _ H).
  - exact H.
Qed.

(** X6.  In keyword-fallback mode the confidence of [understand_input]
    lies between 0 and 1, whatever the catalog and the utterance. *)
Theorem keyword_confidence_range
    (cosine_similarity : list Q -> list Q -> Q) (self : AICore.SarahAICore)
    (user_input : string) :
  AICore.sentence_model self = None ->
  let intent := AICore.understand_input cosine_similarity self user_input in
  (0 <= AICore.confidence intent)%Q /\ (AICore.confidence intent <= 1)%Q.
Proof.
  intros Hmode intent. unfold intent, AICore.understand_input.
  cbn [AICore.confidence]. split; [apply best_match_confidence_nonneg|].
  rewrite (find_best_keyword_mode cosine_similarity self _ Hmode).
  unfold AICore._keyword_based_matching.
  set (text := AICore._clean_input user_input).
  destruct (scan_result fst
              (fun e : string * AICore.PluginInfo =>
                 AICore.keyword_score (snd e) text) _
              (keyword_matching_fold self text)
              (AICore.plugins_info self) AICore.default_match)
    as [->|(x & Hx & ->)]; [discriminate|].
  apply keyword_score_le_1.
Qed.

Lemma keyword_confidence_range_witness :
  AICore.sentence_model Samples.keyword_core = None
  /\ (0 <= AICore.confidence
             (AICore.understand_input Samples.cosine_1d Samples.keyword_core
                "rain and snow"))%Q
  /\ (AICore.confidence
        (AICore.understand_input Samples.cosine_1d Samples.keyword_core
           "rain and snow") <= 1)%Q.
Proof.
  split; [reflexivity|].
  exact (keyword_confidence_range Samples.cosine_1d Samples.keyword_core
           "rain and snow" eq_refl).
Defined.

(** ** Ranked suggestions *)

(** The suggestions [get_suggestions] collects on the core as
    constructed, one per plugin in catalog order, before they are
    sorted. *)
Lemma collect_suggestions_created
    (cosine_similarity : list Q -> list Q -> Q) (cfg : AICore.Config)
    (nlp : option (string -> AICore.Doc)) (encode : string -> list Q)
    (input_embedding : list Q) :
  let self := AICore.create_ai_core cfg nlp (Some encode) in
  exists candidates,
    AICore.collect_suggestions cosine_similarity (AICore.plugins_info self)
      input_embedding (AICore.plugin_embeddings self) = Some candidates
    /\ candidates
       = map (fun e : string * list Q =>
                {| AICore.s_plugin := fst e;
                   AICore.s_confidence :=
                     cosine_similarity input_embedding (snd e);
                   AICore.s_description :=
                     AICore.description
                       <$> AICore.plugin_lookup (fst e) AICore.builtin_plugins |})
             (AICore.plugin_embeddings self)
    /\ Forall (fun s => exists info,
                 In (AICore.s_plugin s, info) AICore.builtin_plugins
                 /\ AICore.s_description s = Some (AICore.description info))
         candidates.
Proof.
  intros self. eexists. split; [reflexivity|]. split; [reflexivity|].
  repeat constructor;
    (eexists; split; [|reflexivity]; cbn; tauto).
Qed.

Lemma sort_desc_head (l : list AICore.Suggestion) :
  l <> [] ->
  exists top rest,
    AICore.sort_desc l = top :: rest
    /\ Samples.first_maximum AICore.s_confidence l top.
Proof.
  induction l as [|a l IH]; [congruence|]. intros _.
  destruct l as [|b l].
  - exists a, []. split; [reflexivity|].
    exists [], []. repeat split; intros y [].
  - destruct IH as (top & rest & Hsort & before & after & Hl & Hb & Ha);
      [discriminate|].
    cbn [AICore.sort_desc fold_right] in *.
    fold (AICore.sort_desc (b :: l)) in *. rewrite Hsort.
    cbn [AICore.insert_desc].
    destruct (Score.gt (AICore.s_confidence top) (AICore.s_confidence a)) eqn:E.
    + exists top, (AICore.insert_desc a rest). split; [reflexivity|].
      exists (a :: before), after. rewrite Hl. split; [reflexivity|].
      split; [|exact Ha].
      intros y [<-|Hy]; [now apply gt_true | now apply Hb].
    + apply gt_false in E.
      exists a, (top :: rest). split; [reflexivity|].
      exists [], (b :: l). split; [reflexivity|].
      split; [intros y []|].
      intros y Hy. rewrite Hl in Hy.
      apply in_app_or in Hy as [Hy|[<-|Hy]].
      * eapply Qle_trans; [apply Qlt_le_weak, (Hb y Hy) | exact E].
      * exact E.
      * eapply Qle_trans; [apply (Ha y Hy) | exact E].
Qed.

Lemma first_maximum_map {A B} (f : A -> B) (score : B -> Q) (l : list A)
    (y : B) :
  Samples.first_maximum score (map f l) y ->
  exists x, y = f x /\ Samples.first_maximum (fun a => score (f a)) l x.
Proof.
  intros (before & after & Hl & Hb & Ha).
  apply List.map_eq_app in Hl as (l1 & l2 & -> & <- & Hl2).
  apply List.map_eq_cons in Hl2 as (x & l3 & -> & <- & <-).
  exists x. split; [reflexivity|].
  exists l1, l3. split; [reflexivity|]. split.
  - intros a Ha'. apply Hb. now apply in_map.
  - intros a Ha'. apply Ha. now apply in_map.
Qed.

(** X7.  In embedding mode, on the core as constructed and for a limit
    that is not negative, [get_suggestions] returns the first [limit]
    entries of the ranking of one candidate per catalog plugin, in
    catalog order, each with the plugin's description and its similarity
    with the cleaned utterance; the ranking is by non-increasing
    confidence and keeps candidates of equal confidence in catalog
    order. *)
Theorem suggestions_ranked
    (cosine_similarity : list Q -> list Q -> Q) (cfg : AICore.Config)
    (nlp : option (string -> AICore.Doc)) (encode : string -> list Q)
    (user_input : string) (limit : Z) :
  0 <= limit ->
  let self := AICore.create_ai_core cfg nlp (Some encode) in
  exists candidates ranked,
    map AICore.s_plugin candidates = map fst AICore.builtin_plugins
    /\ Forall (fun s =>
                 exists info embedding,
                   In (AICore.s_plugin s, info) AICore.builtin_plugins
                   /\ AICore.s_description s = Some (AICore.description info)
                   /\ In (AICore.s_plugin s, embedding)
                        (AICore.plugin_embeddings self)
                   /\ AICore.s_confidence s
                      = cosine_similarity
                          (encode (AICore._clean_input user_input)) embedding)
         candidates
    /\ Permutation ranked candidates
    /\ StronglySorted
         (fun a b => (AICore.s_confidence b <= AICore.s_confidence a)%Q) ranked
    /\ (forall c,
          List.filter (fun s => Qeq_bool (AICore.s_confidence s) c) ranked
          = List.filter (fun s => Qeq_bool (AICore.s_confidence s) c) candidates)
    /\ AICore.get_suggestions cosine_similarity self user_input (Some limit)
       = Some (firstn (Z.to_nat limit) ranked).
Proof.
  intros Hlimit self.
  destruct (collect_suggestions_created cosine_similarity cfg nlp encode
              (encode (AICore._clean_input user_input)))
    as (candidates & Hcollect & Hcand & Hdesc).
  fold self in Hcollect, Hcand.
  exists candidates, (AICore.sort_desc candidates).
  split; [|split; [|split; [|split; [|split]]]].
  - rewrite Hcand, map_map. cbn [AICore.s_plugin]. reflexivity.
  - apply List.Forall_forall. intros s Hs.
    destruct (proj1 (List.Forall_forall _ _) Hdesc s Hs) as (info & Hin & Hd).
    rewrite Hcand in Hs. apply in_map_iff in Hs as ([n e] & <- & He).
    exists info, e. cbn [AICore.s_plugin AICore.s_confidence fst snd] in *.
    repeat split; assumption.
  - apply sort_desc_perm.
  - apply sort_desc_sorted.
  - intros c. apply sort_desc_stable.
  - unfold AICore.get_suggestions.
    change (AICore.sentence_model self) with (Some encode).
    cbv zeta iota beta. rewrite Hcollect. unfold PyStr.slice_to.
    destruct (0 <=? limit) eqn:E; [reflexivity|lia].
Qed.

Lemma suggestions_ranked_witness :
  0 <= 3
  /\ exists ranked,
       AICore.get_suggestions Samples.cosine_1d Samples.embedding_core
         "what time is it" (Some 3)
       = Some (firstn 3 ranked)
       /\ StronglySorted
            (fun a b => (AICore.s_confidence b <= AICore.s_confidence a)%Q)
            ranked.
Proof.
  split; [lia|].
  destruct (suggestions_ranked Samples.cosine_1d AICore.default_config None
              Samples.encode_same_side "what time is it" 3 ltac:(lia))
    as (candidates & ranked & _ & _ & _ & Hsorted & _ & Hget).
  exists ranked. split; [exact Hget | exact Hsorted].
Defined.

(** X8.  In embedding mode, on the core as constructed, when some plugin
    has a positive similarity with the utterance and the limit is at
    least 1, the first suggestion of [get_suggestions] is the plugin
    [understand_input] resolves the utterance to, with the same
    confidence. *)
Theorem top_suggestion_is_resolution
    (cosine_similarity : list Q -> list Q -> Q) (cfg : AICore.Config)
    (nlp : option (string -> AICore.Doc)) (encode : string -> list Q)
    (user_input : string) (limit : Z) :
  1 <= limit ->
  let self := AICore.create_ai_core cfg nlp (Some encode) in
  (exists e, In e (AICore.plugin_embeddings self)
             /\ (0 < cosine_similarity
                       (encode (AICore._clean_input user_input)) (snd e))%Q) ->
  let intent := AICore.understand_input cosine_similarity self user_input in
  exists top rest,
    AICore.get_suggestions cosine_similarity self user_input (Some limit)
    = Some (top :: rest)
    /\ AICore.s_plugin top = AICore.plugin_name intent
    /\ AICore.s_confidence top = AICore.confidence intent.
Proof.
  intros Hlimit self Hpos intent.
  set (text := AICore._clean_input user_input) in *.
  destruct (collect_suggestions_created cosine_similarity cfg nlp encode
              (encode text)) as (candidates & Hcollect & Hcand & _).
  fold self in Hcollect, Hcand.
  assert (candidates <> []) as Hne.
  { rewrite Hcand. destruct Hpos as (e & He & _).
    destruct (AICore.plugin_embeddings self); [destruct He|discriminate]. }
  destruct (sort_desc_head candidates Hne) as (top & rest & Hsort & Hmax).
  rewrite Hcand in Hmax.
  apply first_maximum_map in Hmax as (entry & -> & Hmax).
  cbn [AICore.s_confidence] in Hmax.
  assert (0 < cosine_similarity (encode text) (snd entry))%Q as Hentry.
  { destruct Hpos as (e & He & Hgt).
    destruct Hmax as (before & after & Hl & Hb & Ha).
    rewrite Hl in He. apply in_app_or in He as [He|[<-|He]].
    - eapply Qlt_trans; [exact Hgt | exact (Hb e He)].
    - exact Hgt.
    - eapply Qlt_le_trans; [exact Hgt | exact (Ha e He)]. }
  exists {| AICore.s_plugin := fst entry;
            AICore.s_confidence := cosine_similarity (encode text) (snd entry);
            AICore.s_description :=
              AICore.description
                <$> AICore.plugin_lookup (fst entry) AICore.builtin_plugins |},
    (firstn (Z.to_nat limit - 1) rest).
  split.
  - unfold AICore.get_suggestions.
    change (AICore.sentence_model self) with (Some encode).
    cbv zeta iota beta. fold text. rewrite Hcollect, Hsort.
    unfold PyStr.slice_to. destruct (0 <=? limit) eqn:E; [|lia].
    destruct (Z.to_nat limit) as [|k] eqn:Ek; [lia|].
    cbn [firstn]. do 2 f_equal. f_equal. lia.
  - unfold intent, AICore.understand_input.
    cbn [AICore.plugin_name AICore.confidence AICore.s_plugin
         AICore.s_confidence].
    fold text.
    rewrite (embedding_matching_first_maximum cosine_similarity self encode
               text entry eq_refl Hmax Hentry).
    now split.
Qed.

Lemma top_suggestion_is_resolution_witness :
  let intent :=
    AICore.understand_input Samples.cosine_1d Samples.embedding_core
      "what time is it" in
  1 <= 3
  /\ exists top rest,
       AICore.get_suggestions Samples.cosine_1d Samples.embedding_core
         "what time is it" (Some 3) = Some (top :: rest)
       /\ AICore.s_plugin top = AICore.plugin_name intent
       /\ AICore.s_confidence top = AICore.confidence intent.
Proof.
  intros intent. split; [lia|].
  apply (top_suggestion_is_resolution Samples.cosine_1d AICore.default_config
           None Samples.encode_same_side "what time is it" 3 ltac:(lia)).
  eexists. split; [left; reflexivity|]. vm_compute. reflexivity.
Defined.

(** ** Formatted responses *)

(** X9.  On a core without a sentence model, [format_response] raises
    for every intent whose confidence is below the configured threshold:
    the single suggestion of the keyword path has no description. *)
Theorem format_response_keyword_mode_raises
    (cosine_similarity : list Q -> list Q -> Q) (format_2f : Q -> string)
    (self : AICore.SarahAICore) (intent : AICore.Intent)
    (result : option string) :
  AICore.sentence_model self = None ->
  (AICore.confidence intent < AICore.confidence_threshold (AICore.config self))%Q ->
  AICore.format_response cosine_similarity format_2f self intent result = None.
Proof.
  intros Hmodel Hlow. unfold AICore.format_response.
  rewrite (proj2 (gt_true _ _) Hlow).
  unfold AICore.get_suggestions. rewrite Hmodel. reflexivity.
Qed.

Lemma format_response_keyword_mode_raises_witness :
  AICore.format_response Samples.cosine_1d (fun _ => "0.00")
    Samples.keyword_core
    (AICore.understand_input Samples.cosine_1d Samples.keyword_core "xyz")
    (Some "done")
  = None.
Proof.
  apply format_response_keyword_mode_raises.
  - reflexivity.
  - vm_compute. reflexivity.
Defined.

(** X10.  On the core as constructed with a sentence model,
    [format_response] never raises; for an intent below the threshold
    its text is the question followed by exactly three numbered lines,
    one per suggestion of [get_suggestions] for the raw text with limit
    3, each with the plugin's description and its formatted
    confidence. *)
Theorem format_response_embedding_mode
    (cosine_similarity : list Q -> list Q -> Q) (format_2f : Q -> string)
    (cfg : AICore.Config) (nlp : option (string -> AICore.Doc))
    (encode : string -> list Q) (intent : AICore.Intent)
    (result : option string) :
  let self := AICore.create_ai_core cfg nlp (Some encode) in
  (exists text,
     AICore.format_response cosine_similarity format_2f self intent result
     = Some text)
  /\ ((AICore.confidence intent < AICore.confidence_threshold cfg)%Q ->
      exists s1 s2 s3 d1 d2 d3,
        AICore.get_suggestions cosine_similarity self (AICore.raw_text intent)
          (Some 3) = Some [s1; s2; s3]
        /\ AICore.s_description s1 = Some d1
        /\ AICore.s_description s2 = Some d2
        /\ AICore.s_description s3 = Some d3
        /\ AICore.format_response cosine_similarity format_2f self intent result
           = Some ("I'm not quite sure what you mean by '"
                   ++ AICore.raw_text intent ++ "'. " ++ "Did you mean:"
                   ++ Conversation.newline
                   ++ "1. " ++ d1 ++ " (confidence: "
                   ++ format_2f (AICore.s_confidence s1) ++ ")"
                   ++ Conversation.newline
                   ++ "2. " ++ d2 ++ " (confidence: "
                   ++ format_2f (AICore.s_confidence s2) ++ ")"
                   ++ Conversation.newline
                   ++ "3. " ++ d3 ++ " (confidence: "
                   ++ format_2f (AICore.s_confidence s3) ++ ")"
                   ++ Conversation.newline)).
Proof.
  intros self.
  destruct (collect_suggestions_created cosine_similarity cfg nlp encode
              (encode (AICore._clean_input (AICore.raw_text intent))))
    as (candidates & Hcollect & Hcand & Hdesc).
  fold self in Hcollect, Hcand.
  pose proof (sort_desc_perm candidates) as Hperm.
  assert (length (AICore.sort_desc candidates) = 12%nat) as Hlen.
  { rewrite (Permutation_length Hperm), Hcand. reflexivity. }
  assert (Forall (fun s => exists d, AICore.s_description s = Some d)
            (AICore.sort_desc candidates)) as Hsome.
  { apply List.Forall_forall. intros s Hs.
    apply (Permutation_in _ Hperm) in Hs.
    destruct (proj1 (List.Forall_forall _ _) Hdesc s Hs) as (info & _ & Hd).
    eauto. }
  destruct (AICore.sort_desc candidates) as [|s1 [|s2 [|s3 rest]]] eqn:Hsort;
    try discriminate.
  inversion Hsome as [|? ? [d1 Hd1] Hsome1]; subst.
  inversion Hsome1 as [|? ? [d2 Hd2] Hsome2]; subst.
  inversion Hsome2 as [|? ? [d3 Hd3] _]; subst.
  assert (AICore.get_suggestions cosine_similarity self
            (AICore.raw_text intent) (Some 3) = Some [s1; s2; s3]) as Hget.
  { unfold AICore.get_suggestions.
    change (AICore.sentence_model self) with (Some encode).
    cbv zeta iota beta. rewrite Hcollect, Hsort. reflexivity. }
  assert (AICore.suggestion_lines format_2f 1 [s1; s2; s3]
          = Some ("1. " ++ d1 ++ " (confidence: "
                   ++ format_2f (AICore.s_confidence s1) ++ ")"
                   ++ Conversation.newline
                   ++ "2. " ++ d2 ++ " (confidence: "
                   ++ format_2f (AICore.s_confidence s2) ++ ")"
                   ++ Conversation.newline
                   ++ "3. " ++ d3 ++ " (confidence: "
                   ++ format_2f (AICore.s_confidence s3) ++ ")"
                   ++ Conversation.newline)) as Hlines.
  { cbn [AICore.suggestion_lines]. rewrite Hd1, Hd2, Hd3.
    change (PyStr.str_of_int 1) with "1".
    change (PyStr.str_of_int (1 + 1)) with "2".
    change (PyStr.str_of_int (1 + 1 + 1)) with "3".
    unfold Conversation.newline.
    rewrite append_empty_r.
    rewrite ?append_assoc. reflexivity. }
  split.
  - unfold AICore.format_response.
    change (AICore.config self) with cfg.
    destruct (Score.gt _ _).
    + rewrite Hget, Hlines. eauto.
    + destruct result as [[|c r]|]; eauto.
  - intros Hlow. exists s1, s2, s3, d1, d2, d3.
    repeat (split; [assumption|]).
    unfold AICore.format_response.
    change (AICore.config self) with cfg.
    rewrite (proj2 (gt_true _ _) Hlow), Hget, Hlines.
    unfold Conversation.newline. rewrite ?append_assoc. reflexivity.
Qed.

Lemma format_response_embedding_mode_witness :
  exists text,
    AICore.format_response Samples.cosine_1d (fun _ => "0.00")
      Samples.embedding_core
      {| AICore.plugin_name := "hi"; AICore.confidence := 0;
         AICore.entities := AICore.no_entities; AICore.raw_text := "xyz" |}
      None
    = Some text.
Proof.
  destruct (format_response_embedding_mode Samples.cosine_1d (fun _ => "0.00")
              AICore.default_config None Samples.encode_same_side
              {| AICore.plugin_name := "hi"; AICore.confidence := 0;
                 AICore.entities := AICore.no_entities;
                 AICore.raw_text := "xyz" |} None) as [_ Hlow].
  destruct Hlow as (s1 & s2 & s3 & d1 & d2 & d3 & _ & _ & _ & _ & Htext).
  - vm_compute. reflexivity.
  - eexists. exact Htext.
Defined.

(** ** Usage counters and summaries *)

Lemma add_turn_current_context (args : Conversation.TurnArgs)
    (env : Conversation.TurnEnv) (self : Conversation.ConversationManager)
    (ctx : Conversation.ConversationContext) :
  Conversation.current self = Some ctx ->
  Conversation.current (Conversation.add_turn args env self)
  = Some (Conversation._update_user_preferences
            (Conversation.arg_entities args)
            (Conversation.arg_intent_plugin args)
            (Conversation.trim_turns (Conversation.max_context_turns self)
               (Conversation._update_active_topic
                  (Conversation.arg_intent_plugin args)
                  (Conversation.arg_entities args)
                  (Conversation.append_turn
                     (Conversation.make_turn args (Conversation.now_turn env))
                     ctx)))).
Proof.
  intros Hcur. unfold Conversation.add_turn.
  assert (exists l, Conversation.current_context self = Some l) as [l Hl].
  { unfold Conversation.current in Hcur.
    destruct (Conversation.current_context self); [eauto|discriminate]. }
  rewrite Hl, current_update_current, Hcur. reflexivity.
Qed.

Lemma preferences_update_active_topic (intent_plugin : string)
    (entities : AICore.Entities) (ctx : Conversation.ConversationContext) :
  Conversation.user_preferences
    (Conversation._update_active_topic intent_plugin entities ctx)
  = Conversation.user_preferences ctx.
Proof.
  unfold Conversation._update_active_topic.
  destruct (AICore.search_terms entities) as [[|term terms]|];
    try reflexivity; destruct (PyStr.mem _ _); reflexivity.
Qed.

Lemma preferences_trim_turns (max_context_turns : Z)
    (ctx : Conversation.ConversationContext) :
  Conversation.user_preferences (Conversation.trim_turns max_context_turns ctx)
  = Conversation.user_preferences ctx.
Proof. unfold Conversation.trim_turns. destruct (_ <? _); reflexivity. Qed.

Lemma usage_count_update (entities : AICore.Entities)
    (intent_plugin plugin : string) (ctx : Conversation.ConversationContext) :
  Samples.usage_count plugin
    (Conversation._update_user_preferences entities intent_plugin ctx)
  = Samples.usage_count plugin ctx
    + (if String.eqb intent_plugin plugin then 1 else 0).
Proof.
  unfold Samples.usage_count, Conversation._update_user_preferences.
  assert (forall counts : gmap string Z,
            default 0 (<[intent_plugin :=
                           default 0 (counts !! intent_plugin) + 1]> counts
                       !! plugin)
            = default 0 (counts !! plugin)
              + (if String.eqb intent_plugin plugin then 1 else 0)) as Hcount.
  { intros counts. destruct (String.eqb_spec intent_plugin plugin) as [->|Hne].
    - now rewrite lookup_insert_eq.
    - rewrite lookup_insert_ne by assumption. lia. }
  destruct (Conversation.user_preferences ctx) as [[[counts|] place]|];
    destruct (AICore.gpe entities), (AICore.loc entities);
    cbn [Conversation.user_preferences Conversation.preferred_plugins
         Conversation.no_preferences];
    rewrite Hcount; rewrite ?lookup_empty; reflexivity.
Qed.

(** X11.  In a manager with a current conversation, after any sequence
    of [add_turn] calls the usage count the preferences keep for a
    plugin has grown by the number of those calls that were for that
    plugin: the counters are not touched by the trimming of the
    turns. *)
Theorem usage_count_add_turns
    (calls : list (Conversation.TurnArgs * Conversation.TurnEnv))
    (plugin : string) (self : Conversation.ConversationManager)
    (ctx : Conversation.ConversationContext) :
  Conversation.current self = Some ctx ->
  exists ctx',
    Conversation.current (Samples.add_turns calls self) = Some ctx'
    /\ Samples.usage_count plugin ctx'
       = Samples.usage_count plugin ctx
         + Z.of_nat (Samples.calls_with plugin calls).
Proof.
  revert self ctx.
  induction calls as [|[args env] calls IH]; intros self ctx Hcur.
  - exists ctx. split; [exact Hcur|]. cbn. lia.
  - pose proof (add_turn_current_context args env self ctx Hcur) as Hnext.
    destruct (IH _ _ Hnext) as (ctx' & Hcur' & Hcount).
    exists ctx'. split; [exact Hcur'|].
    rewrite Hcount, usage_count_update.
    unfold Samples.usage_count at 1.
    rewrite preferences_trim_turns, preferences_update_active_topic.
    change (Conversation.user_preferences (Conversation.append_turn _ ctx))
      with (Conversation.user_preferences ctx).
    fold (Samples.usage_count plugin ctx).
    unfold Samples.calls_with. cbn [List.filter fst].
    destruct (String.eqb _ plugin); cbn [length]; lia.
Qed.

Lemma usage_count_add_turns_witness :
  exists ctx',
    Conversation.current
      (Samples.add_turns
         [(Samples.sample_args "weather today" "weather", Samples.turn_at 6);
          (Samples.sample_args "what time is it" "time", Samples.turn_at 7);
          (Samples.sample_args "weather tomorrow" "weather", Samples.turn_at 8)]
         Samples.zero_limit_session) = Some ctx'
    /\ Samples.usage_count "weather" ctx' = 2.
Proof.
  destruct (usage_count_add_turns
              [(Samples.sample_args "weather today" "weather", Samples.turn_at 6);
               (Samples.sample_args "what time is it" "time", Samples.turn_at 7);
               (Samples.sample_args "weather tomorrow" "weather",
                Samples.turn_at 8)]
              "weather" Samples.zero_limit_session
              (Samples.fresh_context "s" 5) eq_refl)
    as (ctx' & Hcur & Hcount).
  exists ctx'. split; [exact Hcur | exact Hcount].
Defined.

Lemma mem_In (x : string) (xs : list string) :
  PyStr.mem x xs = true <-> In x xs.
Proof.
  unfold PyStr.mem. rewrite existsb_exists. split.
  - intros (y & Hy & Heq). apply String.eqb_eq in Heq. now subst.
  - intros Hx. exists x. split; [assumption | apply String.eqb_refl].
Qed.

Lemma recent_plugins_fold (recent : list Conversation.ConversationTurn)
    (acc : list string) :
  NoDup acc ->
  let result :=
    fold_left (fun acc turn =>
                 if PyStr.mem (Conversation.intent_plugin turn) acc then acc
                 else (acc ++ [Conversation.intent_plugin turn])%list)
              recent acc in
  NoDup result
  /\ forall plugin,
       In plugin result
       <-> In plugin acc
           \/ exists turn, In turn recent
                           /\ Conversation.intent_plugin turn = plugin.
Proof.
  revert acc. induction recent as [|turn recent IH]; intros acc Hacc; cbn.
  - split; [assumption|]. intros plugin. split; [tauto|].
    intros [H|(turn & [] & _)]. exact H.
  - destruct (PyStr.mem (Conversation.intent_plugin turn) acc) eqn:E.
    + destruct (IH acc Hacc) as [Hnd Hin]. split; [exact Hnd|].
      intros plugin. rewrite Hin. split.
      * intros [H|(t & Ht & Hp)]; [tauto|]. right. exists t. tauto.
      * intros [H|(t & [<-|Ht] & Hp)]; [tauto| |].
        -- left. subst plugin. now apply mem_In.
        -- right. exists t. tauto.
    + assert (NoDup (acc ++ [Conversation.intent_plugin turn])%list) as Hacc'.
      { apply NoDup_app. split; [assumption|]. split.
        - intros x Hx Hx'. apply list_elem_of_In in Hx, Hx'.
          destruct Hx' as [<-|[]]. apply mem_In in Hx. congruence.
        - apply NoDup_singleton. }
      destruct (IH _ Hacc') as [Hnd Hin]. split; [exact Hnd|].
      intros plugin. rewrite Hin, in_app_iff. cbn [In]. split.
      * intros [[H|[<-|[]]]|(t & Ht & Hp)]; [tauto| |].
        -- right. exists turn. tauto.
        -- right. exists t. tauto.
      * intros [H|(t & [<-|Ht] & Hp)]; [tauto|tauto|].
        right. exists t. tauto.
Qed.

Lemma recent_topics_fold (recent : list Conversation.ConversationTurn)
    (acc : list string) (topic : string) :
  In topic
    (fold_left (fun acc turn =>
                  match AICore.search_terms (Conversation.entities turn) with
                  | Some terms => (acc ++ terms)%list
                  | None => acc
                  end)
               recent acc)
  <-> In topic acc
      \/ exists turn terms,
           In turn recent
           /\ AICore.search_terms (Conversation.entities turn) = Some terms
           /\ In topic terms.
Proof.
  revert acc. induction recent as [|turn recent IH]; intros acc; cbn.
  - split; [tauto|]. intros [H|(turn & terms & [] & _)]. exact H.
  - rewrite IH. split.
    + intros [H|(t & terms & Ht & Hs & Hin)].
      * destruct (AICore.search_terms (Conversation.entities turn))
          as [terms|] eqn:E; [|tauto].
        apply in_app_or in H as [H|H]; [tauto|].
        right. exists turn, terms. tauto.
      * right. exists t, terms. tauto.
    + intros [H|(t & terms & [<-|Ht] & Hs & Hin)].
      * left. destruct (AICore.search_terms _); [apply in_or_app|]; tauto.
      * left. rewrite Hs. apply in_or_app. tauto.
      * right. exists t, terms. tauto.
Qed.

(** X12.  With a current conversation, [get_conversation_summary]
    returns a summary whose [total_turns] is the number of turns kept,
    whose [recent_plugins] lists without repetition, and so with at
    most five entries, exactly the plugins of the five last turns kept,
    and whose [recent_topics] are exactly the search terms of those
    turns. *)
Theorem summary_recent (now : Z) (self : Conversation.ConversationManager)
    (ctx : Conversation.ConversationContext) :
  Conversation.current self = Some ctx ->
  let recent := Samples.most_recent 5 (Conversation.turns ctx) in
  exists summary,
    Conversation.get_conversation_summary now self = Some summary
    /\ Conversation.sum_total_turns summary = length (Conversation.turns ctx)
    /\ NoDup (Conversation.sum_recent_plugins summary)
    /\ (length (Conversation.sum_recent_plugins summary) <= 5)%nat
    /\ (forall plugin,
          In plugin (Conversation.sum_recent_plugins summary)
          <-> exists turn, In turn recent
                           /\ Conversation.intent_plugin turn = plugin)
    /\ (forall topic,
          topic ∈ Conversation.sum_recent_topics summary
          <-> exists turn terms,
                In turn recent
                /\ AICore.search_terms (Conversation.entities turn) = Some terms
                /\ In topic terms).
Proof.
  intros Hcur recent. unfold Conversation.get_conversation_summary.
  rewrite Hcur. eexists. split; [reflexivity|].
  cbn [Conversation.sum_total_turns Conversation.sum_recent_plugins
       Conversation.sum_recent_topics].
  change (PyStr.slice_last (Conversation.turns ctx) 5) with recent.
  destruct (recent_plugins_fold recent [] NoDup_nil_2) as [Hnd Hin].
  fold (Conversation.recent_plugins_of recent) in Hnd, Hin.
  assert (forall plugin,
            In plugin (Conversation.recent_plugins_of recent)
            <-> exists turn, In turn recent
                             /\ Conversation.intent_plugin turn = plugin) as Hin'.
  { intros plugin. rewrite Hin. cbn [In]. tauto. }
  split; [reflexivity|]. split; [exact Hnd|]. split; [|split; [exact Hin'|]].
  - assert (length recent <= 5)%nat as Hlen.
    { unfold recent, Samples.most_recent. rewrite List.length_skipn. lia. }
    etransitivity; [|exact Hlen].
    rewrite <- (List.length_map Conversation.intent_plugin recent).
    apply List.NoDup_incl_length.
    + apply NoDup_ListNoDup. exact Hnd.
    + intros plugin Hp. apply Hin' in Hp as (turn & Ht & <-).
      now apply in_map.
  - intros topic. rewrite elem_of_list_to_set, list_elem_of_In.
    unfold Conversation.recent_topics_of. rewrite recent_topics_fold.
    cbn [In]. tauto.
Qed.

Lemma summary_recent_witness :
  exists summary,
    Conversation.get_conversation_summary 9
      (Samples.add_turns
         [(Samples.rich_args, Samples.turn_at 6);
          (Samples.sample_args "what time is it" "time", Samples.turn_at 7)]
         Samples.one_session) = Some summary
    /\ NoDup (Conversation.sum_recent_plugins summary)
    /\ (length (Conversation.sum_recent_plugins summary) <= 5)%nat.
Proof.
  destruct (summary_recent 9
              (Samples.add_turns
                 [(Samples.rich_args, Samples.turn_at 6);
                  (Samples.sample_args "what time is it" "time",
                   Samples.turn_at 7)]
                 Samples.one_session) _ eq_refl)
    as (summary & Hsum & _ & Hnd & Hlen & _).
  exists summary. repeat split; assumption.
Defined.

(** ** Contextual responses *)

Lemma contains_hint (needle a separator opening closing : string) :
  PyStr.contains (PyStr.lower needle)
    (PyStr.lower (a ++ separator ++ opening ++ needle ++ closing)) = true.
Proof.
  apply contains_spec.
  exists (PyStr.lower a ++ PyStr.lower separator ++ PyStr.lower opening),
    (PyStr.lower closing).
  rewrite !lower_append, !append_assoc. reflexivity.
Qed.

Lemma add_context_weather (base_response : string)
    (ctx : Conversation.ConversationContext) :
  Conversation._add_context_to_response base_response "weather" ctx
  = match Conversation.location_context ctx with
    | Some location =>
        if Conversation.truthy (Some location)
           && negb (PyStr.contains (PyStr.lower location)
                      (PyStr.lower base_response))
        then base_response ++ Conversation.newline
               ++ "(I remember you usually ask about " ++ location ++ ")"
        else base_response
    | None => base_response
    end.
Proof.
  unfold Conversation._add_context_to_response.
  change (PyStr.mem "weather" ["wiki"; "google"; "youtube"; "github"])
    with false.
  change ("weather" =? "weather")%string with true.
  cbv zeta. cbn [andb].
  destruct (Conversation.active_topic ctx) as [topic|]; [|reflexivity].
  now rewrite andb_false_r, andb_false_l.
Qed.

Lemma add_context_other (base_response intent_plugin : string)
    (ctx : Conversation.ConversationContext) :
  intent_plugin <> "weather" ->
  Conversation._add_context_to_response base_response intent_plugin ctx
  = match Conversation.active_topic ctx with
    | Some topic =>
        if Conversation.truthy (Some topic)
           && PyStr.mem intent_plugin ["wiki"; "google"; "youtube"; "github"]
           && negb (PyStr.contains (PyStr.lower topic)
                      (PyStr.lower base_response))
        then base_response ++ Conversation.newline
               ++ "(Related to our discussion about " ++ topic ++ ")"
        else base_response
    | None => base_response
    end.
Proof.
  intros Hne. unfold Conversation._add_context_to_response.
  apply String.eqb_neq in Hne. rewrite Hne. cbv zeta. cbn [andb].
  destruct (Conversation.location_context ctx); reflexivity.
Qed.

(** X13.  [_add_context_to_response] does not repeat itself: applied
    to its own result, for the same plugin and context, it returns that
    result unchanged. *)
Theorem add_context_idempotent (base_response intent_plugin : string)
    (ctx : Conversation.ConversationContext) :
  Conversation._add_context_to_response
    (Conversation._add_context_to_response base_response intent_plugin ctx)
    intent_plugin ctx
  = Conversation._add_context_to_response base_response intent_plugin ctx.
Proof.
  destruct (String.eqb_spec intent_plugin "weather") as [->|Hne].
  - rewrite (add_context_weather base_response).
    destruct (Conversation.location_context ctx) as [location|] eqn:El.
    + destruct (Conversation.truthy (Some location)
                && negb (PyStr.contains (PyStr.lower location)
                           (PyStr.lower base_response))) eqn:E.
      * rewrite add_context_weather, El, contains_hint.
        now rewrite andb_false_r.
      * now rewrite add_context_weather, El, E.
    + now rewrite add_context_weather, El.
  - rewrite (add_context_other base_response) by assumption.
    destruct (Conversation.active_topic ctx) as [topic|] eqn:Et.
    + destruct (Conversation.truthy (Some topic)
                && PyStr.mem intent_plugin
                     ["wiki"; "google"; "youtube"; "github"]
                && negb (PyStr.contains (PyStr.lower topic)
                           (PyStr.lower base_response))) eqn:E.
      * rewrite add_context_other, Et, contains_hint by assumption.
        now rewrite andb_false_r.
      * now rewrite add_context_other, Et, E by assumption.
    + now rewrite add_context_other, Et by assumption.
Qed.

Lemma last_skipn {A} (n : nat) (l : list A) :
  (n < length l)%nat -> last (skipn n l) = last l.
Proof.
  revert n. induction l as [|a l IH]; intros [|n] Hn; cbn in *;
    try lia; try reflexivity.
  rewrite IH by lia. destruct l; [cbn in Hn; lia | reflexivity].
Qed.

Lemma last_trim_turns (max_context_turns : Z)
    (turn : Conversation.ConversationTurn)
    (ctx : Conversation.ConversationContext) :
  0 <= max_context_turns ->
  last (Conversation.turns
          (Conversation.trim_turns max_context_turns
             (Conversation.append_turn turn ctx)))
  = Some turn.
Proof.
  intros Hmax. unfold Conversation.trim_turns.
  cbn [Conversation.turns Conversation.append_turn].
  destruct (_ <? _) eqn:E; cbn [Conversation.turns]; [|apply last_snoc].
  apply Z.ltb_lt in E. unfold PyStr.slice_last.
  destruct (0 <? max_context_turns) eqn:E0.
  - apply Z.ltb_lt in E0. rewrite last_skipn; [apply last_snoc | lia].
  - apply Z.ltb_ge in E0.
    replace max_context_turns with 0 by lia. apply last_snoc.
Qed.

(** X14.  [add_turn] followed by [get_contextual_response] for the same
    utterance and plugin, as the module's demonstration calls them: when
    the maximum of turns is not negative, the utterance holds no
    greeting and no farewell phrase, and the reply is asked for less
    than two minutes after the turn's timestamp, the reply is always
    the follow-up response, an acknowledgment before the base
    response, whatever the utterance. *)
Theorem reply_after_add_turn (args : Conversation.TurnArgs)
    (turn_env : Conversation.TurnEnv) (reply_env : Conversation.ReplyEnv)
    (base_response : string) (self : Conversation.ConversationManager)
    (ctx : Conversation.ConversationContext) :
  Conversation.current self = Some ctx ->
  0 <= Conversation.max_context_turns self ->
  Conversation._is_greeting (Conversation.arg_user_input args) = false ->
  Conversation._is_farewell (Conversation.arg_user_input args) = false ->
  Conversation.now_reply reply_env - Conversation.now_turn turn_env
  < Conversation.minutes 2 ->
  Conversation.get_contextual_response (Conversation.arg_user_input args)
    (Conversation.arg_intent_plugin args) (Conversation.arg_entities args)
    base_response reply_env (Conversation.add_turn args turn_env self)
  = Conversation.choice (Conversation.reply_pick reply_env)
      Conversation.acknowledgment_responses
    ++ " Here's more information:" ++ Conversation.newline ++ base_response.
Proof.
  intros Hcur Hmax Hgreet Hbye Hsoon.
  destruct (add_turn_current args turn_env self ctx Hcur)
    as (ctx' & Hcur' & _ & Hturns).
  unfold Conversation.get_contextual_response.
  rewrite Hcur', Hgreet, Hbye.
  unfold Conversation._is_follow_up_question.
  rewrite Hcur', Hturns, (last_trim_turns _ _ _ Hmax).
  cbn [Conversation.timestamp Conversation.intent_plugin Conversation.make_turn].
  rewrite (proj2 (Z.ltb_lt _ _) Hsoon), String.eqb_refl.
  reflexivity.
Qed.

Lemma reply_after_add_turn_witness :
  Conversation.get_contextual_response "what time is it" "time"
    AICore.no_entities "It is noon."
    {| Conversation.now_reply := 7; Conversation.reply_pick := 0 |}
    (Conversation.add_turn (Samples.sample_args "what time is it" "time")
       (Samples.turn_at 6) Samples.one_session)
  = "Got it! Here's more information:" ++ Conversation.newline ++ "It is noon.".
Proof.
  apply (reply_after_add_turn (Samples.sample_args "what time is it" "time")
           (Samples.turn_at 6)
           {| Conversation.now_reply := 7; Conversation.reply_pick := 0 |}
           "It is noon." Samples.one_session (Samples.fresh_context "kept" 5));
    try reflexivity.
  vm_compute. discriminate.
Defined.

(** ** The history and the current conversation *)

Lemma sessions_update_current
    (f : Conversation.ConversationContext -> Conversation.ConversationContext)
    (self : Conversation.ConversationManager) :
  (forall k, Conversation.conversation_history self !! k
             <> Conversation.current_context self) ->
  Conversation.sessions (Conversation.update_current f self)
  = Conversation.sessions self.
Proof.
  intros Hfree. unfold Conversation.update_current.
  destruct (Conversation.current_context self) as [l|] eqn:El; [|reflexivity].
  apply map_eq. intros k. rewrite !sessions_lookup.
  cbn [Conversation.conversation_history Conversation.heap].
  destruct (Conversation.conversation_history self !! k) as [l'|] eqn:Ek;
    [|reflexivity].
  cbn. apply lookup_alter_ne. intros <-. exact (Hfree k Ek).
Qed.

Lemma add_turn_with_context (args : Conversation.TurnArgs)
    (env : Conversation.TurnEnv) (self : Conversation.ConversationManager)
    (l : Conversation.loc) :
  Conversation.current_context self = Some l ->
  let self' := Conversation.add_turn args env self in
  Conversation.current_context self' = Some l
  /\ Conversation.conversation_history self'
     = Conversation.conversation_history self
  /\ dom (Conversation.heap self') = dom (Conversation.heap self)
  /\ ((forall k, Conversation.conversation_history self !! k <> Some l) ->
      Conversation.sessions self' = Conversation.sessions self).
Proof.
  intros Hl self'. unfold self', Conversation.add_turn. rewrite Hl.
  split; [|split; [|split]].
  - unfold Conversation.update_current. now rewrite Hl.
  - unfold Conversation.update_current. now rewrite Hl.
  - unfold Conversation.update_current. rewrite Hl. apply dom_alter_L.
  - intros Hfree. apply sessions_update_current. now rewrite Hl.
Qed.

Lemma add_turns_with_context
    (calls : list (Conversation.TurnArgs * Conversation.TurnEnv))
    (self : Conversation.ConversationManager) (l : Conversation.loc) :
  Conversation.current_context self = Some l ->
  let self' := Samples.add_turns calls self in
  Conversation.current_context self' = Some l
  /\ Conversation.conversation_history self'
     = Conversation.conversation_history self
  /\ dom (Conversation.heap self') = dom (Conversation.heap self)
  /\ ((forall k, Conversation.conversation_history self !! k <> Some l) ->
      Conversation.sessions self' = Conversation.sessions self).
Proof.
  revert self. induction calls as [|[args env] calls IH]; intros self Hl.
  - cbn. split; [exact Hl|]. repeat split.
  - destruct (add_turn_with_context args env self l Hl)
      as (Hl1 & Hh1 & Hd1 & Hs1).
    destruct (IH _ Hl1) as (Hl2 & Hh2 & Hd2 & Hs2).
    cbn [Samples.add_turns fold_left fst snd] in *.
    fold (Samples.add_turns calls
            (Conversation.add_turn args env self)) in *.
    split; [exact Hl2|]. split; [congruence|]. split; [congruence|].
    intros Hfree. rewrite Hs2, Hs1; [reflexivity|exact Hfree|].
    rewrite Hh1. exact Hfree.
Qed.

Lemma store_session_apart (session_id : string)
    (context : Conversation.ConversationContext)
    (self : Conversation.ConversationManager) (l : Conversation.loc) :
  is_Some (Conversation.heap self !! l) ->
  (forall k, Conversation.conversation_history self !! k <> Some l) ->
  let self' := Conversation.store_session session_id context self in
  Conversation.heap self' !! l = Conversation.heap self !! l
  /\ (forall k, Conversation.conversation_history self' !! k <> Some l)
  /\ Conversation.current_context self' = Conversation.current_context self.
Proof.
  intros [c Hc] Hfree self'.
  pose proof (fresh_not_allocated self l c Hc) as Hne.
  unfold self', Conversation.store_session, Conversation.alloc.
  cbn [Conversation.heap Conversation.conversation_history
       Conversation.current_context].
  split; [|split; [|reflexivity]].
  - now apply lookup_insert_ne.
  - intros k. destruct (decide (session_id = k)) as [Heq|Hk].
    + rewrite Heq, lookup_insert_eq. congruence.
    + rewrite lookup_insert_ne by assumption. apply Hfree.
Qed.

Lemma load_sessions_apart (fromisoformat : string -> option Z)
    (items : list (string * Conversation.json))
    (self : Conversation.ConversationManager) (l : Conversation.loc) :
  is_Some (Conversation.heap self !! l) ->
  (forall k, Conversation.conversation_history self !! k <> Some l) ->
  let self' := fst (Conversation.load_sessions fromisoformat items self) in
  Conversation.heap self' !! l = Conversation.heap self !! l
  /\ (forall k, Conversation.conversation_history self' !! k <> Some l)
  /\ Conversation.current_context self' = Conversation.current_context self.
Proof.
  revert self. induction items as [|[k doc] items IH]; intros self Hl Hfree.
  - repeat split; assumption.
  - cbn [Conversation.load_sessions].
    destruct (Conversation.load_context fromisoformat doc) as [|context|];
      [repeat split; assumption| |repeat split; assumption].
    destruct (store_session_apart k context self l Hl Hfree)
      as (Hh & Hf & Hc).
    destruct (IH (Conversation.store_session k context self)) as (Hh' & Hf' & Hc').
    + rewrite Hh. exact Hl.
    + exact Hf.
    + split; [congruence|]. split; [exact Hf'|congruence].
Qed.

(** X15.  When [load_conversation_history] reads a JSON document into
    a manager that has a current conversation, the current conversation
    stays the one it was, but it is no longer part of the history: the
    turns added afterwards change no session of the history, and
    [save_conversation_history] writes the same as without them. *)
Theorem turns_after_load_not_saved (fromisoformat : string -> option Z)
    (filepath : string) (fs : gmap string Conversation.file)
    (doc : Conversation.json) (self : Conversation.ConversationManager)
    (ctx : Conversation.ConversationContext) :
  fs !! filepath = Some (Conversation.Document doc) ->
  Conversation.current self = Some ctx ->
  let loaded :=
    fst (Conversation.load_conversation_history fromisoformat filepath fs self) in
  Conversation.current loaded = Some ctx
  /\ forall calls,
       Conversation.sessions (Samples.add_turns calls loaded)
       = Conversation.sessions loaded
       /\ forall isoformat target writable fs',
            Conversation.save_conversation_history isoformat target writable
              (Samples.add_turns calls loaded) fs'
            = Conversation.save_conversation_history isoformat target writable
                loaded fs'.
Proof.
  intros Hfile Hcur loaded.
  assert (exists l, Conversation.current_context self = Some l
                    /\ Conversation.heap self !! l = Some ctx) as (l & Hl & Hctx).
  { unfold Conversation.current in Hcur.
    destruct (Conversation.current_context self) as [l|]; [eauto|discriminate]. }
  assert (Conversation.heap loaded !! l = Some ctx
          /\ (forall k, Conversation.conversation_history loaded !! k <> Some l)
          /\ Conversation.current_context loaded = Some l)
    as (Hheap & Hfree & Hl').
  { unfold loaded, Conversation.load_conversation_history. rewrite Hfile.
    assert (forall k,
              Conversation.conversation_history
                (Conversation.set_history ∅ self) !! k <> Some l) as Hempty.
    { intros k. cbn. now rewrite lookup_empty. }
    destruct doc as [|b|n|q|s|items|items];
      try (cbn [fst]; split; [exact Hctx|]; split; [exact Hempty|exact Hl]).
    destruct (load_sessions_apart fromisoformat items
                (Conversation.set_history ∅ self) l) as (Hh & Hf & Hc).
    - cbn. rewrite Hctx. eauto.
    - exact Hempty.
    - split; [rewrite Hh; exact Hctx|]. split; [exact Hf|].
      rewrite Hc. exact Hl. }
  split.
  - unfold Conversation.current. now rewrite Hl'.
  - intros calls.
    destruct (add_turns_with_context calls loaded l Hl') as (_ & _ & _ & Hsame).
    specialize (Hsame Hfree). split; [exact Hsame|].
    intros isoformat target writable fs'.
    unfold Conversation.save_conversation_history, Conversation.history_to_json.
    now rewrite Hsame.
Qed.

Lemma turns_after_load_not_saved_witness :
  let loaded :=
    fst (Conversation.load_conversation_history Samples.decimal_fromisoformat
           "history.json"
           {["history.json" := Conversation.Document Samples.old_history]}
           Samples.one_session) in
  Conversation.sessions
    (Samples.add_turns [(Samples.rich_args, Samples.turn_at 6)] loaded)
  = Conversation.sessions loaded.
Proof.
  intros loaded.
  apply (turns_after_load_not_saved Samples.decimal_fromisoformat
           "history.json"
           {["history.json" := Conversation.Document Samples.old_history]}
           Samples.old_history Samples.one_session
           (Samples.fresh_context "kept" 5));
    reflexivity.
Defined.

Lemma append_inj_l (a b c : string) : a ++ b = a ++ c -> b = c.
Proof.
  induction a as [|x a IH]; [now rewrite !append_nil|].
  rewrite !append_cons. intros H. injection H as H. now apply IH.
Qed.

Lemma str_of_int_inj (a b : Z) :
  PyStr.str_of_int a = PyStr.str_of_int b -> a = b.
Proof.
  intros H.
  pose proof (decimal_round_trip a) as Ha.
  pose proof (decimal_round_trip b) as Hb.
  unfold Samples.decimal_isoformat in Ha, Hb.
  unfold PyStr.str_of_int in H. rewrite H in Ha. congruence.
Qed.

(** X16.  The session ids that [start_conversation] generates are
    distinct exactly when the clock readings differ in their whole
    seconds.  When a manager whose references lead somewhere starts a
    conversation without an id, adds turns to it and starts another one
    without an id within the same second, the first conversation is no
    longer in the history. *)
Theorem generated_session_ids (env1 env2 : Conversation.StartEnv)
    (calls : list (Conversation.TurnArgs * Conversation.TurnEnv))
    (self : Conversation.ConversationManager) :
  Samples.well_formed self ->
  let first := fst (Conversation.start_conversation None env1 self) in
  let second :=
    fst (Conversation.start_conversation None env2
           (Samples.add_turns calls first)) in
  (Conversation.new_session_id None env1 = Conversation.new_session_id None env2
   <-> Conversation.epoch_seconds env1 = Conversation.epoch_seconds env2)
  /\ (Conversation.epoch_seconds env1 = Conversation.epoch_seconds env2 ->
      forall k, Conversation.conversation_history second !! k
                <> Conversation.current_context first).
Proof.
  intros [Hwf _] first second.
  assert (Conversation.new_session_id None env1
          = Conversation.new_session_id None env2
          <-> Conversation.epoch_seconds env1 = Conversation.epoch_seconds env2)
    as Hids.
  { unfold Conversation.new_session_id. split.
    - intros H. apply append_inj_l in H. now apply str_of_int_inj.
    - now intros ->. }
  split; [exact Hids|].
  intros Hsame k Hk.
  destruct (start_conversation_state None env1 self)
    as (Hheap1 & Hcur1 & Hhist1 & _).
  fold first in Hheap1, Hcur1, Hhist1. cbv zeta in Hheap1, Hcur1, Hhist1.
  set (l1 := fresh (dom (Conversation.heap self))) in *.
  destruct (add_turns_with_context calls first l1 Hcur1)
    as (_ & Hhist & Hdom & _).
  set (used := Samples.add_turns calls first) in *.
  destruct (start_conversation_state None env2 used)
    as (_ & _ & Hhist2 & _).
  fold second in Hhist2. cbv zeta in Hhist2.
  rewrite Hcur1, Hhist2 in Hk.
  apply map_lookup_filter_Some in Hk as [Hk _].
  apply proj2 in Hids. specialize (Hids Hsame).
  destruct (decide (Conversation.new_session_id None env2 = k)) as [Heq|Hne].
  - rewrite Heq, lookup_insert_eq in Hk. injection Hk as Hk.
    assert (l1 ∈ dom (Conversation.heap used)) as Hin.
    { rewrite Hdom, Hheap1. apply elem_of_dom. rewrite lookup_insert_eq. eauto. }
    rewrite <- Hk in Hin. exact (is_fresh _ Hin).
  - rewrite lookup_insert_ne in Hk by assumption.
    rewrite Hhist, Hhist1 in Hk.
    apply map_lookup_filter_Some in Hk as [Hk _].
    rewrite lookup_insert_ne in Hk by congruence.
    destruct (Hwf k l1 Hk) as [c Hc].
    exact (fresh_not_allocated self l1 c Hc eq_refl).
Qed.

Lemma generated_session_ids_witness :
  let first :=
    fst (Conversation.start_conversation None Samples.sample_start
           (Conversation.create_conversation_manager 10 30)) in
  let second :=
    fst (Conversation.start_conversation None Samples.sample_start
           (Samples.add_turns [(Samples.rich_args, Samples.turn_at 6)] first)) in
  Conversation.conversation_history second !! "session_0"
  <> Conversation.current_context first.
Proof.
  intros first second.
  apply (generated_session_ids Samples.sample_start Samples.sample_start
           [(Samples.rich_args, Samples.turn_at 6)]
           (Conversation.create_conversation_manager 10 30)).
  - apply create_well_formed.
  - reflexivity.
Defined.



(** ** The agent *)

Section ScanBound.

Context {A : Type} (label : A -> string) (score : A -> Q).
Context (step : AICore.Match -> A -> AICore.Match).
Hypothesis step_consider :
  forall best x, step best x = AICore.consider best (label x) (score x).

(** The confidence a loop returns is at least every score it saw. *)
Lemma scan_upper_bound (l : list A) (best : AICore.Match) (x : A) :
  In x l ->
  (score x <= AICore.match_confidence (fold_left step l best))%Q.
Proof.
  revert best. induction l as [|a l IH]; intros best Hx; [destruct Hx|].
  cbn [fold_left]. destruct Hx as [->|Hx]; [|now apply IH].
  eapply Qle_trans;
    [|exact (scan_confidence_grows label score step step_consider l
               (step best x))].
  rewrite step_consider. unfold AICore.consider.
  destruct (Score.gt (score x) (AICore.match_confidence best)) eqn:E.
  - apply Qle_refl.
  - now apply gt_false.
Qed.

End ScanBound.

Lemma suggestion_line_low (i : Z) (suggestion : AICore.Suggestion)
    (description : string) :
  AICore.s_description suggestion = Some description ->
  (AICore.s_confidence suggestion < 3 # 10)%Q ->
  Agent.suggestion_line i suggestion
  = Some ("  " ++ PyStr.str_of_int i ++ ". " ++ description ++ " (LOW)").
Proof.
  intros Hd Hlow. unfold Agent.suggestion_line. rewrite Hd.
  assert (Score.gt (AICore.s_confidence suggestion) (7 # 10) = false) as ->.
  { apply gt_false. apply Qlt_le_weak.
    eapply Qlt_trans; [exact Hlow | reflexivity]. }
  assert (Score.gt (AICore.s_confidence suggestion) (4 # 10) = false) as ->.
  { apply gt_false. apply Qlt_le_weak.
    eapply Qlt_trans; [exact Hlow | reflexivity]. }
  reflexivity.
Qed.

(** X18.  When the agent asks back in embedding mode, on the core as
    constructed: an utterance that [understand_input] resolves with a
    confidence below 0.3 changes nothing in the agent and is answered
    with exactly three numbered suggestions, those of [get_suggestions]
    with limit 3, and every one of them is marked LOW. *)
Theorem clarification_all_low
    (cosine_similarity : list Q -> list Q -> Q) (cfg : AICore.Config)
    (nlp : option (string -> AICore.Doc)) (encode : string -> list Q)
    (user_input : string) (run : Agent.run_outcome)
    (env : Conversation.TurnEnv) (self : Agent.AIAgentPlugin) :
  let core := AICore.create_ai_core cfg nlp (Some encode) in
  Agent.initialized self = true ->
  Agent.ai_core self = Some core ->
  (AICore.confidence (AICore.understand_input cosine_similarity core user_input)
   < 3 # 10)%Q ->
  exists s1 s2 s3 d1 d2 d3,
    AICore.get_suggestions cosine_similarity core user_input (Some 3)
    = Some [s1; s2; s3]
    /\ AICore.s_description s1 = Some d1
    /\ AICore.s_description s2 = Some d2
    /\ AICore.s_description s3 = Some d3
    /\ Agent._process_natural_language cosine_similarity user_input run env self
       = (self,
          Agent.AskedBack ["  1. " ++ d1 ++ " (LOW)";
                           "  2. " ++ d2 ++ " (LOW)";
                           "  3. " ++ d3 ++ " (LOW)"]).
Proof.
  intros core Hinit Hcore Hlow.
  set (text := AICore._clean_input user_input).
  destruct (collect_suggestions_created cosine_similarity cfg nlp encode
              (encode text)) as (candidates & Hcollect & Hcand & Hdesc).
  fold core in Hcollect, Hcand.
  pose proof (sort_desc_perm candidates) as Hperm.
  assert (length (AICore.sort_desc candidates) = 12%nat) as Hlen.
  { rewrite (Permutation_length Hperm), Hcand. reflexivity. }
  assert (Forall (fun s => (exists d, AICore.s_description s = Some d)
                           /\ (AICore.s_confidence s < 3 # 10)%Q)
            (AICore.sort_desc candidates)) as Hall.
  { apply List.Forall_forall. intros s Hs.
    apply (Permutation_in _ Hperm) in Hs.
    destruct (proj1 (List.Forall_forall _ _) Hdesc s Hs) as (info & _ & Hd).
    split; [eauto|].
    rewrite Hcand in Hs. apply in_map_iff in Hs as (e & <- & He).
    cbn [AICore.s_confidence].
    eapply Qle_lt_trans; [|exact Hlow].
    exact (scan_upper_bound fst
             (fun e : string * list Q =>
                cosine_similarity (encode text) (snd e)) _
             (embedding_matching_fold cosine_similarity (encode text))
             (AICore.plugin_embeddings core) AICore.default_match e He). }
  destruct (AICore.sort_desc candidates) as [|s1 [|s2 [|s3 rest]]] eqn:Hsort;
    try discriminate.
  inversion Hall as [|? ? [[d1 Hd1] Hl1] Hall1]; subst.
  inversion Hall1 as [|? ? [[d2 Hd2] Hl2] Hall2]; subst.
  inversion Hall2 as [|? ? [[d3 Hd3] Hl3] _]; subst.
  assert (AICore.get_suggestions cosine_similarity core user_input (Some 3)
          = Some [s1; s2; s3]) as Hget.
  { unfold AICore.get_suggestions.
    change (AICore.sentence_model core) with (Some encode).
    cbv zeta iota beta. fold text. rewrite Hcollect, Hsort. reflexivity. }
  exists s1, s2, s3, d1, d2, d3.
  repeat (split; [assumption|]).
  unfold Agent._process_natural_language.
  rewrite Hinit, Hcore. cbv zeta.
  rewrite (proj2 (gt_true _ _) Hlow), Hget.
  cbn [Agent._show_suggestions].
  rewrite (suggestion_line_low _ s1 d1 Hd1 Hl1),
    (suggestion_line_low _ s2 d2 Hd2 Hl2),
    (suggestion_line_low _ s3 d3 Hd3 Hl3).
  change (PyStr.str_of_int 1) with "1".
  change (PyStr.str_of_int (1 + 1)) with "2".
  change (PyStr.str_of_int (1 + 1 + 1)) with "3".
  rewrite ?append_cons, ?append_nil. reflexivity.
Qed.

Lemma clarification_all_low_witness :
  exists lines,
    Agent._process_natural_language Samples.cosine_1d "what time is it"
      Agent.TimeoutExpired (Samples.turn_at 6)
      {| Agent.initialized := true;
         Agent.ai_core :=
           Some (AICore.create_ai_core AICore.default_config None
                   (Some Samples.encode_by_length));
         Agent.conversation_manager := Some Samples.one_session |}
    = ({| Agent.initialized := true;
          Agent.ai_core :=
            Some (AICore.create_ai_core AICore.default_config None
                    (Some Samples.encode_by_length));
          Agent.conversation_manager := Some Samples.one_session |},
       Agent.AskedBack lines).
Proof.
  destruct (clarification_all_low Samples.cosine_1d AICore.default_config None
              Samples.encode_by_length "what time is it" Agent.TimeoutExpired
              (Samples.turn_at 6)
              {| Agent.initialized := true;
                 Agent.ai_core :=
                   Some (AICore.create_ai_core AICore.default_config None
                           (Some Samples.encode_by_length));
                 Agent.conversation_manager := Some Samples.one_session |}
              eq_refl eq_refl)
    as (s1 & s2 & s3 & d1 & d2 & d3 & _ & _ & _ & _ & Hrun).
  - vm_compute. reflexivity.
  - eexists. exact Hrun.
Defined.

(** X19.  On a core without a sentence model the agent cannot ask
    back: an utterance that [understand_input] resolves with a
    confidence below 0.3 ends in the caught error of the suggestion
    without description; no command is run, no turn is recorded and the
    agent is unchanged. *)
Theorem clarification_keyword_mode_fails
    (cosine_similarity : list Q -> list Q -> Q) (core : AICore.SarahAICore)
    (user_input : string) (run : Agent.run_outcome)
    (env : Conversation.TurnEnv) (self : Agent.AIAgentPlugin) :
  Agent.initialized self = true ->
  Agent.ai_core self = Some core ->
  AICore.sentence_model core = None ->
  (AICore.confidence (AICore.understand_input cosine_similarity core user_input)
   < 3 # 10)%Q ->
  Agent._process_natural_language cosine_similarity user_input run env self
  = (self, Agent.ErrorCaught).
Proof.
  intros Hinit Hcore Hmodel Hlow.
  unfold Agent._process_natural_language.
  rewrite Hinit, Hcore. cbv zeta.
  rewrite (proj2 (gt_true _ _) Hlow).
  unfold AICore.get_suggestions. rewrite Hmodel. reflexivity.
Qed.

Lemma clarification_keyword_mode_fails_witness :
  Agent._process_natural_language Samples.cosine_1d "xyz"
    (Agent.Completed 0 "" "") (Samples.turn_at 6)
    {| Agent.initialized := true;
       Agent.ai_core := Some Samples.keyword_core;
       Agent.conversation_manager := Some Samples.one_session |}
  = ({| Agent.initialized := true;
        Agent.ai_core := Some Samples.keyword_core;
        Agent.conversation_manager := Some Samples.one_session |},
     Agent.ErrorCaught).
Proof.
  apply (clarification_keyword_mode_fails Samples.cosine_1d
           Samples.keyword_core);
    reflexivity.
Defined.

Lemma execute_plugin_returncode (intent : AICore.Intent)
    (run : Agent.run_outcome) :
  Agent._execute_plugin intent run
  = match run with
    | Agent.Completed returncode _ _ => returncode =? 0
    | _ => false
    end.
Proof.
  destruct run as [returncode stdout stderr| |]; try reflexivity.
  unfold Agent._execute_plugin.
  destruct (returncode =? 0), (stderr =? "")%string; reflexivity.
Qed.

(** X20.  An utterance resolved with a confidence of at least 0.3, on
    an agent whose manager has a current conversation and a maximum of
    turns that is not negative: the agent runs
    [sarah <plugin> <arguments>], succeeds exactly when the command
    completes with return code 0, whatever it wrote to its error
    stream, and the last turn of the current conversation is then this
    utterance, with the resolved plugin, confidence and entities, the
    success, and the response text that goes with it. *)
Theorem processed_turn_recorded
    (cosine_similarity : list Q -> list Q -> Q) (core : AICore.SarahAICore)
    (manager : Conversation.ConversationManager)
    (ctx : Conversation.ConversationContext)
    (user_input : string) (run : Agent.run_outcome)
    (env : Conversation.TurnEnv) (self : Agent.AIAgentPlugin) :
  Agent.initialized self = true ->
  Agent.ai_core self = Some core ->
  Agent.conversation_manager self = Some manager ->
  Conversation.current manager = Some ctx ->
  0 <= Conversation.max_context_turns manager ->
  let intent := AICore.understand_input cosine_similarity core user_input in
  (3 # 10 <= AICore.confidence intent)%Q ->
  let success :=
    match run with
    | Agent.Completed returncode _ _ => returncode =? 0
    | _ => false
    end in
  exists manager' ctx',
    Agent._process_natural_language cosine_similarity user_input run env self
    = ({| Agent.initialized := true;
          Agent.ai_core := Some core;
          Agent.conversation_manager := Some manager' |},
       Agent.Ran ("sarah" :: AICore.plugin_name intent
                  :: Agent._prepare_plugin_args intent) success)
    /\ Conversation.current manager' = Some ctx'
    /\ last (Conversation.turns ctx')
       = Some {| Conversation.timestamp := Conversation.now_turn env;
                 Conversation.user_input := user_input;
                 Conversation.intent_plugin := AICore.plugin_name intent;
                 Conversation.intent_confidence := AICore.confidence intent;
                 Conversation.entities := AICore.entities intent;
                 Conversation.sarah_response :=
                   if success then "Command executed successfully"
                   else "Command failed";
                 Conversation.execution_successful := success |}.
Proof.
  intros Hinit Hcore Hmanager Hcur Hmax intent Hconf success.
  set (args :=
         {| Conversation.arg_user_input := user_input;
            Conversation.arg_intent_plugin := AICore.plugin_name intent;
            Conversation.arg_intent_confidence := AICore.confidence intent;
            Conversation.arg_entities := AICore.entities intent;
            Conversation.arg_sarah_response :=
              if success then "Command executed successfully"
              else "Command failed";
            Conversation.arg_execution_successful := success |}).
  destruct (add_turn_current args env manager ctx Hcur)
    as (ctx' & Hcur' & _ & Hturns).
  exists (Conversation.add_turn args env manager), ctx'.
  split; [|split; [exact Hcur'|]].
  - unfold Agent._process_natural_language.
    rewrite Hinit, Hcore, Hmanager. cbv zeta. fold intent.
    rewrite (proj2 (gt_false _ _) Hconf), execute_plugin_returncode.
    reflexivity.
  - rewrite Hturns. now apply last_trim_turns.
Qed.

Lemma processed_turn_recorded_witness :
  exists manager',
    Agent._process_natural_language Samples.cosine_1d
      "weather forecast temperature" (Agent.Completed 2 "" "") (Samples.turn_at 6)
      {| Agent.initialized := true;
         Agent.ai_core := Some Samples.keyword_core;
         Agent.conversation_manager := Some Samples.one_session |}
    = ({| Agent.initialized := true;
          Agent.ai_core := Some Samples.keyword_core;
          Agent.conversation_manager := Some manager' |},
       Agent.Ran ["sarah"; "weather"; "weather"; "forecast"; "temperature"]
         false).
Proof.
  destruct (processed_turn_recorded Samples.cosine_1d Samples.keyword_core
              Samples.one_session (Samples.fresh_context "kept" 5)
              "weather forecast temperature" (Agent.Completed 2 "" "")
              (Samples.turn_at 6)
              {| Agent.initialized := true;
                 Agent.ai_core := Some Samples.keyword_core;
                 Agent.conversation_manager := Some Samples.one_session |}
              eq_refl eq_refl eq_refl eq_refl)
    as (manager' & ctx' & Hrun & _).
  - vm_compute. discriminate.
  - vm_compute. discriminate.
  - exists manager'. exact Hrun.
Defined.

(** X21.  Without a recogniser the arguments of the command are the
    words of the cleaned utterance that are longer than two characters
    and no stop words, in their order, for every plugin: no place and
    no person is ever passed apart. *)
Theorem plugin_args_without_recogniser
    (cosine_similarity : list Q -> list Q -> Q) (core : AICore.SarahAICore)
    (user_input : string) :
  AICore.nlp core = None ->
  Agent._prepare_plugin_args
    (AICore.understand_input cosine_similarity core user_input)
  = List.filter (fun word =>
                   negb (PyStr.mem word AICore.stop_words)
                   && (2 <? String.length word)%nat)
      (PyStr.split (AICore._clean_input user_input)).
Proof.
  intros Hnlp.
  unfold Agent._prepare_plugin_args, AICore.understand_input.
  cbn [AICore.entities AICore.plugin_name].
  unfold AICore._extract_entities. rewrite Hnlp. cbv zeta.
  destruct (List.filter _ (PyStr.split (AICore._clean_input user_input)))
    as [|term terms].
  - cbn [AICore.set_search_terms AICore.no_entities AICore.search_terms
         AICore.gpe AICore.loc AICore.person].
    destruct (PyStr.mem _ ["weather"; "adhan"]), (String.eqb _ "whois");
      reflexivity.
  - cbn [AICore.set_search_terms AICore.no_entities AICore.search_terms
         AICore.gpe AICore.loc AICore.person].
    destruct (PyStr.mem _ ["weather"; "adhan"]), (String.eqb _ "whois");
      reflexivity.
Qed.

Lemma plugin_args_without_recogniser_witness :
  Agent._prepare_plugin_args
    (AICore.understand_input Samples.cosine_1d Samples.keyword_core
       "What is the Weather in Paris")
  = ["what"; "weather"; "paris"].
Proof.
  rewrite (plugin_args_without_recogniser Samples.cosine_1d
             Samples.keyword_core "What is the Weather in Paris" eq_refl).
  vm_compute. reflexivity.
Defined.

Lemma fallback_match_fold (user_lower : string)
    (mapping : list (string * list string)) (best : option string * nat) :
  let result :=
    fold_left
      (fun best '(plugin, keywords) =>
         let matches :=
           length (List.filter (fun keyword => PyStr.contains keyword user_lower)
                               keywords) in
         if (snd best <? matches)%nat then (Some plugin, matches) else best)
      mapping best in
  (forall entry,
     In entry mapping ->
     (length (List.filter (fun keyword => PyStr.contains keyword user_lower)
                (snd entry)) <= snd result)%nat)
  /\ (snd best <= snd result)%nat
  /\ (result = best
      \/ exists entry,
           In entry mapping
           /\ result
              = (Some (fst entry),
                 length (List.filter
                           (fun keyword => PyStr.contains keyword user_lower)
                           (snd entry)))
           /\ (snd best
               < length (List.filter
                           (fun keyword => PyStr.contains keyword user_lower)
                           (snd entry)))%nat).
Proof.
  revert best.
  induction mapping as [|[plugin keywords] mapping IH]; intros best.
  - split; [intros entry []|]. split; [reflexivity|now left].
  - cbv zeta in IH |- *. cbn [fold_left].
    set (matches :=
           length (List.filter
                     (fun keyword => PyStr.contains keyword user_lower)
                     keywords)).
    destruct (snd best <? matches)%nat eqn:E.
    + apply Nat.ltb_lt in E.
      destruct (IH (Some plugin, matches)) as (Hall & Hle & Hres).
      cbn [snd] in Hle. split; [|split; [lia|]].
      * intros entry [<-|Hin]; [exact Hle | now apply Hall].
      * right. destruct Hres as [Heq|(entry & Hin & Heq & Hlt)].
        -- exists (plugin, keywords). split; [now left|].
           split; [exact Heq | exact E].
        -- exists entry. split; [now right|]. split; [exact Heq|].
           cbn [snd] in Hlt. lia.
    + apply Nat.ltb_ge in E.
      destruct (IH best) as (Hall & Hle & Hres).
      split; [|split; [exact Hle|]].
      * intros entry [<-|Hin]; [cbn [snd]; fold matches; lia | now apply Hall].
      * destruct Hres as [Heq|(entry & Hin & Heq & Hlt)]; [now left|].
        right. exists entry. split; [now right|]. now split.
Qed.

Lemma filter_contains_zero (text : string) (keywords : list string) :
  length (List.filter (fun keyword => PyStr.contains keyword text) keywords)
  = 0%nat
  <-> forall keyword, In keyword keywords ->
                      ~ Samples.substring_of keyword text.
Proof.
  induction keywords as [|k keywords IH]; cbn [List.filter].
  - split; [intros _ keyword []|reflexivity].
  - destruct (PyStr.contains k text) eqn:E.
    + split; [discriminate|]. intros H. exfalso.
      apply (H k); [now left | now apply contains_spec].
    + rewrite IH. split.
      * intros H keyword [<-|Hin]; [|now apply H].
        intros Hsub. apply contains_spec in Hsub. congruence.
      * intros H keyword Hin. apply H. now right.
Qed.

(** X22.  [_fallback_processing] runs no command exactly when no
    keyword of its mapping occurs in the lowered utterance.  Otherwise
    it runs [sarah <plugin> <arguments>] for a plugin of the mapping of
    which a keyword occurs in the lowered utterance, and which has as
    many keywords occurring as any other; the arguments are at most
    five words of the utterance as typed, each longer than two
    characters. *)
Theorem fallback_processing_command (user_input : string) :
  match Agent._fallback_processing user_input with
  | None =>
      forall plugin keywords keyword,
        In (plugin, keywords) Agent.keyword_mapping ->
        In keyword keywords ->
        ~ Samples.substring_of keyword (PyStr.lower user_input)
  | Some command =>
      exists plugin keywords keyword arguments,
        command = "sarah" :: plugin :: arguments
        /\ In (plugin, keywords) Agent.keyword_mapping
        /\ In keyword keywords
        /\ Samples.substring_of keyword (PyStr.lower user_input)
        /\ (forall other,
              In other Agent.keyword_mapping ->
              (length (List.filter
                         (fun keyword =>
                            PyStr.contains keyword (PyStr.lower user_input))
                         (snd other))
               <= length (List.filter
                            (fun keyword =>
                               PyStr.contains keyword (PyStr.lower user_input))
                            keywords))%nat)
        /\ (length arguments <= 5)%nat
        /\ forall word,
             In word arguments ->
             In word (PyStr.split user_input)
             /\ (2 < String.length word)%nat
  end.
Proof.
  unfold Agent._fallback_processing. cbv zeta.
  destruct (fallback_match_fold (PyStr.lower user_input) Agent.keyword_mapping
              (None, 0%nat)) as (Hall & _ & Hres).
  cbv zeta in Hall, Hres. fold (Agent.fallback_match (PyStr.lower user_input))
    in Hall, Hres.
  destruct Hres as [Heq|([plugin keywords] & Hin & Heq & Hlt)];
    rewrite Heq in Hall |- *.
  - intros plugin keywords keyword Hin Hk.
    specialize (Hall _ Hin). cbn [snd] in Hall.
    assert (length (List.filter
                      (fun keyword =>
                         PyStr.contains keyword (PyStr.lower user_input))
                      keywords) = 0%nat) as Hzero by lia.
    exact (proj1 (filter_contains_zero _ _) Hzero keyword Hk).
  - cbn [fst snd] in *.
    destruct (0 <? _)%nat eqn:E; [|apply Nat.ltb_ge in E; lia].
    assert (exists keyword,
              In keyword keywords
              /\ Samples.substring_of keyword (PyStr.lower user_input))
      as (keyword & Hk & Hsub).
    { destruct (List.filter _ keywords) as [|k rest] eqn:Ef;
        [cbn in Hlt; lia|].
      assert (In k (List.filter
                      (fun keyword =>
                         PyStr.contains keyword (PyStr.lower user_input))
                      keywords)) as Hk by (rewrite Ef; now left).
      apply List.filter_In in Hk as [Hk Hc].
      exists k. split; [exact Hk | now apply contains_spec]. }
    eexists plugin, keywords, keyword, _.
    split; [reflexivity|]. split; [exact Hin|]. split; [exact Hk|].
    split; [exact Hsub|]. split; [exact Hall|]. split.
    + rewrite List.length_firstn. lia.
    + intros word Hw. apply In_firstn in Hw.
      apply List.filter_In in Hw as [Hw Hlen].
      split; [exact Hw | now apply Nat.ltb_lt].
Qed.

(** ** The window of turns *)

(** X23.  In a manager with a maximum of at least 1, a conversation
    begun by [start_conversation] holds, after any sequence of
    [add_turn] calls, the turns of the most recent calls, oldest first:
    all of them while they are no more than the maximum, the last
    [max_context_turns] of them afterwards. *)
Theorem turns_window (session_id_arg : option string)
    (env : Conversation.StartEnv)
    (calls : list (Conversation.TurnArgs * Conversation.TurnEnv))
    (self : Conversation.ConversationManager) :
  1 <= Conversation.max_context_turns self ->
  let started :=
    fst (Conversation.start_conversation session_id_arg env self) in
  exists ctx',
    Conversation.current (Samples.add_turns calls started) = Some ctx'
    /\ Conversation.turns ctx'
       = Samples.most_recent (Z.to_nat (Conversation.max_context_turns self))
           (Samples.turns_of calls)
    /\ length (Conversation.turns ctx')
       = Nat.min (length calls) (Z.to_nat (Conversation.max_context_turns self)).
Proof.
  intros Hmax started.
  destruct (start_conversation_state session_id_arg env self)
    as (Hheap & Hcur & _ & Hmax' & _).
  fold started in Hheap, Hcur, Hmax'. cbv zeta in Hheap, Hcur.
  assert (Conversation.current started
          = Some (Samples.fresh_context
                    (Conversation.new_session_id session_id_arg env)
                    (Conversation.now_started env))) as Hctx.
  { unfold Conversation.current. rewrite Hcur, Hheap. apply lookup_insert_eq. }
  destruct (add_turns_most_recent calls started _ [] ltac:(lia) Hctx)
    as (ctx' & Hcur' & Hturns).
  { reflexivity. }
  rewrite Hmax' in Hturns. cbn [app] in Hturns.
  exists ctx'. split; [exact Hcur'|]. split; [exact Hturns|].
  rewrite Hturns. unfold Samples.most_recent, Samples.turns_of.
  rewrite List.length_skipn, List.length_map. lia.
Qed.

Lemma turns_window_witness :
  exists ctx',
    Conversation.current
      (Samples.add_turns
         [(Samples.sample_args "weather today" "weather", Samples.turn_at 6);
          (Samples.sample_args "what time is it" "time", Samples.turn_at 7);
          (Samples.sample_args "weather tomorrow" "weather", Samples.turn_at 8)]
         (fst (Conversation.start_conversation (Some "s") Samples.sample_start
                 (Conversation.create_conversation_manager 2 30))))
    = Some ctx'
    /\ length (Conversation.turns ctx') = 2%nat.
Proof.
  destruct (turns_window (Some "s") Samples.sample_start
              [(Samples.sample_args "weather today" "weather", Samples.turn_at 6);
               (Samples.sample_args "what time is it" "time", Samples.turn_at 7);
               (Samples.sample_args "weather tomorrow" "weather",
                Samples.turn_at 8)]
              (Conversation.create_conversation_manager 2 30))
    as (ctx' & Hcur & _ & Hlen).
  - cbn. lia.
  - exists ctx'. split; [exact Hcur | exact Hlen].
Defined.

Lemma last_interaction_add_turn (entities : AICore.Entities)
    (intent_plugin : string) (max_context_turns : Z)
    (turn : Conversation.ConversationTurn)
    (ctx : Conversation.ConversationContext) :
  Conversation.last_interaction
    (Conversation._update_user_preferences entities intent_plugin
       (Conversation.trim_turns max_context_turns
          (Conversation._update_active_topic intent_plugin entities
             (Conversation.append_turn turn ctx))))
  = Conversation.timestamp turn.
Proof.
  assert (forall c,
            Conversation.last_interaction
              (Conversation._update_user_preferences entities intent_plugin c)
            = Conversation.last_interaction c) as ->.
  { intros c. unfold Conversation._update_user_preferences.
    destruct (AICore.gpe entities), (AICore.loc entities); reflexivity. }
  assert (forall c,
            Conversation.last_interaction
              (Conversation.trim_turns max_context_turns c)
            = Conversation.last_interaction c) as ->.
  { intros c. unfold Conversation.trim_turns.
    destruct (_ <? _); reflexivity. }
  unfold Conversation._update_active_topic.
  destruct (AICore.search_terms entities) as [[|term terms]|];
    try reflexivity; destruct (PyStr.mem _ _); reflexivity.
Qed.

(** X24.  In a manager with a negative maximum, a current conversation
    without turns never keeps one: after any sequence of [add_turn]
    calls its list of turns is still empty, while its last interaction
    is updated all the same. *)
Theorem negative_maximum_keeps_no_turn
    (calls : list (Conversation.TurnArgs * Conversation.TurnEnv))
    (self : Conversation.ConversationManager)
    (ctx : Conversation.ConversationContext) :
  Conversation.max_context_turns self < 0 ->
  Conversation.current self = Some ctx ->
  Conversation.turns ctx = [] ->
  exists ctx',
    Conversation.current (Samples.add_turns calls self) = Some ctx'
    /\ Conversation.turns ctx' = []
    /\ Conversation.last_interaction ctx'
       = match last calls with
         | Some call => Conversation.now_turn (snd call)
         | None => Conversation.last_interaction ctx
         end.
Proof.
  revert self ctx.
  induction calls as [|[args env] calls IH]; intros self ctx Hmax Hcur Hempty.
  - exists ctx. repeat split; assumption.
  - pose proof (add_turn_current_context args env self ctx Hcur) as Hnext.
    destruct (add_turn_current args env self ctx Hcur)
      as (ctx1 & Hcur1 & Hmax1 & Hturns1).
    assert (Conversation.turns ctx1 = []) as Hempty1.
    { rewrite Hturns1. unfold Conversation.trim_turns.
      cbn [Conversation.turns Conversation.append_turn].
      rewrite Hempty. cbn [app length].
      destruct (_ <? _) eqn:E; [|apply Z.ltb_ge in E; lia].
      cbn [Conversation.turns]. unfold PyStr.slice_last.
      destruct (0 <? _) eqn:E0; [apply Z.ltb_lt in E0; lia|].
      destruct (Z.to_nat (- Conversation.max_context_turns self))
        as [|[|n]] eqn:En; [lia|reflexivity|reflexivity]. }
    destruct (IH (Conversation.add_turn args env self) ctx1)
      as (ctx' & Hcur' & Hempty' & Hlast); [lia|exact Hcur1|exact Hempty1|].
    exists ctx'. split; [exact Hcur'|]. split; [exact Hempty'|].
    rewrite Hlast. destruct calls as [|call calls].
    2: { change (last ((args, env) :: call :: calls))
           with (last (call :: calls)).
         destruct (last (call :: calls)) eqn:El; [reflexivity|].
         apply last_None in El. discriminate. }
    cbn [last snd]. rewrite Hnext in Hcur1. injection Hcur1 as <-.
    apply last_interaction_add_turn.
Qed.

Lemma negative_maximum_keeps_no_turn_witness :
  exists ctx',
    Conversation.current
      (Samples.add_turns
         [(Samples.sample_args "weather today" "weather", Samples.turn_at 6);
          (Samples.sample_args "what time is it" "time", Samples.turn_at 7)]
         (fst (Conversation.start_conversation (Some "s") Samples.sample_start
                 (Conversation.create_conversation_manager (-1) 30))))
    = Some ctx'
    /\ Conversation.turns ctx' = [].
Proof.
  destruct (negative_maximum_keeps_no_turn
              [(Samples.sample_args "weather today" "weather", Samples.turn_at 6);
               (Samples.sample_args "what time is it" "time", Samples.turn_at 7)]
              (fst (Conversation.start_conversation (Some "s")
                      Samples.sample_start
                      (Conversation.create_conversation_manager (-1) 30)))
              (Samples.fresh_context "s" 5))
    as (ctx' & Hcur & Hempty & _).
  - cbn. lia.
  - reflexivity.
  - reflexivity.
  - exists ctx'. split; [exact Hcur | exact Hempty].
Defined.
